(** * Subagent orchestration core of clawdbot: spawn engine and command surface

    Shallow embedding of
      - [src/agents/subagent-spawn.ts]  (splitModelRef, normalizeModelSelection,
        spawnSubagentDirect), and
      - the /subagents command handler (resolveSubagentTarget, the list, kill,
        info, log, send, steer and spawn actions of handleSubagentsCommand).

    Asynchronous code is embedded as explicit state passing over a [World]
    holding the run registry, the session stores, the clock, the UUID supply
    and the trace of effects performed so far.  Replies of the gateway are
    drawn from an oracle that sees the trace, so one method can answer
    differently on successive calls.  One call of a function runs to its
    end without interleaving, and the clock reads the same throughout it.

    Strings are byte strings.  The JavaScript string methods are embedded on
    the ASCII range: white space is the six ASCII white-space characters and
    case folding touches [A-Z] only.  Integers that the code obtains with
    [Number.parseInt] from an all-digit token are embedded as exact naturals;
    every comparison the code makes on them ([idx > length], [min 200]) has
    the same outcome on the rounded double. *)

From Stdlib Require Import ZArith Ascii String List Lia Bool Sorted Permutation.
From stdpp Require Import base option list strings gmap pretty.

Local Open Scope string_scope.
Local Open Scope Z_scope.

(** ** JavaScript string methods *)

Module Js.

Definition isWhitespace (c : ascii) : bool :=
  let n := nat_of_ascii c in
  ((9 <=? n)%nat && (n <=? 13)%nat) || (n =? 32)%nat.

Definition isDigit (c : ascii) : bool :=
  let n := nat_of_ascii c in
  (48 <=? n)%nat && (n <=? 57)%nat.

Fixpoint trimStart (s : string) : string :=
  match s with
  | String c rest => if isWhitespace c then trimStart rest else s
  | EmptyString => EmptyString
  end.

(** [trimEnd] keeps a character when it is not white space or when
    something that is not white space follows it. *)
Fixpoint trimEnd (s : string) : string :=
  match s with
  | String c rest =>
      match trimEnd rest with
      | EmptyString => if isWhitespace c then EmptyString else String c EmptyString
      | rest' => String c rest'
      end
  | EmptyString => EmptyString
  end.

Definition trim (s : string) : string := trimEnd (trimStart s).

Definition lowerChar (c : ascii) : ascii :=
  let n := nat_of_ascii c in
  if ((65 <=? n)%nat && (n <=? 90)%nat)%bool then ascii_of_nat (n + 32) else c.

Fixpoint toLowerCase (s : string) : string :=
  match s with
  | String c rest => String (lowerChar c) (toLowerCase rest)
  | EmptyString => EmptyString
  end.

(** [s.startsWith(p)] *)
Definition startsWith (s p : string) : bool := String.prefix p s.

(** [s.includes(needle)] *)
Fixpoint includes (s needle : string) : bool :=
  String.prefix needle s ||
  match s with
  | String _ rest => includes rest needle
  | EmptyString => false
  end.

(** [s.slice(n)] and [s.slice(0, n)] for [0 <= n]. *)
Fixpoint sliceFrom (n : nat) (s : string) : string :=
  match n, s with
  | O, _ => s
  | S n', String _ rest => sliceFrom n' rest
  | S _, EmptyString => EmptyString
  end.

Fixpoint sliceTo (n : nat) (s : string) : string :=
  match n, s with
  | S n', String c rest => String c (sliceTo n' rest)
  | _, _ => EmptyString
  end.

(** [/^\d+$/.test(s)] *)
Fixpoint allDigits (s : string) : bool :=
  match s with
  | String c rest => isDigit c && allDigits rest
  | EmptyString => true
  end.

Definition isDigits (s : string) : bool :=
  match s with
  | EmptyString => false
  | _ => allDigits s
  end.

(** [Number.parseInt(s, 10)] on an all-digit string. *)
Fixpoint parseDigits (acc : N) (s : string) : N :=
  match s with
  | String c rest =>
      if isDigit c
      then parseDigits (10 * acc + N.of_nat (nat_of_ascii c - 48))%N rest
      else acc
  | EmptyString => acc
  end.

Definition parseInt (s : string) : N := parseDigits 0%N s.

(** [s.split(/\s+/).filter(Boolean)]: the maximal runs of characters that
    are not white space.  [cur] is the run being read, reversed. *)
Fixpoint tokensFrom (cur : list ascii) (s : string) : list string :=
  let flush (k : list string) :=
    match cur with
    | [] => k
    | _ => string_of_list_ascii (rev cur) :: k
    end in
  match s with
  | String c rest =>
      if isWhitespace c then flush (tokensFrom [] rest)
      else tokensFrom (c :: cur) rest
  | EmptyString => flush []
  end.

Definition splitWhitespace (s : string) : list string := tokensFrom [] s.

(** [s.replace(/\s+/g, " ")] *)
Fixpoint collapseWhitespace (inRun : bool) (s : string) : string :=
  match s with
  | String c rest =>
      if isWhitespace c
      then (if inRun then collapseWhitespace true rest
            else String " "%char (collapseWhitespace true rest))
      else String c (collapseWhitespace false rest)
  | EmptyString => EmptyString
  end.

(** [s.lastIndexOf("/")], [None] standing for -1. *)
Fixpoint lastIndexOfSlash (i : nat) (s : string) : option nat :=
  match s with
  | String c rest =>
      match lastIndexOfSlash (S i) rest with
      | Some j => Some j
      | None => if Ascii.eqb c "/"%char then Some i else None
      end
  | EmptyString => None
  end.

(** [s.split("/", 2)]: the text before the first slash, and the text
    between the first and the second slash (when there is a first). *)
Fixpoint untilSlash (s : string) : string * option string :=
  match s with
  | String c rest =>
      if Ascii.eqb c "/"%char then (EmptyString, Some rest)
      else let '(a, b) := untilSlash rest in (String c a, b)
  | EmptyString => (EmptyString, None)
  end.

Definition split2Slash (s : string) : string * option string :=
  let '(a, r) := untilSlash s in
  (a, (fun r' => fst (untilSlash r')) <$> r).

(** Truthiness of a string: non-empty. *)
Definition truthy (s : string) : bool :=
  match s with EmptyString => false | _ => true end.

(** [a || b] on [string | undefined]. *)
Definition orElse (a : option string) (b : option string) : option string :=
  match a with
  | Some s => if truthy s then a else b
  | None => b
  end.

(** [x ? x : undefined] style narrowing of a string to a truthy one. *)
Definition nonEmpty (s : string) : option string :=
  if truthy s then Some s else None.

End Js.

(** ** Untyped values

    Gateway responses, chat messages and the loosely typed parts of the
    configuration reach the code as [unknown]; the code narrows them with
    [typeof] tests.  They are embedded as JSON-like values. *)

#[local] Unset Elimination Schemes.
Inductive JsValue : Type :=
| JUndefined
| JNull
| JBool (b : bool)
| JNum (z : Z)
| JStr (s : string)
| JArr (items : list JsValue)
| JObj (fields : list (string * JsValue)).
#[local] Set Elimination Schemes.

Fixpoint assocGet (k : string) (fields : list (string * JsValue)) : JsValue :=
  match fields with
  | (k', v) :: rest => if String.eqb k k' then v else assocGet k rest
  | [] => JUndefined
  end.

(** [v?.k] *)
Definition jsGet (v : JsValue) (k : string) : JsValue :=
  match v with
  | JObj fields => assocGet k fields
  | _ => JUndefined
  end.

(** [typeof v === "string" ? v : undefined] *)
Definition asString (v : JsValue) : option string :=
  match v with
  | JStr s => Some s
  | _ => None
  end.

(** [v === s] for a string [s] *)
Definition isString (v : JsValue) (s : string) : bool :=
  match v with
  | JStr x => String.eqb x s
  | _ => false
  end.

(** Truthiness of a value. *)
Definition jsTruthy (v : JsValue) : bool :=
  match v with
  | JUndefined | JNull => false
  | JBool b => b
  | JNum z => negb (z =? 0)
  | JStr s => Js.truthy s
  | JArr _ | JObj _ => true
  end.

(** [Array.isArray(v) ? v : []] *)
Definition asArray (v : JsValue) : list JsValue :=
  match v with
  | JArr items => items
  | _ => []
  end.

(** ** Data model *)

Inductive Cleanup := CleanupDelete | CleanupKeep.

Inductive ThreadId := ThreadStr (s : string) | ThreadNum (n : Z).

Record DeliveryContext := {
  dc_channel : option string;
  dc_accountId : option string;
  dc_to : option string;
  dc_threadId : option ThreadId;
}.

Record RunOutcome := {
  outcome_status : string;
  outcome_error : option string;
}.

(** One run of a child agent, as the registry tracks it. *)
Record SubagentRunRecord := {
  runId : string;
  childSessionKey : string;
  requesterSessionKey : string;
  requesterOrigin : option DeliveryContext;
  requesterDisplayKey : string;
  task : string;
  cleanup : Cleanup;
  label : option string;
  model : option string;
  runTimeoutSeconds : option Z;
  createdAt : Z;
  startedAt : option Z;
  endedAt : option Z;
  outcome : option RunOutcome;
  archiveAtMs : option Z;
  cleanupHandled : bool;
  suppressAnnounceForSteerRestart : bool;
}.

(** The fields of a session-store entry that the command surface reads
    or writes; [se_model] to [se_providerOverride] are read as [unknown]. *)
Record SessionEntry := {
  sessionId : option string;
  sessionFile : option string;
  abortedLastRun : bool;
  updatedAt : Z;
  se_model : JsValue;
  se_modelProvider : JsValue;
  se_modelOverride : JsValue;
  se_providerOverride : JsValue;
}.

(** [cfg.agents.defaults.subagents] and [agents.list[i].subagents] *)
Record SubagentsConfig := {
  maxSpawnDepth : option Z;
  maxChildrenPerAgent : option Z;
  allowAgents : option (list string);
  subagents_model : JsValue;
  subagents_thinking : JsValue;
}.

Record AgentConfig := {
  agent_subagents : option SubagentsConfig;
}.

Record Config := {
  agents_defaults_subagents : option SubagentsConfig;
  agents_defaults_model_primary : JsValue;
  agents_list : list (string * AgentConfig);
  session_store : option string;
  session_mainKey : option string;
}.

Record SpawnSubagentParams := {
  sp_task : string;
  sp_label : option string;
  sp_agentId : option string;
  sp_model : option string;
  sp_thinking : option string;
  sp_runTimeoutSeconds : option Z;
  sp_cleanup : option Cleanup;
}.

Record SpawnSubagentContext := {
  agentSessionKey : option string;
  agentChannel : option string;
  agentAccountId : option string;
  agentTo : option string;
  agentThreadId : option ThreadId;
  agentGroupId : option string;
  agentGroupChannel : option string;
  agentGroupSpace : option string;
  requesterAgentIdOverride : option string;
}.

Inductive SpawnStatus := Accepted | Forbidden | SpawnError.

Record SpawnSubagentResult := {
  status : SpawnStatus;
  res_childSessionKey : option string;
  res_runId : option string;
  res_modelApplied : option bool;
  res_warning : option string;
  res_error : option string;
}.

(** ** Gateway calls *)

(** The [params] object of the [agent] method. *)
Record AgentParams := {
  ap_message : string;
  ap_sessionKey : string;
  ap_sessionId : option string;
  ap_channel : option string;
  ap_to : option string;
  ap_accountId : option string;
  ap_threadId : option string;
  ap_idempotencyKey : string;
  ap_deliver : bool;
  ap_lane : string;
  ap_extraSystemPrompt : option string;
  ap_thinking : option string;
  ap_timeout : Z;
  ap_label : option string;
  ap_spawnedBy : option string;
  ap_groupId : option string;
  ap_groupChannel : option string;
  ap_groupSpace : option string;
}.

Inductive GatewayParams :=
| PatchSpawnDepth (key : string) (spawnDepth : Z)
| PatchModel (key : string) (model : string)
| PatchThinkingLevel (key : string) (thinkingLevel : option string)
| AgentRun (p : AgentParams)
| AgentWait (runId : string) (timeoutMs : Z)
| ChatHistory (sessionKey : string) (limit : Z).

Record GatewayCall := {
  gw_method : string;
  gw_params : GatewayParams;
  gw_timeoutMs : option Z;
}.

(** What a [catch (err)] can receive: an [Error], a string, anything else. *)
Inductive Thrown :=
| ThrownError (message : string)
| ThrownString (s : string)
| ThrownOther.

Inductive GatewayReply :=
| Resolved (response : JsValue)
| Rejected (err : Thrown).

(** [err instanceof Error ? err.message : typeof err === "string" ? err : "error"] *)
Definition messageTextOf (err : Thrown) : string :=
  match err with
  | ThrownError m => m
  | ThrownString s => s
  | ThrownOther => "error"
  end.

(** ** Effects and the world *)

Inductive RegistryOp :=
| RegisterRun (run : string)
| MarkTerminated (run child reason : string)
| MarkForSteerRestart (run : string)
| ClearSteerRestart (run : string)
| ReplaceAfterSteer (previousRunId nextRunId : string).

Inductive Event :=
| EvGateway (call : GatewayCall) (reply : GatewayReply)
| EvRegistry (op : RegistryOp)
| EvAbortEmbeddedPiRun (session : string)
| EvClearSessionQueues (keys : list (option string))
| EvStopSubagentsForRequester (requester : string)
| EvUpdateSessionStore (storePath key : string)
| EvLogVerbose (text : string).

(** [runs] is the registry table in insertion order, [stores] the session
    stores on disk by path, [config] what [loadConfig()] returns, [now] what
    [Date.now()] returns, [uuidsDrawn] the number of UUIDs drawn so far and
    [trace] the effects performed, oldest first. *)
Record World := {
  runs : list SubagentRunRecord;
  stores : gmap string (gmap string SessionEntry);
  config : Config;
  now : Z;
  uuidsDrawn : nat;
  trace : list Event;
}.

Definition M (A : Type) : Type := World -> A * World.

#[export] Instance M_ret : MRet M := fun A (a : A) w => (a, w).
#[export] Instance M_bind : MBind M :=
  fun A B (f : A -> M B) (m : M A) w => let '(a, w') := m w in f a w'.

Definition getWorld : M World := fun w => (w, w).

Definition emit (e : Event) : M unit := fun w =>
  (tt, {| runs := runs w; stores := stores w; config := config w; now := now w;
          uuidsDrawn := uuidsDrawn w; trace := trace w ++ [e] |}).

Definition setRuns (rs : list SubagentRunRecord) : M unit := fun w =>
  (tt, {| runs := rs; stores := stores w; config := config w; now := now w;
          uuidsDrawn := uuidsDrawn w; trace := trace w |}).

Definition setStores (st : gmap string (gmap string SessionEntry)) : M unit := fun w =>
  (tt, {| runs := runs w; stores := st; config := config w; now := now w;
          uuidsDrawn := uuidsDrawn w; trace := trace w |}).

Definition Date_now : M Z := fun w => (now w, w).

Definition loadConfig : M Config := fun w => (config w, w).

(** The events a computation adds to the trace of [w]. *)
Definition newEvents (w w' : World) : list Event :=
  drop (length (trace w)) (trace w').

(** ** Subagent registry

    The registry module is not among the sources; its operations follow
    section 4.1 of the specification. *)

Module Registry.

Definition withEndedAt (r : SubagentRunRecord) (t : option Z) (o : option RunOutcome)
  : SubagentRunRecord :=
  {| runId := runId r; childSessionKey := childSessionKey r;
     requesterSessionKey := requesterSessionKey r;
     requesterOrigin := requesterOrigin r;
     requesterDisplayKey := requesterDisplayKey r; task := task r;
     cleanup := cleanup r; label := label r; model := model r;
     runTimeoutSeconds := runTimeoutSeconds r; createdAt := createdAt r;
     startedAt := startedAt r; endedAt := t; outcome := o;
     archiveAtMs := archiveAtMs r; cleanupHandled := cleanupHandled r;
     suppressAnnounceForSteerRestart := suppressAnnounceForSteerRestart r |}.

Definition withSteerRestart (r : SubagentRunRecord) (b : bool) : SubagentRunRecord :=
  {| runId := runId r; childSessionKey := childSessionKey r;
     requesterSessionKey := requesterSessionKey r;
     requesterOrigin := requesterOrigin r;
     requesterDisplayKey := requesterDisplayKey r; task := task r;
     cleanup := cleanup r; label := label r; model := model r;
     runTimeoutSeconds := runTimeoutSeconds r; createdAt := createdAt r;
     startedAt := startedAt r; endedAt := endedAt r; outcome := outcome r;
     archiveAtMs := archiveAtMs r; cleanupHandled := cleanupHandled r;
     suppressAnnounceForSteerRestart := b |}.

Definition hasRunId (id : string) (r : SubagentRunRecord) : bool :=
  String.eqb (runId r) id.

(** Apply [f] to the record stored under [id], if there is one. *)
Definition update (id : string) (f : SubagentRunRecord -> SubagentRunRecord)
  (rs : list SubagentRunRecord) : list SubagentRunRecord :=
  map (fun r => if hasRunId id r then f r else r) rs.

Definition remove (id : string) (rs : list SubagentRunRecord) : list SubagentRunRecord :=
  List.filter (fun r => negb (hasRunId id r)) rs.

(** [endedAt] is set. *)
Definition hasEnded (r : SubagentRunRecord) : bool :=
  match endedAt r with
  | Some _ => true
  | None => false
  end.

(** Modelled from the spec: [countActiveRunsForSession] of the registry
    module, "count of non-ended records keyed by requester". *)
Definition countActive (key : string) (rs : list SubagentRunRecord) : Z :=
  Z.of_nat (length (List.filter
    (fun r => String.eqb (requesterSessionKey r) key && negb (hasEnded r))
    rs)).

(** Modelled from the spec: [listSubagentRunsForRequester] of the registry
    module, "all records (active + recently ended) for that requester". *)
Definition listFor (key : string) (rs : list SubagentRunRecord) : list SubagentRunRecord :=
  List.filter (fun r => String.eqb (requesterSessionKey r) key) rs.

(** Modelled from the spec: the record [registerSubagentRun] inserts is
    "created at spawn time (unstarted)"; any record under the same run id
    is displaced, as "no two records may share runId". *)
Definition register (r : SubagentRunRecord) (rs : list SubagentRunRecord)
  : list SubagentRunRecord :=
  remove (runId r) rs ++ [r].

(** Modelled from the spec: [markSubagentRunTerminated] "sets endedAt,
    outcome.status = reason; idempotent": a record that has ended stays as
    it is. *)
Definition terminate (t : Z) (id reason : string) (rs : list SubagentRunRecord)
  : list SubagentRunRecord :=
  update id (fun r =>
    match endedAt r with
    | Some _ => r
    | None => withEndedAt r (Some t)
                (Some {| outcome_status := reason; outcome_error := None |})
    end) rs.

(** Modelled from the spec: [markSubagentRunForSteerRestart] and
    [clearSubagentRunSteerRestart] toggle the "this run is about to be
    replaced" flag and are a no-op on a run that no longer exists. *)
Definition setSteerRestart (id : string) (b : bool) (rs : list SubagentRunRecord)
  : list SubagentRunRecord :=
  update id (fun r => withSteerRestart r b) rs.

(** Modelled from the spec: [replaceSubagentRunAfterSteer] "retires
    previousRunId and inserts a new record under nextRunId inheriting
    requester/child/task/label fields from fallback, with a fresh
    startedAt". *)
Definition replacement (t : Z) (next : string) (fallback : SubagentRunRecord)
  (timeout : Z) : SubagentRunRecord :=
  {| runId := next; childSessionKey := childSessionKey fallback;
     requesterSessionKey := requesterSessionKey fallback;
     requesterOrigin := requesterOrigin fallback;
     requesterDisplayKey := requesterDisplayKey fallback; task := task fallback;
     cleanup := cleanup fallback; label := label fallback; model := model fallback;
     runTimeoutSeconds := Some timeout; createdAt := createdAt fallback;
     startedAt := Some t; endedAt := None; outcome := None;
     archiveAtMs := None; cleanupHandled := false;
     suppressAnnounceForSteerRestart := false |}.

Definition replace (t : Z) (prev next : string) (fallback : SubagentRunRecord)
  (timeout : Z) (rs : list SubagentRunRecord) : list SubagentRunRecord :=
  register (replacement t next fallback timeout) (remove prev rs).

End Registry.

(** ** Collaborators

    Functions and constants the two modules import from files that are not
    among the sources, each with the module it comes from.  Oracles for
    answers that depend on state outside the world ([gateway],
    [clearedQueues]) see the trace. *)

Class Collaborators := {
  (* routing/session-key.js *)
  normalizeAgentId : option string -> string;
  parseAgentSessionKey_agentId : string -> option string;
  (* agents/tools/sessions-helpers.js *)
  resolveMainSessionAlias : Config -> string * string;
  resolveInternalSessionKey : string -> string -> string -> string;
  resolveDisplaySessionKey : string -> string -> string -> string;
  stripToolMessages : list JsValue -> list JsValue;
  extractAssistantText : JsValue -> option string;
  (* shared/chat-content.js, with or without sanitizeTextContent *)
  extractTextFromChatContent : JsValue -> bool -> option string;
  (* agents/agent-scope.js *)
  resolveAgentConfig : Config -> string -> option AgentConfig;
  (* agents/model-selection.js *)
  resolveDefaultModelForAgent : Config -> string -> string * string;
  (* agents/subagent-announce.js *)
  buildSubagentSystemPrompt :
    option string -> option DeliveryContext -> string -> option string ->
    string -> Z -> Z -> string;
  (* agents/subagent-depth.js *)
  getSubagentDepthFromSessionStore :
    gmap string (gmap string SessionEntry) -> string -> Config -> Z;
  (* auto-reply/thinking.js *)
  normalizeThinkLevel : string -> option string;
  formatThinkingLevels : option string -> option string -> string;
  (* agents/tools/common.js, applied to the value under the key *)
  readStringParam : JsValue -> option string;
  (* utils/delivery-context.js *)
  normalizeDeliveryContext : DeliveryContext -> option DeliveryContext;
  (* agents/lanes.js, utils/message-channel.js *)
  AGENT_LANE_SUBAGENT : string;
  INTERNAL_MESSAGE_CHANNEL : string;
  (* config/sessions.js *)
  resolveStorePath : option string -> option string -> string;
  (* auto-reply/reply/subagents-utils.js *)
  sortSubagentRuns : list SubagentRunRecord -> list SubagentRunRecord;
  formatRunLabel : SubagentRunRecord -> option Z -> string;
  formatRunStatus : SubagentRunRecord -> string;
  (* shared/subagents-format.js *)
  formatDurationCompact : Z -> option string;
  formatTokenUsageDisplay : option SessionEntry -> string;
  truncateLine : string -> Z -> string;
  (* infra/format-time/format-relative.ts and Date.prototype.toISOString *)
  formatTimeAgo : Z -> string;
  toISOString : Z -> string;
  (* auto-reply/reply/queue.js: followupCleared, laneCleared, keys *)
  clearedQueues : list Event -> list (option string) -> Z * Z * list string;
  (* auto-reply/reply/abort.js *)
  stopSubagents : Config -> string -> World -> World;
  (* node:crypto *)
  uuidAt : nat -> string;
  (* gateway/call.js *)
  gateway : list Event -> GatewayCall -> GatewayReply;
}.

Section Core.

Context {C : Collaborators}.

Definition callGateway (c : GatewayCall) : M GatewayReply := fun w =>
  let r := gateway (trace w) c in
  (r, snd (emit (EvGateway c r) w)).

Definition randomUUID : M string := fun w =>
  (uuidAt (uuidsDrawn w),
   {| runs := runs w; stores := stores w; config := config w; now := now w;
      uuidsDrawn := S (uuidsDrawn w); trace := trace w |}).

Definition abortEmbeddedPiRun (session : string) : M unit :=
  emit (EvAbortEmbeddedPiRun session).

Definition clearSessionQueues (keys : list (option string)) : M (Z * Z * list string) :=
  fun w => (clearedQueues (trace w) keys, snd (emit (EvClearSessionQueues keys) w)).

Definition logVerbose (text : string) : M unit := emit (EvLogVerbose text).

Definition stopSubagentsForRequester (cfg : Config) (requester : string) : M unit :=
  fun w => emit (EvStopSubagentsForRequester requester) (stopSubagents cfg requester w).

(** *** Registry operations as the callers see them

    Each applies its [Registry] function to the table and records the
    call in the trace. *)

Definition countActiveRunsForSession (key : string) : M Z :=
  w ← getWorld; mret (Registry.countActive key (runs w)).

Definition listSubagentRunsForRequester (key : string) : M (list SubagentRunRecord) :=
  w ← getWorld; mret (Registry.listFor key (runs w)).

Definition registerSubagentRun (r : SubagentRunRecord) : M unit :=
  w ← getWorld;
  setRuns (Registry.register r (runs w));;
  emit (EvRegistry (RegisterRun (runId r))).

Definition markSubagentRunTerminated (run child reason : string) : M unit :=
  w ← getWorld;
  setRuns (Registry.terminate (now w) run reason (runs w));;
  emit (EvRegistry (MarkTerminated run child reason)).

Definition markSubagentRunForSteerRestart (run : string) : M unit :=
  w ← getWorld;
  setRuns (Registry.setSteerRestart run true (runs w));;
  emit (EvRegistry (MarkForSteerRestart run)).

Definition clearSubagentRunSteerRestart (run : string) : M unit :=
  w ← getWorld;
  setRuns (Registry.setSteerRestart run false (runs w));;
  emit (EvRegistry (ClearSteerRestart run)).

Definition replaceSubagentRunAfterSteer (prev next : string)
  (fallback : SubagentRunRecord) (timeout : Z) : M unit :=
  w ← getWorld;
  setRuns (Registry.replace (now w) prev next fallback timeout (runs w));;
  emit (EvRegistry (ReplaceAfterSteer prev next)).

End Core.

(** ** The spawn engine: [src/agents/subagent-spawn.ts] *)

Definition dquote : string := String (ascii_of_nat 34) EmptyString.

Definition splitModelRef (ref : option string) : option string * option string :=
  match ref with
  | None => (None, None)
  | Some ref =>
      if negb (Js.truthy ref) then (None, None) else
      let trimmed := Js.trim ref in
      if negb (Js.truthy trimmed) then (None, None) else
      let '(provider, model) := Js.split2Slash trimmed in
      match model with
      | Some m => if Js.truthy m then (Some provider, Some m) else (None, Some trimmed)
      | None => (None, Some trimmed)
      end
  end.

Definition normalizeModelSelection (value : JsValue) : option string :=
  match value with
  | JStr s => Js.nonEmpty (Js.trim s)
  | JObj _ =>
      match jsGet value "primary" with
      | JStr primary =>
          if Js.truthy (Js.trim primary) then Some (Js.trim primary) else None
      | _ => None
      end
  | _ => None
  end.

(** A [string | undefined] parameter seen as a value. *)
Definition ofOptString (s : option string) : JsValue :=
  match s with
  | Some s => JStr s
  | None => JUndefined
  end.

(** [a ?? b] on options. *)
Definition orNullish {A} (a b : option A) : option A :=
  match a with
  | Some _ => a
  | None => b
  end.

(** Insertion-ordered [Set] of strings: the first occurrence of each. *)
Fixpoint setOf (seen : list string) (l : list string) : list string :=
  match l with
  | x :: rest =>
      if existsb (String.eqb x) seen then setOf seen rest
      else x :: setOf (x :: seen) rest
  | [] => []
  end.

Definition forbidden (msg : string) : SpawnSubagentResult :=
  {| status := Forbidden; res_childSessionKey := None; res_runId := None;
     res_modelApplied := None; res_warning := None; res_error := Some msg |}.

Definition failed (msg : string) (child run : option string) : SpawnSubagentResult :=
  {| status := SpawnError; res_childSessionKey := child; res_runId := run;
     res_modelApplied := None; res_warning := None; res_error := Some msg |}.

Section Spawn.

Context {C : Collaborators}.

Definition subagentsModel (s : option SubagentsConfig) : JsValue :=
  match s with
  | Some c => subagents_model c
  | None => JUndefined
  end.

Definition subagentsThinking (s : option SubagentsConfig) : JsValue :=
  match s with
  | Some c => subagents_thinking c
  | None => JUndefined
  end.

(** [agentConfig?.subagents] *)
Definition agentSubagents (a : option AgentConfig) : option SubagentsConfig :=
  match a with
  | Some agent => agent_subagents agent
  | None => None
  end.

(** Lines 163-173: the model the child session is patched with. *)
Definition resolvedModel (cfg : Config) (modelOverride : option string)
  (targetAgentId : string) : option string :=
  let targetAgentConfig := resolveAgentConfig cfg targetAgentId in
  let runtimeDefaultModel := resolveDefaultModelForAgent cfg targetAgentId in
  orNullish (normalizeModelSelection (ofOptString modelOverride))
  (orNullish (normalizeModelSelection
                (subagentsModel (agentSubagents targetAgentConfig)))
  (orNullish (normalizeModelSelection
                (subagentsModel (agents_defaults_subagents cfg)))
  (orNullish (normalizeModelSelection (agents_defaults_model_primary cfg))
     (normalizeModelSelection
        (JStr (fst runtimeDefaultModel +:+ "/" +:+ snd runtimeDefaultModel)))))).

(** Lines 143-152: the allowlist of the requester agent. *)
Definition allowAgentsOf (cfg : Config) (requesterAgentId : string) : list string :=
  match resolveAgentConfig cfg requesterAgentId with
  | Some agent =>
      match agent_subagents agent with
      | Some sub => default [] (allowAgents sub)
      | None => []
      end
  | None => []
  end.

Definition allowAny (allow : list string) : bool :=
  existsb (fun value => String.eqb (Js.trim value) "*") allow.

Definition allowSet (allow : list string) : list string :=
  setOf []
    (map (fun value => Js.toLowerCase (normalizeAgentId (Some value)))
       (List.filter
          (fun value => Js.truthy (Js.trim value) && negb (String.eqb (Js.trim value) "*"))
          allow)).

Definition setHas (s : list string) (x : string) : bool := existsb (String.eqb x) s.

(** Lines 175-177: the configured default thinking token. *)
Definition resolvedThinkingDefaultRaw (cfg : Config) (targetAgentId : string)
  : option string :=
  orNullish
    (readStringParam
       (subagentsThinking (agentSubagents (resolveAgentConfig cfg targetAgentId))))
    (readStringParam (subagentsThinking (agents_defaults_subagents cfg))).

Definition depthError (callerDepth maxDepth : Z) : string :=
  "sessions_spawn is not allowed at this depth (current depth: "
  +:+ pretty callerDepth +:+ ", max: " +:+ pretty maxDepth +:+ ")".

Definition childrenError (activeChildren maxChildren : Z) : string :=
  "sessions_spawn has reached max active children for this session ("
  +:+ pretty activeChildren +:+ "/" +:+ pretty maxChildren +:+ ")".

Definition allowlistError (allow : list string) : string :=
  "agentId is not allowed for sessions_spawn (allowed: "
  +:+ (match allowSet allow with
       | [] => "none"
       | s => String.concat ", " s
       end) +:+ ")".

Definition thinkingError (candidate hint : string) : string :=
  "Invalid thinking level " +:+ dquote +:+ candidate +:+ dquote
  +:+ ". Use one of: " +:+ hint +:+ ".".

Definition threadIdText (t : ThreadId) : string :=
  match t with
  | ThreadStr s => s
  | ThreadNum n => pretty n
  end.

Definition patchCall (p : GatewayParams) : GatewayCall :=
  {| gw_method := "sessions.patch"; gw_params := p; gw_timeoutMs := Some 10000 |}.

(** The constants of [spawnSubagentDirect] that its admission checks
    compare, under the names the function gives them. *)
Definition requesterInternalKey (cfg : Config) (ctx : SpawnSubagentContext) : string :=
  let '(mainKey, alias) := resolveMainSessionAlias cfg in
  match agentSessionKey ctx with
  | Some key => if Js.truthy key then resolveInternalSessionKey key alias mainKey else alias
  | None => alias
  end.

Definition requesterDisplayKeyOf (cfg : Config) (ctx : SpawnSubagentContext) : string :=
  let '(mainKey, alias) := resolveMainSessionAlias cfg in
  resolveDisplaySessionKey (requesterInternalKey cfg ctx) alias mainKey.

Definition callerDepth (w : World) (ctx : SpawnSubagentContext) : Z :=
  getSubagentDepthFromSessionStore (stores w) (requesterInternalKey (config w) ctx) (config w).

Definition maxSpawnDepthOf (cfg : Config) : Z :=
  default 1 (agents_defaults_subagents cfg ≫= maxSpawnDepth).

Definition maxChildren (cfg : Config) : Z :=
  default 5 (agents_defaults_subagents cfg ≫= maxChildrenPerAgent).

Definition requesterAgentId (cfg : Config) (ctx : SpawnSubagentContext) : string :=
  normalizeAgentId
    (orNullish (requesterAgentIdOverride ctx)
       (parseAgentSessionKey_agentId (requesterInternalKey cfg ctx))).

Definition targetAgentId (cfg : Config) (params : SpawnSubagentParams)
  (ctx : SpawnSubagentContext) : string :=
  match sp_agentId params with
  | Some a => if Js.truthy a then normalizeAgentId (Some a) else requesterAgentId cfg ctx
  | None => requesterAgentId cfg ctx
  end.

(** Lines 143-159: the target is another agent and the allowlist of the
    requester agent has neither a wildcard nor the target. *)
Definition allowlistRejects (cfg : Config) (params : SpawnSubagentParams)
  (ctx : SpawnSubagentContext) : bool :=
  let allow := allowAgentsOf cfg (requesterAgentId cfg ctx) in
  negb (String.eqb (targetAgentId cfg params ctx) (requesterAgentId cfg ctx))
  && (negb (allowAny allow)
      && negb (setHas (allowSet allow) (Js.toLowerCase (targetAgentId cfg params ctx)))).

(** Line 180: [thinkingOverrideRaw || resolvedThinkingDefaultRaw]. *)
Definition thinkingCandidateRaw (cfg : Config) (params : SpawnSubagentParams)
  (ctx : SpawnSubagentContext) : option string :=
  Js.orElse (sp_thinking params)
    (resolvedThinkingDefaultRaw cfg (targetAgentId cfg params ctx)).

Definition childSessionKeyOf (targetAgent uuid : string) : string :=
  "agent:" +:+ targetAgent +:+ ":subagent:" +:+ uuid.

Definition spawnSubagentDirect (params : SpawnSubagentParams)
  (ctx : SpawnSubagentContext) : M SpawnSubagentResult :=
  let task := sp_task params in
  let label := match sp_label params with Some l => Js.trim l | None => EmptyString end in
  let modelOverride := sp_model params in
  let cleanup := default CleanupKeep (sp_cleanup params) in
  let requesterOrigin :=
    normalizeDeliveryContext
      {| dc_channel := agentChannel ctx; dc_accountId := agentAccountId ctx;
         dc_to := agentTo ctx; dc_threadId := agentThreadId ctx |} in
  let runTimeoutSeconds :=
    match sp_runTimeoutSeconds params with
    | Some t => Z.max 0 t
    | None => 0
    end in
  cfg ← loadConfig;
  let requesterSessionKey := agentSessionKey ctx in
  let requesterInternalKey := requesterInternalKey cfg ctx in
  let requesterDisplayKey := requesterDisplayKeyOf cfg ctx in
  w ← getWorld;
  let callerDepth := callerDepth w ctx in
  let maxDepth := maxSpawnDepthOf cfg in
  if maxDepth <=? callerDepth then mret (forbidden (depthError callerDepth maxDepth)) else
  let maxChildren := maxChildren cfg in
  activeChildren ← countActiveRunsForSession requesterInternalKey;
  if maxChildren <=? activeChildren
  then mret (forbidden (childrenError activeChildren maxChildren)) else
  let requesterAgentId := requesterAgentId cfg ctx in
  let targetAgentId := targetAgentId cfg params ctx in
  if allowlistRejects cfg params ctx
  then mret (forbidden (allowlistError (allowAgentsOf cfg requesterAgentId))) else
  uuid ← randomUUID;
  let childSessionKey := childSessionKeyOf targetAgentId uuid in
  let childDepth := callerDepth + 1 in
  let spawnedByKey := requesterInternalKey in
  let model := resolvedModel cfg modelOverride targetAgentId in
  let thinkingCandidateRaw := thinkingCandidateRaw cfg params ctx in
  let thinkingChecked : string + option string :=
    match thinkingCandidateRaw ≫= Js.nonEmpty with
    | Some candidate =>
        match normalizeThinkLevel candidate ≫= Js.nonEmpty with
        | Some normalized => inr (Some normalized)
        | None =>
            let '(provider, modelName) := splitModelRef model in
            inl (thinkingError candidate (formatThinkingLevels provider modelName))
        end
    | None => inr None
    end in
  match thinkingChecked with
  | inl msg => mret (failed msg None None)
  | inr thinkingOverride =>
  depthPatch ← callGateway (patchCall (PatchSpawnDepth childSessionKey childDepth));
  match depthPatch with
  | Rejected err => mret (failed (messageTextOf err) (Some childSessionKey) None)
  | Resolved _ =>
  modelPatch ←
    match model ≫= Js.nonEmpty with
    | Some m =>
        r ← callGateway (patchCall (PatchModel childSessionKey m));
        mret (match r with
              | Resolved _ => inr (true, None)
              | Rejected err =>
                  let messageText := messageTextOf err in
                  if Js.includes messageText "invalid model"
                     || Js.includes messageText "model not allowed"
                  then inr (false, Some messageText)
                  else inl messageText
              end)
    | None => mret (inr (false, None))
    end;
  match modelPatch with
  | inl msg => mret (failed msg (Some childSessionKey) None)
  | inr (modelApplied, modelWarning) =>
  thinkingPatch ←
    match thinkingOverride with
    | Some level =>
        callGateway
          (patchCall (PatchThinkingLevel childSessionKey
                        (if String.eqb level "off" then None else Some level)))
    | None => mret (Resolved JUndefined)
    end;
  match thinkingPatch with
  | Rejected err => mret (failed (messageTextOf err) (Some childSessionKey) None)
  | Resolved _ =>
  let childSystemPrompt :=
    buildSubagentSystemPrompt requesterSessionKey requesterOrigin childSessionKey
      (Js.nonEmpty label) task childDepth maxDepth in
  childIdem ← randomUUID;
  response ← callGateway
    {| gw_method := "agent";
       gw_params := AgentRun
         {| ap_message := task; ap_sessionKey := childSessionKey;
            ap_sessionId := None;
            ap_channel := requesterOrigin ≫= dc_channel;
            ap_to := requesterOrigin ≫= dc_to;
            ap_accountId := requesterOrigin ≫= dc_accountId;
            ap_threadId := threadIdText <$> (requesterOrigin ≫= dc_threadId);
            ap_idempotencyKey := childIdem; ap_deliver := false;
            ap_lane := AGENT_LANE_SUBAGENT;
            ap_extraSystemPrompt := Some childSystemPrompt;
            ap_thinking := thinkingOverride; ap_timeout := runTimeoutSeconds;
            ap_label := Js.nonEmpty label; ap_spawnedBy := Some spawnedByKey;
            ap_groupId := agentGroupId ctx;
            ap_groupChannel := agentGroupChannel ctx;
            ap_groupSpace := agentGroupSpace ctx |};
       gw_timeoutMs := Some 10000 |};
  match response with
  | Rejected err =>
      mret (failed (messageTextOf err) (Some childSessionKey) (Some childIdem))
  | Resolved response =>
  let childRunId :=
    default childIdem (asString (jsGet response "runId") ≫= Js.nonEmpty) in
  t ← Date_now;
  registerSubagentRun
    {| runId := childRunId; childSessionKey := childSessionKey;
       requesterSessionKey := requesterInternalKey;
       requesterOrigin := requesterOrigin;
       requesterDisplayKey := requesterDisplayKey; task := task;
       cleanup := cleanup; label := Js.nonEmpty label; model := model;
       runTimeoutSeconds := Some runTimeoutSeconds; createdAt := t;
       startedAt := None; endedAt := None; outcome := None;
       archiveAtMs := None; cleanupHandled := false;
       suppressAnnounceForSteerRestart := false |};;
  mret {| status := Accepted; res_childSessionKey := Some childSessionKey;
          res_runId := Some childRunId;
          res_modelApplied :=
            match model ≫= Js.nonEmpty with Some _ => Some modelApplied | None => None end;
          res_warning := modelWarning; res_error := None |}
  end end end end end.

End Spawn.

(** ** The command surface: [/subagents], [/kill], [/steer], [/tell] *)

Record SubagentTargetResolution := {
  entry : option SubagentRunRecord;
  error : option string;
}.

Record CommandParams := {
  commandBodyNormalized : string;
  isAuthorizedSender : bool;
  senderId : option string;
  command_channel : option string;
  command_to : option string;
  sessionKey : option string;
  CommandTargetSessionKey : option string;
  AccountId : option string;
  MessageThreadId : option ThreadId;
  cfg : Config;
}.

(** [{ shouldContinue, reply?: { text } }] *)
Record CommandResult := {
  shouldContinue : bool;
  reply : option string;
}.

Definition COMMAND : string := "/subagents".
Definition COMMAND_KILL : string := "/kill".
Definition COMMAND_STEER : string := "/steer".
Definition COMMAND_TELL : string := "/tell".
Definition ACTIONS : list string :=
  ["list"; "kill"; "log"; "send"; "steer"; "info"; "spawn"; "help"].
Definition RECENT_WINDOW_MINUTES : Z := 30.
Definition SUBAGENT_TASK_PREVIEW_MAX : Z := 110.
Definition STEER_ABORT_SETTLE_TIMEOUT_MS : Z := 5000.

Definition newline : string := String (ascii_of_nat 10) EmptyString.

(** Truthiness of an optional millisecond timestamp. *)
Definition truthyNum (t : option Z) : bool :=
  match t with
  | Some v => negb (v =? 0)
  | None => false
  end.

Definition compactLine (value : string) : string :=
  Js.trim (Js.collapseWhitespace false value).

Definition replied (text : string) : option CommandResult :=
  Some {| shouldContinue := false; reply := Some text |}.

Definition silent : option CommandResult :=
  Some {| shouldContinue := false; reply := None |}.

Definition buildSubagentsHelp : string :=
  String.concat newline
    [ "Subagents";
      "Usage:";
      "- /subagents list";
      "- /subagents kill <id|#|all>";
      "- /subagents log <id|#> [limit] [tools]";
      "- /subagents info <id|#>";
      "- /subagents send <id|#> <message>";
      "- /subagents steer <id|#> <message>";
      "- /subagents spawn <agentId> <task> [--model <model>] [--thinking <level>]";
      "- /kill <id|#|all>";
      "- /steer <id|#> <message>";
      "- /tell <id|#> <message>";
      EmptyString;
      "Ids: use the list index (#), runId/session prefix, label, or full session key." ].

Section Commands.

Context {C : Collaborators}.

Definition formatTaskPreview (value : string) : string :=
  truncateLine (compactLine value) SUBAGENT_TASK_PREVIEW_MAX.

(** [typeof v === "string" ? v.trim() : ""] *)
Definition trimmedText (v : JsValue) : string :=
  match v with
  | JStr s => Js.trim s
  | _ => EmptyString
  end.

Definition qualified (provider model : string) : string :=
  if Js.includes model "/" then model
  else if Js.truthy model && Js.truthy provider then provider +:+ "/" +:+ model
  else model.

Definition resolveModelDisplay (e : option SessionEntry) (fallbackModel : option string)
  : string :=
  let field (f : SessionEntry -> JsValue) :=
    match e with Some se => trimmedText (f se) | None => EmptyString end in
  let combined := qualified (field se_modelProvider) (field se_model) in
  let combined :=
    if Js.truthy combined then combined
    else qualified (field se_providerOverride) (field se_modelOverride) in
  let combined :=
    if Js.truthy combined then combined
    else match fallbackModel with Some m => Js.trim m | None => EmptyString end in
  if negb (Js.truthy combined) then "model n/a" else
  match Js.lastIndexOfSlash 0 combined with
  | Some slash =>
      if (slash <? String.length combined - 1)%nat
      then Js.sliceFrom (slash + 1) combined
      else combined
  | None => combined
  end.

Definition resolveDisplayStatus (r : SubagentRunRecord) : string :=
  let status := formatRunStatus r in
  if String.eqb status "error" then "failed" else status.

Definition formatTimestamp (valueMs : option Z) : string :=
  match valueMs with
  | Some v => if v <=? 0 then "n/a" else toISOString v
  | None => "n/a"
  end.

Definition formatTimestampWithAge (nowMs : Z) (valueMs : option Z) : string :=
  match valueMs with
  | Some v =>
      if v <=? 0 then "n/a"
      else formatTimestamp valueMs +:+ " (" +:+ formatTimeAgo (nowMs - v) +:+ ")"
  | None => "n/a"
  end.

Definition resolveRequesterSessionKey (params : CommandParams) : option string :=
  let raw :=
    Js.orElse (Js.trim <$> sessionKey params)
              (Js.trim <$> CommandTargetSessionKey params) in
  match raw ≫= Js.nonEmpty with
  | None => None
  | Some raw =>
      let '(mainKey, alias) := resolveMainSessionAlias (cfg params) in
      Some (resolveInternalSessionKey raw alias mainKey)
  end.

(** The predicates of the two sections of the listing: [!entry.endedAt]
    and [!!entry.endedAt && (entry.endedAt ?? 0) >= recentCutoff]. *)
Definition isActive (r : SubagentRunRecord) : bool := negb (truthyNum (endedAt r)).

Definition isRecent (recentCutoff : Z) (r : SubagentRunRecord) : bool :=
  truthyNum (endedAt r) && (recentCutoff <=? default 0 (endedAt r)).

Definition found (r : option SubagentRunRecord) : SubagentTargetResolution :=
  {| entry := r; error := None |}.

Definition notFound (msg : string) : SubagentTargetResolution :=
  {| entry := None; error := Some msg |}.

(** Lines 142-147: the runs in the order the indexes count them. *)
Definition numericOrder (nowMs : Z) (runs : list SubagentRunRecord)
  : list SubagentRunRecord :=
  let sorted := sortSubagentRuns runs in
  let recentCutoff := nowMs - RECENT_WINDOW_MINUTES * 60000 in
  (List.filter isActive sorted ++ List.filter (isRecent recentCutoff) sorted)%list.

(** [nowMs] is the value [Date.now()] returns inside the call. *)
Definition resolveSubagentTarget (nowMs : Z) (runs : list SubagentRunRecord)
  (token : option string) : SubagentTargetResolution :=
  match (Js.trim <$> token) ≫= Js.nonEmpty with
  | None => notFound "Missing subagent id."
  | Some trimmed =>
  if String.eqb trimmed "last" then found (head (sortSubagentRuns runs)) else
  let numericOrder := numericOrder nowMs runs in
  if Js.isDigits trimmed then
    let idx := Js.parseInt trimmed in
    if (idx =? 0)%N || (N.of_nat (length numericOrder) <? idx)%N
    then notFound ("Invalid subagent index: " +:+ trimmed)
    else found (numericOrder !! (N.to_nat idx - 1)%nat)
  else
  if Js.includes trimmed ":" then
    match List.find (fun r => String.eqb (childSessionKey r) trimmed) runs with
    | Some m => found (Some m)
    | None => notFound ("Unknown subagent session: " +:+ trimmed)
    end
  else
  let lowered := Js.toLowerCase trimmed in
  let unique (l : list SubagentRunRecord) (ambiguous : string)
             (otherwise : SubagentTargetResolution) :=
    match l with
    | [r] => found (Some r)
    | _ :: _ :: _ => notFound (ambiguous +:+ trimmed)
    | [] => otherwise
    end in
  unique
    (List.filter
       (fun r => String.eqb (Js.toLowerCase (formatRunLabel r None)) lowered) runs)
    "Ambiguous subagent label: "
  (unique
    (List.filter
       (fun r => Js.startsWith (Js.toLowerCase (formatRunLabel r None)) lowered) runs)
    "Ambiguous subagent label prefix: "
  (unique
    (List.filter (fun r => Js.startsWith (runId r) trimmed) runs)
    "Ambiguous run id prefix: "
    (notFound ("Unknown subagent id: " +:+ trimmed))))
  end.

Definition extractMessageText (message : JsValue) : option (string * string) :=
  let role := default EmptyString (asString (jsGet message "role")) in
  let shouldSanitize := String.eqb role "assistant" in
  match extractTextFromChatContent (jsGet message "content") shouldSanitize
        ≫= Js.nonEmpty with
  | Some text => Some (role, text)
  | None => None
  end.

Fixpoint formatLogLines (messages : list JsValue) : list string :=
  match messages with
  | msg :: rest =>
      match extractMessageText msg with
      | None => formatLogLines rest
      | Some (role, text) =>
          ((if String.eqb role "assistant" then "Assistant" else "User")
             +:+ ": " +:+ text) :: formatLogLines rest
      end
  | [] => []
  end.

(** The store cache of the listing only saves reloading a store that the
    listing does not change; every load reads [st]. *)
Definition loadSubagentSessionEntry (st : gmap string (gmap string SessionEntry))
  (params : CommandParams) (childKey : string)
  : string * gmap string SessionEntry * option SessionEntry :=
  let storePath :=
    resolveStorePath (session_store (cfg params)) (parseAgentSessionKey_agentId childKey) in
  let store := default ∅ (st !! storePath) in
  (storePath, store, store !! childKey).

(** *** The [list] action (lines 299-355) *)

(** [array.map] with a callback that reads and increments [index]. *)
Fixpoint mapCounting {A B} (f : N -> A -> B) (index : N) (l : list A) : list B * N :=
  match l with
  | x :: rest =>
      let line := f index x in
      let '(lines, index') := mapCounting f (index + 1)%N rest in
      (line :: lines, index')
  | [] => ([], index)
  end.

(** The text of a line after its number: label, model, run time, usage,
    status and task preview. *)
Definition describeRun (st : gmap string (gmap string SessionEntry))
  (params : CommandParams) (runtimeMs : Z) (e : SubagentRunRecord) : string :=
  let sessionEntry := snd (loadSubagentSessionEntry st params (childSessionKey e)) in
  let usageText := formatTokenUsageDisplay sessionEntry in
  let label := truncateLine (formatRunLabel e (Some 48)) 48 in
  let task := formatTaskPreview (task e) in
  let runtime := default "undefined" (formatDurationCompact runtimeMs) in
  let status := resolveDisplayStatus e in
  label +:+ " (" +:+ resolveModelDisplay sessionEntry (model e) +:+ ", " +:+ runtime
  +:+ (if Js.truthy usageText then ", " +:+ usageText else EmptyString)
  +:+ ") " +:+ status
  +:+ (if negb (String.eqb (Js.toLowerCase task) (Js.toLowerCase label))
       then " - " +:+ task else EmptyString).

Definition activeRuntime (nowMs : Z) (e : SubagentRunRecord) : Z :=
  nowMs - default (createdAt e) (startedAt e).

Definition recentRuntime (nowMs : Z) (e : SubagentRunRecord) : Z :=
  default nowMs (endedAt e) - default (createdAt e) (startedAt e).

Definition numbered (index : N) (text : string) : string :=
  pretty index +:+ ". " +:+ text.

(** [activeLines] and [recentLines] of the listing. *)
Definition listLines (st : gmap string (gmap string SessionEntry))
  (params : CommandParams) (nowMs : Z) (runs : list SubagentRunRecord)
  : list string * list string :=
  let sorted := sortSubagentRuns runs in
  let recentCutoff := nowMs - RECENT_WINDOW_MINUTES * 60000 in
  let '(activeLines, index) :=
    mapCounting
      (fun index e => numbered index (describeRun st params (activeRuntime nowMs e) e))
      1%N (List.filter isActive sorted) in
  let '(recentLines, _) :=
    mapCounting
      (fun index e => numbered index (describeRun st params (recentRuntime nowMs e) e))
      index (List.filter (isRecent recentCutoff) sorted) in
  (activeLines, recentLines).

Definition sectionText (lines : list string) : string :=
  match lines with
  | [] => "(none)"
  | _ => String.concat newline lines
  end.

Definition listText (st : gmap string (gmap string SessionEntry))
  (params : CommandParams) (nowMs : Z) (runs : list SubagentRunRecord) : string :=
  let '(activeLines, recentLines) := listLines st params nowMs runs in
  String.concat newline
    [ "active subagents:"; "-----"; sectionText activeLines;
      EmptyString;
      "recent subagents (last " +:+ pretty RECENT_WINDOW_MINUTES +:+ "m):"; "-----";
      sectionText recentLines ].

(** What a call of the handler comes to: a result ([None] for [null]), or
    an exception of an awaited call that no [try] encloses. *)
Inductive HandlerOutcome :=
| Returned (r : option CommandResult)
| Threw (err : Thrown).

Definition unresolvedText (resolved : SubagentTargetResolution) : string :=
  "⚠️ " +:+ default "Unknown subagent." (error resolved).

(** [sessionEntry?.sessionId] narrowed to a non-blank string, trimmed. *)
Definition trimmedSessionId (e : option SessionEntry) : option string :=
  (Js.trim <$> (e ≫= sessionId)) ≫= Js.nonEmpty.

Definition clearedText (action : string) (cleared : Z * Z * list string) : string :=
  let '(followupCleared, laneCleared, keys) := cleared in
  "subagents " +:+ action +:+ ": cleared followups=" +:+ pretty followupCleared
  +:+ " lane=" +:+ pretty laneCleared +:+ " keys=" +:+ String.concat "," keys.

Definition logCleared (action : string) (cleared : Z * Z * list string) : M unit :=
  let '(followupCleared, laneCleared, _) := cleared in
  if (0 <? followupCleared) || (0 <? laneCleared)
  then logVerbose (clearedText action cleared)
  else mret tt.

Definition updateSessionStore (storePath key : string) (e : SessionEntry) : M unit :=
  w ← getWorld;
  setStores (<[storePath := <[key := e]> (default ∅ (stores w !! storePath))]> (stores w));;
  emit (EvUpdateSessionStore storePath key).

(** *** The [kill] action (lines 357-422) *)
Definition killAction (params : CommandParams) (handledPrefix requesterKey : string)
  (runs : list SubagentRunRecord) (restTokens : list string) : M HandlerOutcome :=
  match head restTokens ≫= Js.nonEmpty with
  | None =>
      mret (Returned (replied
        (if String.eqb handledPrefix COMMAND
         then "Usage: /subagents kill <id|#|all>" else "Usage: /kill <id|#|all>")))
  | Some target =>
  if String.eqb target "all" || String.eqb target "*" then
    stopSubagentsForRequester (cfg params) requesterKey;;
    mret (Returned silent)
  else
  t ← Date_now;
  let resolved := resolveSubagentTarget t runs (Some target) in
  match entry resolved with
  | None => mret (Returned (replied (unresolvedText resolved)))
  | Some run =>
  if truthyNum (endedAt run)
  then mret (Returned (replied (formatRunLabel run None +:+ " is already finished.")))
  else
  let childKey := childSessionKey run in
  w ← getWorld;
  let '(storePath, _, sessionEntry) := loadSubagentSessionEntry (stores w) params childKey in
  let session := (sessionEntry ≫= sessionId) ≫= Js.nonEmpty in
  match session with Some s => abortEmbeddedPiRun s | None => mret tt end;;
  cleared ← clearSessionQueues [Some childKey; sessionEntry ≫= sessionId];
  logCleared "kill" cleared;;
  match sessionEntry with
  | Some se =>
      t' ← Date_now;
      updateSessionStore storePath childKey
        {| sessionId := sessionId se; sessionFile := sessionFile se;
           abortedLastRun := true; updatedAt := t';
           se_model := se_model se; se_modelProvider := se_modelProvider se;
           se_modelOverride := se_modelOverride se;
           se_providerOverride := se_providerOverride se |}
  | None => mret tt
  end;;
  markSubagentRunTerminated (runId run) childKey "killed";;
  stopSubagentsForRequester (cfg params) childKey;;
  mret (Returned silent)
  end end.

(** *** The [info] action (lines 424-464) *)
Definition infoAction (params : CommandParams) (runs : list SubagentRunRecord)
  (restTokens : list string) : M HandlerOutcome :=
  match head restTokens ≫= Js.nonEmpty with
  | None => mret (Returned (replied "ℹ️ Usage: /subagents info <id|#>"))
  | Some target =>
  t ← Date_now;
  let resolved := resolveSubagentTarget t runs (Some target) in
  match entry resolved with
  | None => mret (Returned (replied (unresolvedText resolved)))
  | Some run =>
  w ← getWorld;
  let sessionEntry := snd (loadSubagentSessionEntry (stores w) params (childSessionKey run)) in
  let runtime :=
    match startedAt run with
    | Some started =>
        if negb (started =? 0)
        then default "n/a" (formatDurationCompact (default t (endedAt run) - started))
        else "n/a"
    | None => "n/a"
    end in
  let outcomeText :=
    match outcome run with
    | Some o =>
        outcome_status o +:+
        match outcome_error o ≫= Js.nonEmpty with
        | Some e => " (" +:+ e +:+ ")"
        | None => EmptyString
        end
    | None => "n/a"
    end in
  mret (Returned (replied (String.concat newline (
    [ "ℹ️ Subagent info";
      "Status: " +:+ resolveDisplayStatus run;
      "Label: " +:+ formatRunLabel run None;
      "Task: " +:+ task run;
      "Run: " +:+ runId run;
      "Session: " +:+ childSessionKey run;
      "SessionId: " +:+ default "n/a" (sessionEntry ≫= sessionId);
      "Transcript: " +:+ default "n/a" (sessionEntry ≫= sessionFile);
      "Runtime: " +:+ runtime;
      "Created: " +:+ formatTimestampWithAge t (Some (createdAt run));
      "Started: " +:+ formatTimestampWithAge t (startedAt run);
      "Ended: " +:+ formatTimestampWithAge t (endedAt run);
      "Cleanup: " +:+ match cleanup run with CleanupKeep => "keep" | CleanupDelete => "delete" end ]
    ++ (if truthyNum (archiveAtMs run)
        then ["Archive: " +:+ formatTimestampWithAge t (archiveAtMs run)] else [])
    ++ (if cleanupHandled run then ["Cleanup handled: yes"] else [])
    ++ ["Outcome: " +:+ outcomeText])%list)))
  end end.

(** *** The [log] action (lines 466-493) *)
Definition logLimit (restTokens : list string) : Z :=
  match List.find Js.isDigits restTokens with
  | Some limitToken => Z.min 200 (Z.max 1 (Z.of_N (Js.parseInt limitToken)))
  | None => 20
  end.

Definition logAction (params : CommandParams) (runs : list SubagentRunRecord)
  (restTokens : list string) : M HandlerOutcome :=
  match head restTokens ≫= Js.nonEmpty with
  | None => mret (Returned (replied "📜 Usage: /subagents log <id|#> [limit]"))
  | Some target =>
  let includeTools :=
    existsb (fun token => String.eqb (Js.toLowerCase token) "tools") restTokens in
  let limit := logLimit restTokens in
  t ← Date_now;
  let resolved := resolveSubagentTarget t runs (Some target) in
  match entry resolved with
  | None => mret (Returned (replied (unresolvedText resolved)))
  | Some run =>
  history ← callGateway
    {| gw_method := "chat.history";
       gw_params := ChatHistory (childSessionKey run) limit;
       gw_timeoutMs := None |};
  match history with
  | Rejected err => mret (Threw err)
  | Resolved history =>
  let rawMessages := asArray (jsGet history "messages") in
  let filtered := if includeTools then rawMessages else stripToolMessages rawMessages in
  let lines := formatLogLines filtered in
  let header := "📜 Subagent log: " +:+ formatRunLabel run None in
  match lines with
  | [] => mret (Returned (replied (header +:+ newline +:+ "(no messages)")))
  | _ => mret (Returned (replied (String.concat newline (header :: lines))))
  end
  end end end.

(** *** The [send] and [steer] actions (lines 495-647) *)

(** Lines 533-562: flag the run, interrupt it, drain its queues and wait
    for it to settle; a failure of the wait is swallowed. *)
Definition interruptForSteer (run : SubagentRunRecord) (targetSessionId : option string)
  : M unit :=
  markSubagentRunForSteerRestart (runId run);;
  match targetSessionId with Some s => abortEmbeddedPiRun s | None => mret tt end;;
  cleared ← clearSessionQueues [Some (childSessionKey run); targetSessionId];
  logCleared "steer" cleared;;
  callGateway
    {| gw_method := "agent.wait";
       gw_params := AgentWait (runId run) STEER_ABORT_SETTLE_TIMEOUT_MS;
       gw_timeoutMs := Some (STEER_ABORT_SETTLE_TIMEOUT_MS + 2000) |};;
  mret tt.

Definition relaunchCall (message : string) (run : SubagentRunRecord)
  (targetSessionId : option string) (idempotencyKey : string) : GatewayCall :=
  {| gw_method := "agent";
     gw_params := AgentRun
       {| ap_message := message; ap_sessionKey := childSessionKey run;
          ap_sessionId := targetSessionId;
          ap_channel := Some INTERNAL_MESSAGE_CHANNEL;
          ap_to := None; ap_accountId := None; ap_threadId := None;
          ap_idempotencyKey := idempotencyKey; ap_deliver := false;
          ap_lane := AGENT_LANE_SUBAGENT;
          ap_extraSystemPrompt := None; ap_thinking := None; ap_timeout := 0;
          ap_label := None; ap_spawnedBy := None; ap_groupId := None;
          ap_groupChannel := None; ap_groupSpace := None |};
     gw_timeoutMs := Some 10000 |}.

Definition runSuffix (run : string) : string :=
  " (run " +:+ Js.sliceTo 8 run +:+ ").".

Definition sendOrSteerAction (params : CommandParams) (handledPrefix : string)
  (steerRequested : bool) (runs : list SubagentRunRecord) (restTokens : list string)
  : M HandlerOutcome :=
  let target := head restTokens ≫= Js.nonEmpty in
  let message := Js.trim (String.concat " " (tail restTokens)) in
  match target, Js.nonEmpty message with
  | Some target, Some message =>
  t ← Date_now;
  let resolved := resolveSubagentTarget t runs (Some target) in
  match entry resolved with
  | None => mret (Returned (replied (unresolvedText resolved)))
  | Some run =>
  if steerRequested && truthyNum (endedAt run)
  then mret (Returned (replied (formatRunLabel run None +:+ " is already finished.")))
  else
  w ← getWorld;
  let targetSessionEntry :=
    snd (loadSubagentSessionEntry (stores w) params (childSessionKey run)) in
  let targetSessionId := trimmedSessionId targetSessionEntry in
  (if steerRequested then interruptForSteer run targetSessionId else mret tt);;
  idempotencyKey ← randomUUID;
  response ← callGateway (relaunchCall message run targetSessionId idempotencyKey);
  match response with
  | Rejected err =>
      (if steerRequested then clearSubagentRunSteerRestart (runId run) else mret tt);;
      mret (Returned (replied ("send failed: " +:+ messageTextOf err)))
  | Resolved response =>
  let nextRunId :=
    default idempotencyKey (asString (jsGet response "runId") ≫= Js.nonEmpty) in
  if steerRequested then
    replaceSubagentRunAfterSteer (runId run) nextRunId run
      (default 0 (runTimeoutSeconds run));;
    mret (Returned (replied
      ("steered " +:+ formatRunLabel run None +:+ runSuffix nextRunId)))
  else
  let waitMs := 30000 in
  wait ← callGateway
    {| gw_method := "agent.wait"; gw_params := AgentWait nextRunId waitMs;
       gw_timeoutMs := Some (waitMs + 2000) |};
  match wait with
  | Rejected err => mret (Threw err)
  | Resolved wait =>
  if isString (jsGet wait "status") "timeout" then
    mret (Returned (replied ("⏳ Subagent still running" +:+ runSuffix nextRunId)))
  else
  if isString (jsGet wait "status") "error" then
    let waitError := default "unknown error" (asString (jsGet wait "error")) in
    mret (Returned (replied
      ("⚠️ Subagent error: " +:+ waitError +:+ runSuffix nextRunId)))
  else
  history ← callGateway
    {| gw_method := "chat.history"; gw_params := ChatHistory (childSessionKey run) 50;
       gw_timeoutMs := None |};
  match history with
  | Rejected err => mret (Threw err)
  | Resolved history =>
  let filtered := stripToolMessages (asArray (jsGet history "messages")) in
  let replyText :=
    last filtered ≫= (fun m => if jsTruthy m then extractAssistantText m else None) in
  mret (Returned (replied
    (default ("✅ Sent to " +:+ formatRunLabel run None +:+ runSuffix nextRunId)
       replyText)))
  end end end end
  | _, _ =>
      mret (Returned (replied
        (if steerRequested
         then (if String.eqb handledPrefix COMMAND
               then "Usage: /subagents steer <id|#> <message>"
               else "Usage: " +:+ handledPrefix +:+ " <id|#> <message>")
         else "Usage: /subagents send <id|#> <message>")))
  end.

(** *** The [spawn] action (lines 649-698) *)
Fixpoint parseSpawnFlags (tokens taskParts : list string) (model thinking : option string)
  : list string * option string * option string :=
  match tokens with
  | t :: rest =>
      match rest with
      | v :: rest' =>
          if String.eqb t "--model" then parseSpawnFlags rest' taskParts (Some v) thinking
          else if String.eqb t "--thinking" then parseSpawnFlags rest' taskParts model (Some v)
          else parseSpawnFlags rest (taskParts ++ [t])%list model thinking
      | [] => ((taskParts ++ [t])%list, model, thinking)
      end
  | [] => (taskParts, model, thinking)
  end.

Definition spawnAction (params : CommandParams) (requesterKey : string)
  (restTokens : list string) : M HandlerOutcome :=
  let agentId := head restTokens ≫= Js.nonEmpty in
  let '(taskParts, model, thinking) := parseSpawnFlags (tail restTokens) [] None None in
  let task := Js.trim (String.concat " " taskParts) in
  match agentId, Js.nonEmpty task with
  | Some agentId, Some task =>
      result ← spawnSubagentDirect
        {| sp_task := task; sp_label := None; sp_agentId := Some agentId;
           sp_model := model; sp_thinking := thinking;
           sp_runTimeoutSeconds := None; sp_cleanup := Some CleanupKeep |}
        {| agentSessionKey := Some requesterKey;
           agentChannel := command_channel params;
           agentAccountId := AccountId params;
           agentTo := command_to params;
           agentThreadId := MessageThreadId params;
           agentGroupId := None; agentGroupChannel := None; agentGroupSpace := None;
           requesterAgentIdOverride := None |};
      match status result with
      | Accepted =>
          mret (Returned (replied
            ("Spawned subagent " +:+ agentId +:+ " (session "
             +:+ default "undefined" (res_childSessionKey result) +:+ ", run "
             +:+ default "undefined" (Js.sliceTo 8 <$> res_runId result) +:+ ")."
             +:+ match res_warning result ≫= Js.nonEmpty with
                 | Some warning => " Warning: " +:+ warning
                 | None => EmptyString
                 end)))
      | st =>
          mret (Returned (replied
            ("Spawn failed: "
             +:+ default (match st with
                          | Forbidden => "forbidden"
                          | SpawnError => "error"
                          | Accepted => "accepted"
                          end) (res_error result))))
      end
  | _, _ =>
      mret (Returned (replied
        "Usage: /subagents spawn <agentId> <task> [--model <model>] [--thinking <level>]"))
  end.

(** *** The handler *)

Definition handledPrefixOf (normalized : string) : option string :=
  if Js.startsWith normalized COMMAND then Some COMMAND
  else if Js.startsWith normalized COMMAND_KILL then Some COMMAND_KILL
  else if Js.startsWith normalized COMMAND_STEER then Some COMMAND_STEER
  else if Js.startsWith normalized COMMAND_TELL then Some COMMAND_TELL
  else None.

(** Lines 273-287: the action and the tokens after it; [None] when the
    first token of [/subagents] is not an action. *)
Definition parseAction (handledPrefix normalized : string)
  : option (string * list string) :=
  let rest := Js.trim (Js.sliceFrom (String.length handledPrefix) normalized) in
  let restTokens := Js.splitWhitespace rest in
  if String.eqb handledPrefix COMMAND then
    let action := default "list" ((Js.toLowerCase <$> head restTokens) ≫= Js.nonEmpty) in
    if existsb (String.eqb action) ACTIONS then Some (action, tail restTokens) else None
  else if String.eqb handledPrefix COMMAND_KILL then Some ("kill", restTokens)
  else Some ("steer", restTokens).

Definition handleSubagentsCommand (params : CommandParams) (allowTextCommands : bool)
  : M HandlerOutcome :=
  if negb allowTextCommands then mret (Returned None) else
  let normalized := commandBodyNormalized params in
  match handledPrefixOf normalized with
  | None => mret (Returned None)
  | Some handledPrefix =>
  if negb (isAuthorizedSender params) then
    logVerbose ("Ignoring " +:+ handledPrefix +:+ " from unauthorized sender: "
                +:+ default "<unknown>" (senderId params ≫= Js.nonEmpty));;
    mret (Returned silent)
  else
  match parseAction handledPrefix normalized with
  | None => mret (Returned (replied buildSubagentsHelp))
  | Some (action, restTokens) =>
  match resolveRequesterSessionKey params with
  | None => mret (Returned (replied "⚠️ Missing session key."))
  | Some requesterKey =>
  runs ← listSubagentRunsForRequester requesterKey;
  if String.eqb action "help" then mret (Returned (replied buildSubagentsHelp)) else
  if String.eqb action "list" then
    w ← getWorld;
    mret (Returned (replied (listText (stores w) params (now w) runs)))
  else
  if String.eqb action "kill" then killAction params handledPrefix requesterKey runs restTokens else
  if String.eqb action "info" then infoAction params runs restTokens else
  if String.eqb action "log" then logAction params runs restTokens else
  if String.eqb action "send" || String.eqb action "steer"
  then sendOrSteerAction params handledPrefix (String.eqb action "steer") runs restTokens
  else
  if String.eqb action "spawn" then spawnAction params requesterKey restTokens else
  mret (Returned (replied buildSubagentsHelp))
  end end end.

End Commands.

(** ** Reference collaborators

    One concrete choice of the imported functions, used to run the
    embedding on examples.  [sortSubagentRuns] orders newest first by
    [startedAt ?? createdAt]; the gateway is left open. *)

Module Reference.

Definition startedOrCreated (r : SubagentRunRecord) : Z :=
  default (createdAt r) (startedAt r).

Fixpoint insertNewestFirst (r : SubagentRunRecord) (l : list SubagentRunRecord)
  : list SubagentRunRecord :=
  match l with
  | x :: rest =>
      if startedOrCreated x <? startedOrCreated r then r :: l
      else x :: insertNewestFirst r rest
  | [] => [r]
  end.

(** Modelled from the spec: [sortSubagentRuns] of subagents-utils, which
    the listing relies on for "newest-first"; equal times keep their order. *)
Definition newestFirst (l : list SubagentRunRecord) : list SubagentRunRecord :=
  fold_right insertNewestFirst [] l.

(** The agent id of [agent:<agentId>:<rest>]. *)
Fixpoint untilColon (s : string) : string * option string :=
  match s with
  | String c rest =>
      if Ascii.eqb c ":"%char then (EmptyString, Some rest)
      else let '(a, b) := untilColon rest in (String c a, b)
  | EmptyString => (EmptyString, None)
  end.

Definition agentIdOfKey (key : string) : option string :=
  match untilColon key with
  | (scheme, Some rest) =>
      if String.eqb scheme "agent" then Some (fst (untilColon rest)) else None
  | _ => None
  end.

Definition isToolMessage (m : JsValue) : bool :=
  match asString (jsGet m "role") with
  | Some role => String.eqb role "toolResult" || String.eqb role "tool"
  | None => false
  end.

Definition thinkLevels : list string :=
  ["off"; "minimal"; "low"; "medium"; "high"; "xhigh"].

Definition lookupAgent (cfg : Config) (agent : string) : option AgentConfig :=
  snd <$> List.find (fun e => String.eqb (fst e) agent) (agents_list cfg).

Definition collaborators (gw : list Event -> GatewayCall -> GatewayReply)
  : Collaborators :=
  {| normalizeAgentId := fun v =>
       match (Js.trim <$> v) ≫= Js.nonEmpty with
       | Some a => Js.toLowerCase a
       | None => "main"
       end;
     parseAgentSessionKey_agentId := agentIdOfKey;
     resolveMainSessionAlias := fun _ => ("main", "agent:main:main");
     resolveInternalSessionKey := fun key alias mainKey =>
       if String.eqb key mainKey then alias else key;
     resolveDisplaySessionKey := fun key alias mainKey =>
       if String.eqb key alias then mainKey else key;
     stripToolMessages := List.filter (fun m => negb (isToolMessage m));
     extractAssistantText := fun m =>
       if isString (jsGet m "role") "assistant" then asString (jsGet m "content")
       else None;
     extractTextFromChatContent := fun content _ => asString content;
     resolveAgentConfig := lookupAgent;
     resolveDefaultModelForAgent := fun _ _ => ("anthropic", "claude-opus-4-5");
     buildSubagentSystemPrompt := fun _ _ child _ task _ _ =>
       "You are subagent " +:+ child +:+ ". Task: " +:+ task;
     getSubagentDepthFromSessionStore := fun _ key _ =>
       if Js.includes key ":subagent:" then 1 else 0;
     normalizeThinkLevel := fun raw =>
       let key := Js.toLowerCase (Js.trim raw) in
       if existsb (String.eqb key) thinkLevels then Some key else None;
     formatThinkingLevels := fun _ _ => String.concat ", " thinkLevels;
     readStringParam := fun v => (Js.trim <$> asString v) ≫= Js.nonEmpty;
     normalizeDeliveryContext := Some;
     AGENT_LANE_SUBAGENT := "subagent";
     INTERNAL_MESSAGE_CHANNEL := "webchat";
     resolveStorePath := fun store agent =>
       default "sessions" store +:+ "/" +:+ default "main" agent;
     sortSubagentRuns := newestFirst;
     formatRunLabel := fun r _ =>
       default "subagent"
         (orNullish ((Js.trim <$> label r) ≫= Js.nonEmpty) (Js.nonEmpty (Js.trim (task r))));
     formatRunStatus := fun r =>
       match outcome r with
       | Some o => outcome_status o
       | None => "running"
       end;
     formatDurationCompact := fun ms => Some (pretty (ms / 1000) +:+ "s");
     formatTokenUsageDisplay := fun _ => EmptyString;
     truncateLine := fun s n => Js.sliceTo (Z.to_nat n) s;
     formatTimeAgo := fun ms => pretty (ms / 1000) +:+ "s ago";
     toISOString := fun ms => pretty ms;
     clearedQueues := fun _ _ => (0, 0, []);
     stopSubagents := fun _ _ w => w;
     uuidAt := fun n => "uuid-" +:+ pretty n;
     gateway := gw |}.

(** A gateway that acknowledges every call and names no run. *)
Definition acknowledging : list Event -> GatewayCall -> GatewayReply :=
  fun _ _ => Resolved (JObj []).

(** A gateway on which the [agent] method fails and every other call is
    acknowledged. *)
Definition agentFailing (msg : string) : list Event -> GatewayCall -> GatewayReply :=
  fun _ c =>
    if String.eqb (gw_method c) "agent" then Rejected (ThrownError msg)
    else Resolved (JObj []).

Definition emptyConfig : Config :=
  {| agents_defaults_subagents := None; agents_defaults_model_primary := JUndefined;
     agents_list := []; session_store := None; session_mainKey := None |}.

Definition world (cfg : Config) (rs : list SubagentRunRecord) (t : Z) : World :=
  {| runs := rs; stores := ∅; config := cfg; now := t; uuidsDrawn := 0; trace := [] |}.

Definition run (id child requester what : string) (created : Z) (ended : option Z)
  : SubagentRunRecord :=
  {| runId := id; childSessionKey := child; requesterSessionKey := requester;
     requesterOrigin := None; requesterDisplayKey := requester; task := what;
     cleanup := CleanupKeep; label := None; model := None;
     runTimeoutSeconds := None; createdAt := created; startedAt := None;
     endedAt := ended; outcome := None; archiveAtMs := None;
     cleanupHandled := false; suppressAnnounceForSteerRestart := false |}.

Definition command (body : string) (cfg : Config) : CommandParams :=
  {| commandBodyNormalized := body; isAuthorizedSender := true; senderId := None;
     command_channel := None; command_to := None;
     sessionKey := Some "agent:main:main"; CommandTargetSessionKey := None;
     AccountId := None; MessageThreadId := None; cfg := cfg |}.

Definition request (what : string) (agent : option string) : SpawnSubagentParams :=
  {| sp_task := what; sp_label := None; sp_agentId := agent; sp_model := None;
     sp_thinking := None; sp_runTimeoutSeconds := None; sp_cleanup := None |}.

Definition context (key : string) : SpawnSubagentContext :=
  {| agentSessionKey := Some key; agentChannel := None; agentAccountId := None;
     agentTo := None; agentThreadId := None; agentGroupId := None;
     agentGroupChannel := None; agentGroupSpace := None;
     requesterAgentIdOverride := None |}.

End Reference.

(** ** Vocabulary of the statements *)

(** The text a model selection offers: the string itself, or the string
    under [primary] of an object. *)
Definition selectionText (v : JsValue) : option string :=
  match v with
  | JStr s => Some s
  | JObj _ => asString (jsGet v "primary")
  | _ => None
  end.

(** The resolution as the specification words it: the first candidate, in
    order, that is non-empty once trimmed. *)
Fixpoint firstNonEmpty (candidates : list (option string)) : option string :=
  match candidates with
  | Some s :: rest =>
      if Js.truthy (Js.trim s) then Some (Js.trim s) else firstNonEmpty rest
  | None :: rest => firstNonEmpty rest
  | [] => None
  end.

(** An effect of the interruption that touches neither the registry nor
    the [agent] method. *)
Definition quiet (e : Event) : Prop :=
  match e with
  | EvRegistry _ => False
  | EvGateway call _ => gw_method call = "agent.wait"
  | _ => True
  end.

(** [a] started, or was created, no earlier than [b]. *)
Definition notOlder (a b : SubagentRunRecord) : Prop :=
  Reference.startedOrCreated b <= Reference.startedOrCreated a.

Section Vocabulary.

Context {C : Collaborators}.

(** The runtime the listing shows for a run: measured up to now for one
    that has not ended, up to its end otherwise. *)
Definition shownRuntime (nowMs : Z) (e : SubagentRunRecord) : Z :=
  if isActive e then activeRuntime nowMs e else recentRuntime nowMs e.

(** An allowlist permits a target when it has a wildcard entry or an
    entry that is the target up to normalization and case. *)
Definition permits (allow : list string) (target : string) : Prop :=
  (exists v, In v allow /\ Js.trim v = "*") \/
  (exists v, In v allow /\ Js.trim v <> EmptyString
             /\ Js.toLowerCase (normalizeAgentId (Some v)) = Js.toLowerCase target).

End Vocabulary.

(** ** Example data

    Worlds, configurations and gateways on which the statements are run. *)

Definition listed : list SubagentRunRecord :=
  [ Reference.run "r1" "agent:main:subagent:a" "agent:main:main" "task one" 100 None;
    Reference.run "r2" "agent:main:subagent:b" "agent:main:main" "task two" 200 None;
    Reference.run "r3" "agent:main:subagent:c" "agent:main:main" "task three" 300 (Some 900) ].

Definition child (n : nat) : SubagentRunRecord :=
  Reference.run ("run-" +:+ pretty n) ("agent:main:subagent:" +:+ pretty n)
    "agent:main:main" "task" 100 None.

Definition fiveChildren : list SubagentRunRecord := map child [1; 2; 3; 4; 5]%nat.

Definition mainAllowing (entries : list string) : Config :=
  {| agents_defaults_subagents := None; agents_defaults_model_primary := JUndefined;
     agents_list :=
       [("main", {| agent_subagents :=
                      Some {| maxSpawnDepth := None; maxChildrenPerAgent := None;
                              allowAgents := Some entries;
                              subagents_model := JUndefined;
                              subagents_thinking := JUndefined |} |})];
     session_store := None; session_mainKey := None |}.

Definition configuredModels : Config :=
  {| agents_defaults_subagents :=
       Some {| maxSpawnDepth := None; maxChildrenPerAgent := None; allowAgents := None;
               subagents_model := JObj [("primary", JStr " openai/gpt-4o ")];
               subagents_thinking := JUndefined |};
     agents_defaults_model_primary := JStr "anthropic/claude-sonnet-4-5";
     agents_list :=
       [("main", {| agent_subagents :=
                      Some {| maxSpawnDepth := None; maxChildrenPerAgent := None;
                              allowAgents := None; subagents_model := JStr "   ";
                              subagents_thinking := JUndefined |} |})];
     session_store := None; session_mainKey := None |}.

Definition thinkingDefault (level : string) : Config :=
  {| agents_defaults_subagents :=
       Some {| maxSpawnDepth := None; maxChildrenPerAgent := None; allowAgents := None;
               subagents_model := JUndefined; subagents_thinking := JStr level |};
     agents_defaults_model_primary := JUndefined;
     agents_list := []; session_store := None; session_mainKey := None |}.

(** A gateway that rejects the model patch with [msg] and acknowledges
    every other call. *)
Definition modelRejecting (msg : string) : list Event -> GatewayCall -> GatewayReply :=
  fun _ c =>
    match gw_params c with
    | PatchModel _ _ => Rejected (ThrownError msg)
    | _ => Resolved (JObj [])
    end.

(** ** The [sessions_spawn] tool: [src/agents/tools/sessions-spawn-tool.ts]

    The parameters [execute] hands to [spawnSubagentDirect] (lines 41-68),
    for the task that the required read of [task] returned.  Numbers are
    the integers of [JNum]; on them [Math.floor] is the identity and
    [Number.isFinite] holds. *)
Section SpawnTool.

Context {C : Collaborators}.

Definition timeoutSecondsCandidate (args : JsValue) : option Z :=
  match jsGet args "runTimeoutSeconds" with
  | JNum t => Some t
  | _ =>
      match jsGet args "timeoutSeconds" with
      | JNum t => Some t
      | _ => None
      end
  end.

Definition sessionsSpawnParams (task : string) (args : JsValue) : SpawnSubagentParams :=
  let label :=
    match jsGet args "label" with JStr l => Js.trim l | _ => EmptyString end in
  {| sp_task := task;
     sp_label := Js.nonEmpty label;
     sp_agentId := readStringParam (jsGet args "agentId");
     sp_model := readStringParam (jsGet args "model");
     sp_thinking := readStringParam (jsGet args "thinking");
     sp_runTimeoutSeconds := Z.max 0 <$> timeoutSecondsCandidate args;
     sp_cleanup :=
       Some (if isString (jsGet args "cleanup") "delete" then CleanupDelete
             else CleanupKeep) |}.

End SpawnTool.

(** ** Vocabulary of the further properties *)

(** Effects by kind. *)
Definition onlyLogs (e : Event) : Prop :=
  match e with
  | EvLogVerbose _ => True
  | _ => False
  end.

Definition notRegistry (e : Event) : Prop :=
  match e with
  | EvRegistry _ => False
  | _ => True
  end.

Definition notGateway (e : Event) : Prop :=
  match e with
  | EvGateway _ _ => False
  | _ => True
  end.

(** The session a gateway call addresses, for the calls that name one. *)
Definition sessionOfCall (p : GatewayParams) : option string :=
  match p with
  | PatchSpawnDepth key _ | PatchModel key _ | PatchThinkingLevel key _ => Some key
  | AgentRun a => Some (ap_sessionKey a)
  | ChatHistory key _ => Some key
  | AgentWait _ _ => None
  end.

(** A string that is empty or starts with a character that is not white
    space. *)
Definition startsClean (s : string) : Prop :=
  match s with
  | String c _ => Js.isWhitespace c = false
  | EmptyString => True
  end.

(** A token the spawn action does not read as a flag. *)
Definition notFlag (t : string) : Prop := t <> "--model" /\ t <> "--thinking".

(** ** Properties of the string methods *)

Example trim_ex : Js.trim "  a b  " = "a b".
Proof. reflexivity. Qed.

Example tokens_ex : Js.splitWhitespace " log  3   tools " = ["log"; "3"; "tools"].
Proof. reflexivity. Qed.

Example parse_ex : Js.parseInt "0250" = 250%N.
Proof. reflexivity. Qed.

Example includes_ex : Js.includes "Error: model not allowed: x" "model not allowed" = true.
Proof. reflexivity. Qed.

Lemma prefix_app (p s : string) : String.prefix p (p +:+ s) = true.
Proof.
  induction p as [|c p IH].
  - change (EmptyString +:+ s) with s. now destruct s.
  - change (String c p +:+ s) with (String c (p +:+ s)).
    cbn [String.prefix]. rewrite IH. now destruct (ascii_dec c c).
Qed.

Lemma append_assoc (a b c : string) : (a +:+ b) +:+ c = a +:+ b +:+ c.
Proof.
  induction a as [|x a IH].
  - reflexivity.
  - change ((String x a +:+ b) +:+ c) with (String x ((a +:+ b) +:+ c)).
    change (String x a +:+ b +:+ c) with (String x (a +:+ b +:+ c)).
    now rewrite IH.
Qed.

Lemma includes_prefix (s p : string) : String.prefix p s = true -> Js.includes s p = true.
Proof. intros H. destruct s; cbn [Js.includes]; now rewrite H. Qed.

Lemma includes_after (p s needle : string) :
  Js.includes s needle = true -> Js.includes (p +:+ s) needle = true.
Proof.
  intros H. induction p as [|x p IH].
  - exact H.
  - change (String x p +:+ s) with (String x (p +:+ s)).
    cbn [Js.includes]. rewrite IH. apply orb_true_r.
Qed.

Lemma isDigit_not_whitespace (c : ascii) : Js.isDigit c = true -> Js.isWhitespace c = false.
Proof.
  unfold Js.isDigit, Js.isWhitespace. intros H.
  apply andb_true_iff in H as [H1 H2].
  apply Nat.leb_le in H1. apply Nat.leb_le in H2.
  apply orb_false_iff. split.
  - apply andb_false_iff. right. apply Nat.leb_gt. lia.
  - apply Nat.eqb_neq. lia.
Qed.

Lemma trimStart_digits (s : string) : Js.allDigits s = true -> Js.trimStart s = s.
Proof.
  destruct s as [|c s]; simpl; [reflexivity|].
  intros H. apply andb_true_iff in H as [H _].
  now rewrite (isDigit_not_whitespace c H).
Qed.

Lemma trimEnd_digits (s : string) : Js.allDigits s = true -> Js.trimEnd s = s.
Proof.
  induction s as [|c s IH]; simpl; [reflexivity|].
  intros H. apply andb_true_iff in H as [Hc Hs].
  rewrite (IH Hs), (isDigit_not_whitespace c Hc). now destruct s.
Qed.

Lemma trim_digits (s : string) : Js.isDigits s = true -> Js.trim s = s.
Proof.
  intros H. assert (Js.allDigits s = true) as Hd by (destruct s; [discriminate | exact H]).
  unfold Js.trim. now rewrite trimStart_digits, trimEnd_digits.
Qed.

Lemma digits_not_last (s : string) : Js.isDigits s = true -> String.eqb s "last" = false.
Proof.
  destruct s as [|c s]; [discriminate|]. simpl. intros H.
  apply andb_true_iff in H as [H _].
  destruct (Ascii.eqb c "l") eqn:E; [|reflexivity].
  apply Ascii.eqb_eq in E. subst c. discriminate.
Qed.

Lemma digits_truthy (s : string) : Js.isDigits s = true -> Js.nonEmpty s = Some s.
Proof. destruct s; [discriminate | reflexivity]. Qed.

(** Printing a natural and reading it back with [parseInt]. *)

Lemma isDigit_pretty_char (d : N) : Js.isDigit (pretty_N_char d) = true.
Proof. unfold pretty_N_char. repeat case_match; reflexivity. Qed.

Lemma parseDigits_pretty_char (acc d : N) (s : string) :
  (d < 10)%N ->
  Js.parseDigits acc (String (pretty_N_char d) s) = Js.parseDigits (10 * acc + d)%N s.
Proof.
  intros Hd. cbn [Js.parseDigits]. rewrite isDigit_pretty_char.
  f_equal. f_equal.
  assert (d = 0 \/ d = 1 \/ d = 2 \/ d = 3 \/ d = 4 \/ d = 5 \/ d = 6 \/ d = 7
          \/ d = 8 \/ d = 9)%N as Hcases by lia.
  repeat (destruct Hcases as [-> | Hcases]; [reflexivity|]). now subst d.
Qed.

Lemma allDigits_pretty_go (x : N) (s : string) :
  Js.allDigits s = true -> Js.allDigits (pretty_N_go x s) = true.
Proof.
  revert s. induction (N.lt_wf_0 x) as [x _ IH]. intros s Hs.
  destruct (N.eq_dec x 0%N) as [-> | Hx].
  - now rewrite pretty_N_go_0.
  - rewrite pretty_N_go_step by lia. apply IH.
    + apply N.div_lt; lia.
    + cbn [Js.allDigits]. now rewrite isDigit_pretty_char.
Qed.

Lemma parseDigits_pretty_go (x : N) :
  exists p : N, forall acc s,
    Js.parseDigits acc (pretty_N_go x s) = Js.parseDigits (acc * p + x)%N s.
Proof.
  induction (N.lt_wf_0 x) as [x _ IH].
  destruct (N.eq_dec x 0%N) as [-> | Hx].
  - exists 1%N. intros acc s. rewrite pretty_N_go_0. f_equal. lia.
  - destruct (IH (x `div` 10)%N) as [p Hp]; [apply N.div_lt; lia|].
    exists (10 * p)%N. intros acc s.
    rewrite pretty_N_go_step by lia.
    rewrite Hp, parseDigits_pretty_char by (apply N.mod_lt; lia).
    f_equal. pose proof (N.div_mod x 10). lia.
Qed.

Lemma pretty_go_length (x : N) (s : string) :
  (String.length s <= String.length (pretty_N_go x s))%nat.
Proof.
  revert s. induction (N.lt_wf_0 x) as [x _ IH]. intros s.
  destruct (N.eq_dec x 0%N) as [-> | Hx]; [now rewrite pretty_N_go_0|].
  rewrite pretty_N_go_step by lia.
  etransitivity; [|apply IH; apply N.div_lt; lia]. simpl. lia.
Qed.

Lemma isDigits_pretty (n : N) : Js.isDigits (pretty n) = true.
Proof.
  unfold pretty, pretty_N. destruct (decide (n = 0%N)) as [-> | Hn]; [reflexivity|].
  assert (Js.allDigits (pretty_N_go n EmptyString) = true) as Hd
    by now apply allDigits_pretty_go.
  destruct (pretty_N_go n EmptyString) eqn:E; [|exact Hd].
  exfalso. rewrite pretty_N_go_step in E by lia.
  pose proof (pretty_go_length (n `div` 10)
                (String (pretty_N_char (n `mod` 10)) EmptyString)) as Hl.
  rewrite E in Hl. simpl in Hl. lia.
Qed.

Lemma parseInt_pretty (n : N) : Js.parseInt (pretty n) = n.
Proof.
  unfold pretty, pretty_N. destruct (decide (n = 0%N)) as [-> | Hn]; [reflexivity|].
  unfold Js.parseInt. destruct (parseDigits_pretty_go n) as [p Hp].
  rewrite Hp. cbn [Js.parseDigits]. lia.
Qed.

(** ** Target indexes and the listing *)

Lemma mapCounting_spec {A B} (f : N -> A -> B) (l : list A) (i : N) :
  snd (mapCounting f i l) = (i + N.of_nat (length l))%N /\
  length (fst (mapCounting f i l)) = length l /\
  forall k, fst (mapCounting f i l) !! k = f (i + N.of_nat k)%N <$> (l !! k).
Proof.
  revert i. induction l as [|x l IH]; intros i; cbn [mapCounting].
  - split; [cbn; lia|]. split; [reflexivity|]. intros k. now rewrite !lookup_nil.
  - destruct (IH (i + 1)%N) as (Hn & Hlen & Hk).
    destruct (mapCounting f (i + 1)%N l) as [lines index'] eqn:E.
    cbn [fst snd] in *. split; [|split].
    + rewrite Hn. cbn [length]. lia.
    + cbn [length]. now rewrite Hlen.
    + intros [|k]; cbn.
      * do 2 f_equal. lia.
      * rewrite Hk. destruct (l !! k); cbn; [|reflexivity]. do 2 f_equal. lia.
Qed.

Section TargetIndex.

Context {C : Collaborators}.

Lemma filter_lookup_holds {A} (p : A -> bool) (l : list A) (k : nat) (x : A) :
  List.filter p l !! k = Some x -> p x = true.
Proof.
  intros H. apply list_elem_of_lookup_2, list_elem_of_In, filter_In in H. tauto.
Qed.

Lemma isRecent_not_active (cutoff : Z) (r : SubagentRunRecord) :
  isRecent cutoff r = true -> isActive r = false.
Proof.
  unfold isRecent, isActive. intros H. apply andb_true_iff in H as [H _]. now rewrite H.
Qed.

Lemma listLines_lookup st params nowMs runs k e :
  numericOrder nowMs runs !! k = Some e ->
  (fst (listLines st params nowMs runs) ++ snd (listLines st params nowMs runs))%list !! k
  = Some (numbered (N.of_nat (S k)) (describeRun st params (shownRuntime nowMs e) e)).
Proof.
  unfold numericOrder, listLines. cbv zeta.
  set (active := List.filter isActive (sortSubagentRuns runs)).
  set (recent := List.filter _ (sortSubagentRuns runs)).
  set (fa := fun (index : N) (e0 : SubagentRunRecord) => numbered index _).
  set (fr := fun (index : N) (e0 : SubagentRunRecord) => numbered index _).
  destruct (mapCounting_spec fa active 1%N) as (Hn & Hlen & Hk).
  destruct (mapCounting fa 1%N active) as [activeLines index] eqn:Ea.
  cbn [fst snd] in Hn, Hlen, Hk. subst index.
  destruct (mapCounting_spec fr recent (1 + N.of_nat (length active))%N) as (_ & Hlen' & Hk').
  destruct (mapCounting fr _ recent) as [recentLines index'] eqn:Er.
  cbn [fst snd] in *. intros He.
  destruct (decide (k < length active)%nat) as [Hlt | Hge].
  - rewrite lookup_app_l in He by exact Hlt.
    rewrite lookup_app_l by (now rewrite Hlen).
    rewrite Hk, He. cbn. unfold fa, shownRuntime.
    rewrite (filter_lookup_holds _ _ _ _ He). do 2 f_equal. lia.
  - rewrite lookup_app_r in He by lia.
    rewrite lookup_app_r by (rewrite Hlen; lia).
    rewrite Hlen, Hk', He. cbn. unfold fr, shownRuntime.
    rewrite (isRecent_not_active _ _ (filter_lookup_holds _ _ _ _ He)).
    do 2 f_equal. lia.
Qed.

Lemma listLines_length st params nowMs runs :
  length (fst (listLines st params nowMs runs) ++ snd (listLines st params nowMs runs))%list
  = length (numericOrder nowMs runs).
Proof.
  unfold numericOrder, listLines. cbv zeta.
  set (active := List.filter isActive (sortSubagentRuns runs)).
  set (recent := List.filter _ (sortSubagentRuns runs)).
  set (fa := fun (index : N) (e0 : SubagentRunRecord) => numbered index _).
  set (fr := fun (index : N) (e0 : SubagentRunRecord) => numbered index _).
  destruct (mapCounting_spec fa active 1%N) as (Hn & Hlen & _).
  destruct (mapCounting fa 1%N active) as [activeLines index] eqn:Ea.
  cbn [fst snd] in Hn, Hlen. subst index.
  destruct (mapCounting_spec fr recent (1 + N.of_nat (length active))%N) as (_ & Hlen' & _).
  destruct (mapCounting fr _ recent) as [recentLines index'] eqn:Er.
  cbn [fst snd] in *. rewrite !length_app. lia.
Qed.

Lemma resolve_digits nowMs runs token :
  Js.isDigits (Js.trim token) = true ->
  resolveSubagentTarget nowMs runs (Some token) =
    let idx := Js.parseInt (Js.trim token) in
    if (idx =? 0)%N || (N.of_nat (length (numericOrder nowMs runs)) <? idx)%N
    then notFound ("Invalid subagent index: " +:+ Js.trim token)
    else found (numericOrder nowMs runs !! (N.to_nat idx - 1)%nat).
Proof.
  intros Hd. unfold resolveSubagentTarget. cbn [fmap option_fmap option_map mbind option_bind].
  rewrite (digits_truthy _ Hd), (digits_not_last _ Hd), Hd. reflexivity.
Qed.

End TargetIndex.

(** C8 (target-index/list consistency).  For a fixed set of runs and a
    fixed clock reading, the numbered lines of the listing follow the
    ordering "runs that have not ended, as [sortSubagentRuns] orders them,
    then the runs that ended within the last 30 minutes, in that order
    too", line [k] carrying the number [k]; an all-digit token resolves to
    the run at that position of the same ordering, so the token printed on
    a line resolves to the run of that line, index 1 to the run of the
    first line; an index of 0 or beyond the last line yields the result
    [Invalid subagent index], an error and not an exception. *)
Theorem target_index_matches_list `{C : Collaborators}
  (st : gmap string (gmap string SessionEntry)) (params : CommandParams)
  (nowMs : Z) (runs : list SubagentRunRecord) :
  let order :=
    (List.filter isActive (sortSubagentRuns runs)
     ++ List.filter (isRecent (nowMs - 30 * 60000)) (sortSubagentRuns runs))%list in
  let lines :=
    (fst (listLines st params nowMs runs) ++ snd (listLines st params nowMs runs))%list in
  length lines = length order /\
  (forall k e, order !! k = Some e ->
     lines !! k
       = Some (pretty (N.of_nat (S k)) +:+ ". "
               +:+ describeRun st params (shownRuntime nowMs e) e) /\
     resolveSubagentTarget nowMs runs (Some (pretty (N.of_nat (S k)))) = found (Some e)) /\
  (forall e, order !! 0%nat = Some e ->
     resolveSubagentTarget nowMs runs (Some "1") = found (Some e)) /\
  (forall token, Js.isDigits (Js.trim token) = true ->
     let idx := Js.parseInt (Js.trim token) in
     resolveSubagentTarget nowMs runs (Some token) =
       if (idx =? 0)%N || (N.of_nat (length order) <? idx)%N
       then notFound ("Invalid subagent index: " +:+ Js.trim token)
       else found (order !! (N.to_nat idx - 1)%nat)).
Proof.
  intros order lines.
  change order with (numericOrder nowMs runs) in *.
  assert (forall k e, numericOrder nowMs runs !! k = Some e ->
            resolveSubagentTarget nowMs runs (Some (pretty (N.of_nat (S k))))
            = found (Some e)) as Hresolve.
  { intros k e He.
    pose proof (isDigits_pretty (N.of_nat (S k))) as Hd.
    rewrite resolve_digits by (now rewrite trim_digits).
    cbv zeta. rewrite (trim_digits _ Hd), parseInt_pretty.
    apply lookup_lt_Some in He as Hlt.
    replace (N.of_nat (S k) =? 0)%N with false by (symmetry; apply N.eqb_neq; lia).
    replace (N.of_nat (length (numericOrder nowMs runs)) <? N.of_nat (S k))%N
      with false by (symmetry; apply N.ltb_ge; lia).
    cbn [orb]. rewrite Nat2N.id. replace (S k - 1)%nat with k by lia.
    now rewrite He. }
  split; [apply listLines_length|].
  split; [|split].
  - intros k e He. split; [|now apply Hresolve].
    subst lines. now rewrite (listLines_lookup _ _ _ _ _ _ He).
  - intros e He. exact (Hresolve 0%nat e He).
  - intros token Hd. apply resolve_digits, Hd.
Qed.

Lemma target_index_matches_list_witness :
  resolveSubagentTarget (C := Reference.collaborators Reference.acknowledging)
    1000 listed (Some "1")
  = found (Some (Reference.run "r2" "agent:main:subagent:b" "agent:main:main"
                   "task two" 200 None)).
Proof.
  apply (target_index_matches_list (C := Reference.collaborators Reference.acknowledging)
           ∅ (Reference.command "/subagents list" Reference.emptyConfig) 1000 listed).
  reflexivity.
Defined.

(** ** The reference order is newest first *)

Lemma insertNewestFirst_perm (r : SubagentRunRecord) (l : list SubagentRunRecord) :
  Permutation (r :: l) (Reference.insertNewestFirst r l).
Proof.
  induction l as [|x l IH]; cbn [Reference.insertNewestFirst]; [reflexivity|].
  destruct (Reference.startedOrCreated x <? Reference.startedOrCreated r); [reflexivity|].
  rewrite perm_swap. now apply perm_skip.
Qed.

Lemma newestFirst_perm (l : list SubagentRunRecord) :
  Permutation l (Reference.newestFirst l).
Proof.
  induction l as [|x l IH]; cbn; [reflexivity|].
  rewrite <- insertNewestFirst_perm. now apply perm_skip.
Qed.

Lemma insertNewestFirst_sorted (r : SubagentRunRecord) (l : list SubagentRunRecord) :
  StronglySorted notOlder l -> StronglySorted notOlder (Reference.insertNewestFirst r l).
Proof.
  induction 1 as [|x l Hs IH Hx]; cbn [Reference.insertNewestFirst].
  - repeat constructor.
  - destruct (Reference.startedOrCreated x <? Reference.startedOrCreated r) eqn:E.
    + apply Z.ltb_lt in E. constructor; [now constructor|].
      constructor; [unfold notOlder; lia|].
      eapply List.Forall_impl; [|exact Hx]. unfold notOlder. intros a Ha. lia.
    + apply Z.ltb_ge in E. constructor; [exact IH|].
      eapply Permutation_Forall; [apply insertNewestFirst_perm|].
      constructor; [exact E | exact Hx].
Qed.

Lemma newestFirst_sorted (l : list SubagentRunRecord) :
  StronglySorted notOlder (Reference.newestFirst l).
Proof.
  induction l as [|x l IH]; cbn; [constructor|]. now apply insertNewestFirst_sorted.
Qed.

Lemma filter_sorted {A} (R : A -> A -> Prop) (p : A -> bool) (l : list A) :
  StronglySorted R l -> StronglySorted R (List.filter p l).
Proof.
  induction 1 as [|x l Hs IH Hx]; cbn [List.filter]; [constructor|].
  destruct (p x); [|exact IH]. constructor; [exact IH|].
  rewrite List.Forall_forall in *. intros y Hy. apply Hx.
  now apply filter_In in Hy as [Hy _].
Qed.

(** With the reference [sortSubagentRuns] the index order is: the runs
    that have not ended, newest first, then the runs that ended in the
    window, newest first; both drawn from the given runs. *)
Lemma reference_order_newest_first (gw : list Event -> GatewayCall -> GatewayReply)
  (nowMs : Z) (rs : list SubagentRunRecord) :
  let C := Reference.collaborators gw in
  exists active recent,
    numericOrder nowMs rs = (active ++ recent)%list /\
    StronglySorted notOlder active /\ StronglySorted notOlder recent /\
    Forall (fun r => isActive r = true /\ In r rs) active /\
    Forall (fun r => isActive r = false /\ In r rs) recent.
Proof.
  intros C. unfold numericOrder. cbv zeta.
  change (sortSubagentRuns rs) with (Reference.newestFirst rs).
  eexists _, _. split; [reflexivity|].
  split; [apply filter_sorted, newestFirst_sorted|].
  split; [apply filter_sorted, newestFirst_sorted|].
  split; apply List.Forall_forall; intros r Hr; apply filter_In in Hr as [Hin Hp].
  - split; [exact Hp|]. eapply Permutation_in; [symmetry; apply newestFirst_perm | exact Hin].
  - split; [|eapply Permutation_in; [symmetry; apply newestFirst_perm | exact Hin]].
    unfold isRecent in Hp. apply andb_true_iff in Hp as [Hp _].
    unfold isActive. now rewrite Hp.
Qed.

(** ** Running the state-passing code in proofs *)

Ltac world_simpl := cbn [fst snd runs stores config now uuidsDrawn trace] in *.

Ltac unfold_M :=
  unfold countActiveRunsForSession, listSubagentRunsForRequester, registerSubagentRun,
    markSubagentRunTerminated, markSubagentRunForSteerRestart,
    clearSubagentRunSteerRestart, replaceSubagentRunAfterSteer,
    callGateway, randomUUID, abortEmbeddedPiRun, clearSessionQueues, logVerbose,
    Date_now, setRuns, setStores, emit, loadConfig, getWorld,
    mbind, M_bind, mret, M_ret in *;
  world_simpl.

(** Case analysis on every test the hypotheses still contain. *)
Ltac split_paths :=
  repeat (match goal with
          | H : context [if ?b then _ else _] |- _ => destruct b eqn:?
          | H : context [match ?x with _ => _ end] |- _ => destruct x eqn:?
          end; world_simpl; simplify_eq).

Lemma newEvents_app (w : World) (l : list Event) r st cf n u :
  newEvents w {| runs := r; stores := st; config := cf; now := n; uuidsDrawn := u;
                 trace := trace w ++ l |} = l.
Proof. unfold newEvents. cbn [trace]. apply drop_app_length. Qed.

Lemma newEvents_same (w : World) r st cf n u :
  newEvents w {| runs := r; stores := st; config := cf; now := n; uuidsDrawn := u;
                 trace := trace w |} = [].
Proof. unfold newEvents. cbn [trace]. apply drop_all. Qed.

Lemma newEvents_refl (w : World) : newEvents w w = [].
Proof. unfold newEvents. apply drop_all. Qed.

(** Use the replies found by case analysis wherever the call still stands. *)
Ltac resolve_replies :=
  repeat match goal with
         | H : gateway ?t ?c = _, H' : context [gateway ?t ?c] |- _ =>
             lazymatch H' with
             | H => fail
             | _ => rewrite H in H'
             end
         | H : gateway ?t ?c = _ |- context [gateway ?t ?c] => rewrite H
         end.

(** Bring the trace of a final world to the form [trace w ++ events]. *)
Ltac trace_norm :=
  world_simpl; repeat rewrite <- app_assoc in *; cbn [app] in *;
  rewrite ?newEvents_app, ?newEvents_same, ?newEvents_refl in *.

(** ** Admission *)

Section Admission.

Context {C : Collaborators}.

Lemma spawn_rejects_unchanged params ctx w :
  maxSpawnDepthOf (config w) <= callerDepth w ctx \/
  maxChildren (config w)
    <= Registry.countActive (requesterInternalKey (config w) ctx) (runs w) \/
  allowlistRejects (config w) params ctx = true ->
  exists reason, spawnSubagentDirect params ctx w = (forbidden reason, w).
Proof.
  intros H. unfold spawnSubagentDirect. unfold_M.
  destruct (maxSpawnDepthOf (config w) <=? callerDepth w ctx) eqn:Hd; [eauto|].
  destruct (maxChildren (config w) <=? _) eqn:Hc; [eauto|].
  destruct (allowlistRejects (config w) params ctx) eqn:Ha; [eauto|].
  exfalso. apply Z.leb_gt in Hd. apply Z.leb_gt in Hc.
  destruct H as [H | [H | H]]; [lia | lia | discriminate].
Qed.

Lemma spawn_not_forbidden params ctx w res w' :
  callerDepth w ctx < maxSpawnDepthOf (config w) ->
  Registry.countActive (requesterInternalKey (config w) ctx) (runs w)
    < maxChildren (config w) ->
  allowlistRejects (config w) params ctx = false ->
  spawnSubagentDirect params ctx w = (res, w') ->
  status res <> Forbidden.
Proof.
  intros Hd Hc Ha H. apply Z.leb_gt in Hd. apply Z.leb_gt in Hc.
  unfold spawnSubagentDirect in H. unfold_M. rewrite Hd, Hc, Ha in H.
  split_paths; discriminate.
Qed.

(** C2 (depth admission).  When the resolved spawn depth of the requester
    session has reached [maxSpawnDepth], which is 1 when the configuration
    does not set it, the spawn returns [forbidden] with the reason that names
    both depths, and leaves the world as it was: no gateway call, no
    registry insertion, no UUID drawn. *)
Theorem depth_admission (params : SpawnSubagentParams) (ctx : SpawnSubagentContext)
  (w : World) :
  (agents_defaults_subagents (config w) ≫= maxSpawnDepth = None ->
   maxSpawnDepthOf (config w) = 1) /\
  (maxSpawnDepthOf (config w) <= callerDepth w ctx ->
   spawnSubagentDirect params ctx w
   = (forbidden
        ("sessions_spawn is not allowed at this depth (current depth: "
         +:+ pretty (callerDepth w ctx) +:+ ", max: "
         +:+ pretty (maxSpawnDepthOf (config w)) +:+ ")"),
      w)).
Proof.
  split.
  - intros H. unfold maxSpawnDepthOf. now rewrite H.
  - intros H. unfold spawnSubagentDirect. unfold_M.
    apply Z.leb_le in H. now rewrite H.
Qed.

End Admission.

Lemma depth_admission_witness :
  let C := Reference.collaborators Reference.acknowledging in
  let w := Reference.world Reference.emptyConfig [] 1000 in
  spawnSubagentDirect (Reference.request "dig deeper" None)
    (Reference.context "agent:main:subagent:0000") w
  = (forbidden
       "sessions_spawn is not allowed at this depth (current depth: 1, max: 1)", w).
Proof.
  intros C w.
  apply (depth_admission (C := C) (Reference.request "dig deeper" None)
           (Reference.context "agent:main:subagent:0000") w).
  vm_compute. discriminate.
Defined.

(** ** Fan-out *)

Lemma filter_map_shrinks {A} (p : A -> bool) (f : A -> A) (l : list A) :
  (forall x, p (f x) = true -> p x = true) ->
  (length (List.filter p (map f l)) <= length (List.filter p l))%nat /\
  (forall x, In x l -> p x = true -> p (f x) = false ->
     (length (List.filter p (map f l)) < length (List.filter p l))%nat).
Proof.
  intros Hmono. induction l as [|y l [IHle IHlt]]; cbn [map List.filter].
  - split; [lia | intros x []].
  - assert (Hcases : (p (f y) = true /\ p y = true) \/ (p (f y) = false)).
    { destruct (p (f y)) eqn:E; [left; split; [reflexivity | now apply Hmono] | now right]. }
    split.
    + destruct Hcases as [[-> ->] | ->]; cbn [length]; [lia|].
      destruct (p y); cbn [length]; lia.
    + intros x [-> | Hin] Hx Hfx.
      * rewrite Hx, Hfx. cbn [length]. lia.
      * specialize (IHlt x Hin Hx Hfx).
        destruct Hcases as [[-> ->] | ->]; cbn [length]; [lia|].
        destruct (p y); cbn [length]; lia.
Qed.

Lemma countActive_terminate (t : Z) (key reason : string) (r : SubagentRunRecord)
  (rs : list SubagentRunRecord) :
  In r rs -> requesterSessionKey r = key -> endedAt r = None ->
  Registry.countActive key (Registry.terminate t (runId r) reason rs)
  < Registry.countActive key rs.
Proof.
  intros Hin Hkey Hend. unfold Registry.countActive, Registry.terminate, Registry.update.
  apply inj_lt.
  eapply (proj2 (filter_map_shrinks _ _ rs _) r Hin).
  - unfold Registry.hasEnded. rewrite Hkey, Hend, String.eqb_refl. reflexivity.
  - unfold Registry.hasRunId, Registry.hasEnded. rewrite String.eqb_refl, Hend. cbn.
    apply andb_false_r.
  Unshelve.
  intros x. cbv beta. destruct (Registry.hasRunId (runId r) x); [|tauto].
  unfold Registry.hasEnded. destruct (endedAt x) eqn:E; [now rewrite E|]. cbn.
  rewrite andb_false_r. discriminate.
Qed.

Section FanOut.

Context {C : Collaborators}.

(** C3 (fan-out admission).  When the requester session has
    [maxChildrenPerAgent] (5 unless configured) or more runs that have not
    ended, the spawn returns [forbidden] and leaves the world as it was.
    Marking one of those runs terminated lowers the count; if the count
    had not exceeded the limit it is then below it, and a spawn from the
    same session that passes the depth and allowlist checks is no longer
    forbidden. *)
Theorem fanout_admission (params : SpawnSubagentParams) (ctx : SpawnSubagentContext)
  (w : World) :
  let key := requesterInternalKey (config w) ctx in
  (agents_defaults_subagents (config w) ≫= maxChildrenPerAgent = None ->
   maxChildren (config w) = 5) /\
  (maxChildren (config w) <= Registry.countActive key (runs w) ->
   exists reason, spawnSubagentDirect params ctx w = (forbidden reason, w)) /\
  (forall r reason,
     In r (runs w) -> requesterSessionKey r = key -> endedAt r = None ->
     let w' := snd (markSubagentRunTerminated (runId r) (childSessionKey r) reason w) in
     Registry.countActive key (runs w') < Registry.countActive key (runs w) /\
     (Registry.countActive key (runs w) <= maxChildren (config w) ->
      callerDepth w ctx < maxSpawnDepthOf (config w) ->
      allowlistRejects (config w) params ctx = false ->
      status (fst (spawnSubagentDirect params ctx w')) <> Forbidden)).
Proof.
  intros key. split; [|split].
  - intros H. unfold maxChildren. now rewrite H.
  - intros H. apply spawn_rejects_unchanged. tauto.
  - intros r reason Hin Hkey Hend w'.
    assert (Registry.countActive key (runs w') < Registry.countActive key (runs w)) as Hlt.
    { subst w'. unfold_M. now apply countActive_terminate. }
    split; [exact Hlt|]. intros Hmax Hdepth Hallow.
    destruct (spawnSubagentDirect params ctx w') as [res w''] eqn:E.
    cbn [fst]. eapply (spawn_not_forbidden params ctx w' res w''); [| | | exact E].
    + subst w'. unfold_M. exact Hdepth.
    + change (config w') with (config w). fold key. lia.
    + exact Hallow.
Qed.

End FanOut.

Lemma fanout_admission_witness :
  let C := Reference.collaborators Reference.acknowledging in
  let w := Reference.world Reference.emptyConfig fiveChildren 1000 in
  let request := Reference.request "one more" None in
  let ctx := Reference.context "agent:main:main" in
  (exists reason, spawnSubagentDirect request ctx w = (forbidden reason, w)) /\
  status (fst (spawnSubagentDirect request ctx
                 (snd (markSubagentRunTerminated "run-3" "agent:main:subagent:3"
                         "killed" w))))
  <> Forbidden.
Proof.
  intros C w request ctx.
  pose proof (fanout_admission (C := C) request ctx w) as (_ & Hfull & Hfreed).
  split.
  - apply Hfull. vm_compute. discriminate.
  - apply (Hfreed (child 3) "killed").
    + right. right. left. reflexivity.
    + reflexivity.
    + reflexivity.
    + vm_compute. discriminate.
    + vm_compute. reflexivity.
    + reflexivity.
Defined.

(** The scenario of the specification, run on the reference collaborators:
    five spawns from one session are accepted, the sixth is forbidden, and
    after one child is marked terminated a spawn is accepted again. *)
Example fanout_scenario :
  let C := Reference.collaborators Reference.acknowledging in
  let request := Reference.request "task" None in
  let ctx := Reference.context "agent:main:main" in
  let spawn w := spawnSubagentDirect request ctx w in
  let after (n : nat) := Nat.iter n (fun w => snd (spawn w))
                           (Reference.world Reference.emptyConfig [] 1000) in
  map (fun n => status (fst (spawn (after n)))) [0; 1; 2; 3; 4; 5]%nat
    = [Accepted; Accepted; Accepted; Accepted; Accepted; Forbidden] /\
  status (fst (spawn (snd (markSubagentRunTerminated "uuid-1"
                             "agent:main:subagent:uuid-0" "killed" (after 5%nat)))))
    = Accepted.
Proof. vm_compute. split; reflexivity. Qed.

(** ** The allowlist *)

Lemma truthy_iff (s : string) : Js.truthy s = true <-> s <> EmptyString.
Proof. destruct s; cbn; split; intros; congruence. Qed.

Lemma setOf_has (x : string) (l seen : list string) :
  existsb (String.eqb x) (setOf seen l) = true <-> In x l /\ ~ In x seen.
Proof.
  revert seen. induction l as [|y l IH]; intros seen; cbn [setOf].
  - cbn. split; [discriminate | tauto].
  - destruct (existsb (String.eqb y) seen) eqn:Hseen.
    + rewrite IH. apply existsb_exists in Hseen as (z & Hz & Heq).
      apply String.eqb_eq in Heq. subst z. cbn [In]. split; [tauto|].
      intros [[-> | Hin] Hnot]; tauto.
    + assert (~ In y seen) as Hy.
      { intros Hin. apply not_true_iff_false in Hseen. apply Hseen.
        apply existsb_exists. exists y. split; [exact Hin | apply String.eqb_refl]. }
      cbn [existsb In]. rewrite orb_true_iff, IH, String.eqb_eq. cbn [In].
      destruct (string_dec y x) as [-> | Hne]; [tauto|].
      split; [intros [-> | [Hin Hnot]]; tauto|]. intros [[Heq | Hin] Hnot]; [tauto|].
      right. split; [exact Hin|]. intros [Heq | Hin']; [congruence | tauto].
Qed.

Section Allowlist.

Context {C : Collaborators}.

Lemma allowAny_spec (allow : list string) :
  allowAny allow = true <-> exists v, In v allow /\ Js.trim v = "*".
Proof.
  unfold allowAny. rewrite existsb_exists.
  split; intros (v & Hin & Hv); exists v; (split; [exact Hin|]);
    now apply String.eqb_eq.
Qed.

Lemma allowSet_spec (allow : list string) (x : string) :
  setHas (allowSet allow) x = true <->
  exists v, In v allow /\ Js.trim v <> EmptyString /\ Js.trim v <> "*"
            /\ Js.toLowerCase (normalizeAgentId (Some v)) = x.
Proof.
  unfold setHas, allowSet. rewrite setOf_has, in_map_iff. split.
  - intros [(v & Heq & Hin) _]. apply filter_In in Hin as [Hin Hkeep].
    apply andb_true_iff in Hkeep as [Hne Hstar]. exists v.
    apply truthy_iff in Hne. apply negb_true_iff, String.eqb_neq in Hstar. tauto.
  - intros (v & Hin & Hne & Hstar & Heq). split; [|intros []].
    exists v. split; [exact Heq|]. apply filter_In. split; [exact Hin|].
    apply andb_true_iff. split; [now apply truthy_iff|].
    now apply negb_true_iff, String.eqb_neq.
Qed.

Lemma allowlistRejects_spec cfg params ctx :
  allowlistRejects cfg params ctx = true <->
  targetAgentId cfg params ctx <> requesterAgentId cfg ctx /\
  ~ permits (allowAgentsOf cfg (requesterAgentId cfg ctx)) (targetAgentId cfg params ctx).
Proof.
  unfold allowlistRejects, permits.
  rewrite !andb_true_iff, !negb_true_iff, String.eqb_neq.
  rewrite <- !not_true_iff_false, allowAny_spec, allowSet_spec.
  split.
  - intros (Hne & Hany & Hset). split; [exact Hne|].
    intros [Hw | (v & Hin & Hv & Heq)]; [tauto|].
    destruct (string_dec (Js.trim v) "*") as [Hstar | Hstar]; [apply Hany; eauto|].
    apply Hset. exists v. tauto.
  - intros (Hne & Hperm). split; [exact Hne|]. split.
    + intros Hw. apply Hperm. now left.
    + intros (v & Hin & Hv & _ & Heq). apply Hperm. right. exists v. tauto.
Qed.

(** C4 (allowlist enforcement).  A spawn whose normalized target agent
    differs from the requester agent is forbidden, with the world left as
    it was, unless the [allowAgents] list of the requester agent has an
    entry that trims to the wildcard or a non-blank entry equal to the
    target after normalization and lower-casing.  When the list permits
    the target, and always when the target is the requester's own agent,
    a spawn that passes the depth and fan-out checks is not forbidden. *)
Theorem allowlist_enforcement (params : SpawnSubagentParams)
  (ctx : SpawnSubagentContext) (w : World) :
  let requester := requesterAgentId (config w) ctx in
  let target := targetAgentId (config w) params ctx in
  let allow := allowAgentsOf (config w) requester in
  (target <> requester -> ~ permits allow target ->
   exists reason, spawnSubagentDirect params ctx w = (forbidden reason, w)) /\
  (target = requester \/ permits allow target ->
   callerDepth w ctx < maxSpawnDepthOf (config w) ->
   Registry.countActive (requesterInternalKey (config w) ctx) (runs w)
     < maxChildren (config w) ->
   status (fst (spawnSubagentDirect params ctx w)) <> Forbidden).
Proof.
  intros requester target allow. split.
  - intros Hne Hperm. apply spawn_rejects_unchanged. right. right.
    apply allowlistRejects_spec. split; assumption.
  - intros Hok Hdepth Hcount.
    destruct (spawnSubagentDirect params ctx w) as [res w'] eqn:E. cbn [fst].
    eapply spawn_not_forbidden; [exact Hdepth | exact Hcount | | exact E].
    apply not_true_iff_false. rewrite allowlistRejects_spec.
    fold requester target allow. tauto.
Qed.

End Allowlist.

Lemma allowlist_enforcement_witness :
  let C := Reference.collaborators Reference.acknowledging in
  let request := Reference.request "do the thing" (Some "other") in
  let ctx := Reference.context "agent:main:main" in
  let spawnWith entries :=
    spawnSubagentDirect request ctx (Reference.world (mainAllowing entries) [] 1000) in
  (exists reason, spawnWith ["alpha"]
                  = (forbidden reason, Reference.world (mainAllowing ["alpha"]) [] 1000)) /\
  status (fst (spawnWith ["*"])) <> Forbidden /\
  status (fst (spawnWith [" Other "])) <> Forbidden.
Proof.
  intros C request ctx spawnWith. split; [|split].
  - apply (allowlist_enforcement (C := C) request ctx
             (Reference.world (mainAllowing ["alpha"]) [] 1000)).
    + vm_compute. discriminate.
    + intros [(v & Hin & Hv) | (v & Hin & _ & Hv)];
        (destruct Hin as [<- | []]); vm_compute in Hv; discriminate.
  - apply (allowlist_enforcement (C := C) request ctx
             (Reference.world (mainAllowing ["*"]) [] 1000)).
    + right. left. exists "*". split; [left|]; reflexivity.
    + vm_compute. reflexivity.
    + vm_compute. reflexivity.
  - apply (allowlist_enforcement (C := C) request ctx
             (Reference.world (mainAllowing [" Other "]) [] 1000)).
    + right. right. exists " Other ". split; [left; reflexivity|].
      split; [vm_compute; discriminate | reflexivity].
    + vm_compute. reflexivity.
    + vm_compute. reflexivity.
Defined.

(** ** Model resolution *)

Lemma normalizeModelSelection_spec (v : JsValue) (rest : list (option string)) :
  orNullish (normalizeModelSelection v) (firstNonEmpty rest)
  = firstNonEmpty (selectionText v :: rest).
Proof.
  destruct v; try reflexivity.
  - cbn. unfold Js.nonEmpty. now destruct (Js.truthy (Js.trim s)).
  - cbn [normalizeModelSelection selectionText].
    destruct (jsGet (JObj fields) "primary"); try reflexivity.
    cbn. now destruct (Js.truthy (Js.trim s)).
Qed.

Lemma resolution_chain (v1 v2 v3 v4 v5 : JsValue) :
  orNullish (normalizeModelSelection v1)
    (orNullish (normalizeModelSelection v2)
       (orNullish (normalizeModelSelection v3)
          (orNullish (normalizeModelSelection v4) (normalizeModelSelection v5))))
  = firstNonEmpty (map selectionText [v1; v2; v3; v4; v5]).
Proof.
  cbn [map]. rewrite <- !normalizeModelSelection_spec. cbn [firstNonEmpty].
  now destruct (normalizeModelSelection v5).
Qed.

Lemma nonEmpty_Some (s t : string) : Js.nonEmpty s = Some t -> s = t /\ t <> EmptyString.
Proof.
  unfold Js.nonEmpty. destruct (Js.truthy s) eqn:E; [|discriminate].
  intros [= <-]. split; [reflexivity | now apply truthy_iff].
Qed.

Lemma bind_nonEmpty_Some (o : option string) (t : string) :
  o ≫= Js.nonEmpty = Some t -> o = Some t /\ t <> EmptyString.
Proof.
  destruct o as [s|]; [|discriminate]. cbn. intros H.
  apply nonEmpty_Some in H as [-> H]. now split.
Qed.

Section ModelResolution.

Context {C : Collaborators}.

Lemma register_In (r : SubagentRunRecord) (rs : list SubagentRunRecord) :
  In r (Registry.register r rs).
Proof. unfold Registry.register. apply in_or_app. right. now left. Qed.

(** C5 (model resolution priority).  The model resolved for the child is the
    first candidate that is non-empty once trimmed, trimmed, among: the
    override of the request, the [subagents.model] of the target agent,
    [agents.defaults.subagents.model], [agents.defaults.model.primary] and
    the runtime default [provider/model] of the target agent, in this
    order.  It is the model of every [sessions.patch] model call the spawn
    makes and of the run record an accepted spawn registers. *)
Theorem model_resolution_priority (params : SpawnSubagentParams)
  (ctx : SpawnSubagentContext) (w : World) :
  let cfg := config w in
  let target := targetAgentId cfg params ctx in
  let runtimeDefault := resolveDefaultModelForAgent cfg target in
  let effective := resolvedModel cfg (sp_model params) target in
  effective
  = firstNonEmpty
      [ sp_model params;
        selectionText (subagentsModel (agentSubagents (resolveAgentConfig cfg target)));
        selectionText (subagentsModel (agents_defaults_subagents cfg));
        selectionText (agents_defaults_model_primary cfg);
        Some (fst runtimeDefault +:+ "/" +:+ snd runtimeDefault) ] /\
  let '(res, w') := spawnSubagentDirect params ctx w in
  (forall key m reply,
     In (EvGateway (patchCall (PatchModel key m)) reply) (newEvents w w') ->
     effective = Some m) /\
  (status res = Accepted ->
   exists r, In r (runs w') /\ res_runId res = Some (runId r) /\ model r = effective).
Proof.
  intros cfg target runtimeDefault effective. split.
  - subst effective. unfold resolvedModel. rewrite resolution_chain.
    destruct (sp_model params); reflexivity.
  - destruct (spawnSubagentDirect params ctx w) as [res w'] eqn:E.
    unfold spawnSubagentDirect in E. unfold_M.
    fold cfg in E. fold target in E. fold effective in E.
    split_paths; trace_norm; cbn [status res_runId In];
      (split; [intros key m reply Hin | intros Hacc; try discriminate Hacc]);
      repeat match goal with
             | H : _ \/ _ |- _ => destruct H
             | H : False |- _ => destruct H
             | H : EvGateway _ _ = EvGateway _ _ |- _ => injection H as H ?
             | H : EvRegistry _ = EvGateway _ _ |- _ => discriminate H
             | H : patchCall _ = patchCall _ |- _ => injection H as H
             | H : patchCall _ = Build_GatewayCall _ _ _ |- _ => discriminate H
             | H : Build_GatewayCall _ _ _ = patchCall _ |- _ => discriminate H
             | H : PatchModel _ _ = PatchModel _ _ |- _ => injection H as ? ?
             | H : _ = PatchModel _ _ |- _ => discriminate H
             | H : PatchModel _ _ = _ |- _ => discriminate H
             | H : option_bind _ _ Js.nonEmpty _ = Some _ |- _ =>
                 apply bind_nonEmpty_Some in H as [H ?]
             end;
      subst; try assumption; try congruence.
    all: eexists; split; [apply register_In | split; reflexivity].
Qed.

End ModelResolution.

Lemma model_resolution_priority_witness :
  let C := Reference.collaborators Reference.acknowledging in
  let w := Reference.world configuredModels [] 1000 in
  let request := Reference.request "do the thing" None in
  let ctx := Reference.context "agent:main:main" in
  resolvedModel configuredModels None "main" = Some "openai/gpt-4o" /\
  exists r, In r (runs (snd (spawnSubagentDirect request ctx w)))
            /\ model r = Some "openai/gpt-4o".
Proof.
  intros C w request ctx.
  pose proof (model_resolution_priority (C := C) request ctx w) as [Heq Hrun].
  split.
  - etransitivity; [exact Heq | reflexivity].
  - destruct (spawnSubagentDirect request ctx w) as [res w'] eqn:E.
    destruct Hrun as [_ Hacc].
    vm_compute in E. injection E as <- <-.
    destruct Hacc as (r & Hin & _ & Hmodel); [reflexivity|].
    exists r. split; [exact Hin|]. etransitivity; [exact Hmodel | reflexivity].
Defined.

(** ** Thinking-level validation *)

Section Thinking.

Context {C : Collaborators}.

(** C6 (thinking-level validation before any side effect).  When a thinking
    token is present (the override of the request or, failing that, the
    configured default of the target agent or the global one) and
    [normalizeThinkLevel] does not know it, the spawn is not accepted and
    makes no gateway call, no registry change and no store change; once
    the admission checks have passed the result is the error whose message
    quotes the token and includes the valid levels. *)
Theorem thinking_validation (params : SpawnSubagentParams)
  (ctx : SpawnSubagentContext) (w : World) (candidate : string) :
  thinkingCandidateRaw (config w) params ctx = Some candidate ->
  candidate <> EmptyString ->
  normalizeThinkLevel candidate = None ->
  let '(res, w') := spawnSubagentDirect params ctx w in
  let hint :=
    let '(provider, modelName) :=
      splitModelRef
        (resolvedModel (config w) (sp_model params)
           (targetAgentId (config w) params ctx)) in
    formatThinkingLevels provider modelName in
  let message :=
    "Invalid thinking level " +:+ dquote +:+ candidate +:+ dquote
    +:+ ". Use one of: " +:+ hint +:+ "." in
  trace w' = trace w /\ runs w' = runs w /\ stores w' = stores w /\
  status res <> Accepted /\
  Js.includes message hint = true /\
  (callerDepth w ctx < maxSpawnDepthOf (config w) ->
   Registry.countActive (requesterInternalKey (config w) ctx) (runs w)
     < maxChildren (config w) ->
   allowlistRejects (config w) params ctx = false ->
   res = {| status := SpawnError; res_childSessionKey := None; res_runId := None;
            res_modelApplied := None; res_warning := None;
            res_error := Some message |}).
Proof.
  intros Hcand Hne Hunknown.
  destruct (spawnSubagentDirect params ctx w) as [res w'] eqn:E.
  cbv zeta.
  assert (Hinc : forall hint,
            Js.includes ("Invalid thinking level " +:+ dquote +:+ candidate +:+ dquote
                         +:+ ". Use one of: " +:+ hint +:+ ".") hint = true).
  { intros hint. do 5 apply includes_after. apply includes_prefix, prefix_app. }
  unfold spawnSubagentDirect in E. unfold_M.
  rewrite Hcand in E. cbn [option_bind] in E.
  apply truthy_iff in Hne. unfold Js.nonEmpty in E at 1. rewrite Hne, Hunknown in E.
  cbn [option_bind] in E.
  destruct (maxSpawnDepthOf (config w) <=? callerDepth w ctx) eqn:Hd.
  { injection E as <- <-. do 3 (split; [reflexivity|]).
    split; [discriminate|]. split; [apply Hinc|].
    intros Hlt. apply Z.leb_le in Hd. lia. }
  destruct (maxChildren (config w) <=? _) eqn:Hc.
  { injection E as <- <-. do 3 (split; [reflexivity|]).
    split; [discriminate|]. split; [apply Hinc|].
    intros _ Hlt. apply Z.leb_le in Hc. lia. }
  destruct (allowlistRejects (config w) params ctx) eqn:Ha.
  { injection E as <- <-. do 3 (split; [reflexivity|]).
    split; [discriminate|]. split; [apply Hinc|].
    intros _ _ [=]. }
  destruct (splitModelRef _) as [provider modelName].
  injection E as <- <-. do 3 (split; [reflexivity|]).
  split; [discriminate|]. split; [apply Hinc|]. reflexivity.
Qed.

End Thinking.

Lemma thinking_validation_witness :
  let C := Reference.collaborators Reference.acknowledging in
  let w := Reference.world (thinkingDefault "turbo") [] 1000 in
  let '(res, w') :=
    spawnSubagentDirect (Reference.request "do the thing" None)
      (Reference.context "agent:main:main") w in
  trace w' = [] /\ runs w' = [] /\ status res = SpawnError.
Proof.
  intros C w.
  pose proof (thinking_validation (C := C) (Reference.request "do the thing" None)
                (Reference.context "agent:main:main") w "turbo") as H.
  destruct (spawnSubagentDirect _ _ w) as [res w'].
  destruct H as (Htrace & Hruns & _ & _ & _ & Hres);
    [reflexivity | discriminate | reflexivity |].
  split; [exact Htrace | split; [exact Hruns|]].
  rewrite Hres; [reflexivity | vm_compute; reflexivity | vm_compute; reflexivity
                | reflexivity].
Defined.

(** ** The model patch *)

(** Which event of a listed trace a given event is. *)
Ltac locate_event :=
  repeat match goal with
         | H : In _ (_ :: _) |- _ => destruct H as [H | H]
         | H : In _ [] |- _ => destruct H
         | H : EvRegistry _ = EvGateway _ _ |- _ => discriminate H
         | H : EvGateway _ _ = EvGateway _ _ |- _ => injection H as H ?
         | H : patchCall _ = patchCall _ |- _ => injection H as H
         | H : Build_GatewayCall _ _ _ = patchCall _ |- _ =>
             apply (f_equal gw_method) in H; discriminate H
         | H : PatchModel _ _ = PatchModel _ _ |- _ => injection H as ? ?
         | H : PatchSpawnDepth _ _ = PatchModel _ _ |- _ => discriminate H
         | H : PatchThinkingLevel _ _ = PatchModel _ _ |- _ => discriminate H
         | H : Resolved _ = Rejected _ |- _ => discriminate H
         | H : Rejected _ = Rejected _ |- _ => injection H as H
         | H : false = true |- _ => discriminate H
         | H : true = false |- _ => discriminate H
         end.

Section ModelPatch.

Context {C : Collaborators}.

(** C7 (recoverable model patch).  When the [sessions.patch] call for the
    model is rejected with a message that contains "invalid model" or
    "model not allowed", the spawn goes on to its next gateway call (the
    thinking patch or the launch of the run); an accepted result then
    carries the message as [warning] with [modelApplied] false, and a
    result that is not accepted carries no warning.  With any other
    message the rejected call is the last effect and the result is the
    error with that message and the child session key. *)
Theorem recoverable_model_patch (params : SpawnSubagentParams)
  (ctx : SpawnSubagentContext) (w : World) (key m : string) (err : Thrown) :
  let '(res, w') := spawnSubagentDirect params ctx w in
  let failure := EvGateway (patchCall (PatchModel key m)) (Rejected err) in
  let messageText := messageTextOf err in
  In failure (newEvents w w') ->
  if Js.includes messageText "invalid model" || Js.includes messageText "model not allowed"
  then
    (exists before call reply after,
       newEvents w w' = (before ++ failure :: EvGateway call reply :: after)%list /\
       (gw_method call = "agent" \/
        exists level, call = patchCall (PatchThinkingLevel key level))) /\
    (status res = Accepted ->
     res_warning res = Some messageText /\ res_modelApplied res = Some false) /\
    (status res <> Accepted -> res_warning res = None)
  else
    res = {| status := SpawnError; res_childSessionKey := Some key; res_runId := None;
             res_modelApplied := None; res_warning := None;
             res_error := Some messageText |} /\
    exists before, newEvents w w' = (before ++ [failure])%list.
Proof.
  destruct (spawnSubagentDirect params ctx w) as [res w'] eqn:E. cbv zeta.
  unfold spawnSubagentDirect in E. unfold_M.
  intros Hin.
  split_paths; resolve_replies; trace_norm; locate_event; subst;
    repeat match goal with
           | H : (_ || _) = _ |- _ => rewrite H
           end;
    cbn [status res_warning res_modelApplied].
  all: try (split; [reflexivity | eexists [_]; reflexivity]).
  all: (split; [| split; [intros; try discriminate; split; reflexivity
                          | intros; try reflexivity; congruence]]).
  all: eexists [_], _, _, _; (split; [reflexivity|]); cbn [gw_method]; eauto.
Qed.

End ModelPatch.

Lemma recoverable_model_patch_witness :
  let spawnOn msg :=
    fst (spawnSubagentDirect (C := Reference.collaborators (modelRejecting msg))
           (Reference.request "do the thing" None) (Reference.context "agent:main:main")
           (Reference.world Reference.emptyConfig [] 1000)) in
  (res_warning (spawnOn "model not allowed: anthropic/claude-opus-4-5")
   = Some "model not allowed: anthropic/claude-opus-4-5" /\
   res_modelApplied (spawnOn "model not allowed: anthropic/claude-opus-4-5") = Some false) /\
  status (spawnOn "gateway closed") = SpawnError.
Proof.
  intros spawnOn. subst spawnOn. cbv beta. split.
  - pose proof (recoverable_model_patch
                  (C := Reference.collaborators
                          (modelRejecting "model not allowed: anthropic/claude-opus-4-5"))
                  (Reference.request "do the thing" None)
                  (Reference.context "agent:main:main")
                  (Reference.world Reference.emptyConfig [] 1000)
                  "agent:main:subagent:uuid-0" "anthropic/claude-opus-4-5"
                  (ThrownError "model not allowed: anthropic/claude-opus-4-5")) as H.
    destruct (spawnSubagentDirect _ _ _) as [res w'] eqn:E.
    vm_compute in E. injection E as <- <-.
    destruct H as (_ & Hacc & _); [right; left; reflexivity|].
    apply Hacc. reflexivity.
  - pose proof (recoverable_model_patch
                  (C := Reference.collaborators (modelRejecting "gateway closed"))
                  (Reference.request "do the thing" None)
                  (Reference.context "agent:main:main")
                  (Reference.world Reference.emptyConfig [] 1000)
                  "agent:main:subagent:uuid-0" "anthropic/claude-opus-4-5"
                  (ThrownError "gateway closed")) as H.
    destruct (spawnSubagentDirect _ _ _) as [res w'] eqn:E.
    vm_compute in E. injection E as <- <-.
    destruct H as [Hres _]; [right; left; reflexivity|].
    cbn [fst]. now rewrite Hres.
Defined.

(** ** Run ids *)

Lemma launched_id_nonempty (key : string) (response : JsValue) :
  key <> EmptyString ->
  default key (asString (jsGet response "runId") ≫= Js.nonEmpty) <> EmptyString.
Proof.
  intros Hkey. destruct (asString (jsGet response "runId") ≫= Js.nonEmpty) eqn:E.
  - apply bind_nonEmpty_Some in E as [_ H]. exact H.
  - exact Hkey.
Qed.

Ltac locate_launch :=
  repeat match goal with
         | H : In _ (_ :: _) |- _ => destruct H as [H | H]
         | H : In _ [] |- _ => destruct H
         | H : EvRegistry _ = EvGateway _ _ |- _ => discriminate H
         | H : EvGateway _ _ = EvRegistry _ |- _ => discriminate H
         | H : EvClearSessionQueues _ = _ |- _ => discriminate H
         | H : EvAbortEmbeddedPiRun _ = _ |- _ => discriminate H
         | H : EvLogVerbose _ = _ |- _ => discriminate H
         | H : EvGateway _ _ = EvGateway _ _ |- _ => injection H as H ?
         | H : EvRegistry _ = EvRegistry _ |- _ => injection H as H
         | H : RegisterRun _ = RegisterRun _ |- _ => injection H as H
         | H : ReplaceAfterSteer _ _ = ReplaceAfterSteer _ _ |- _ => injection H as ? ?
         | H : MarkForSteerRestart _ = _ |- _ => discriminate H
         | H : ClearSteerRestart _ = _ |- _ => discriminate H
         | H : false = true |- _ => discriminate H
         | H : true = false |- _ => discriminate H
         end.

Section RunIds.

Context {C : Collaborators}.

Hypothesis uuid_nonempty : forall n, uuidAt n <> EmptyString.

Lemma spawn_run_id (params : SpawnSubagentParams) (ctx : SpawnSubagentContext)
  (w : World) :
  let '(res, w') := spawnSubagentDirect params ctx w in
  (status res = Accepted ->
   exists id, res_runId res = Some id /\ id <> EmptyString /\
              exists r, In r (runs w') /\ runId r = id) /\
  (forall id, In (EvRegistry (RegisterRun id)) (newEvents w w') -> id <> EmptyString) /\
  (forall call reply p,
     In (EvGateway call reply) (newEvents w w') -> gw_params call = AgentRun p ->
     ap_idempotencyKey p = uuidAt (S (uuidsDrawn w)) /\
     forall response, reply = Resolved response ->
       res_runId res
       = Some (default (ap_idempotencyKey p)
                 (asString (jsGet response "runId") ≫= Js.nonEmpty))).
Proof.
  destruct (spawnSubagentDirect params ctx w) as [res w'] eqn:E.
  unfold spawnSubagentDirect in E. unfold_M.
  split_paths; resolve_replies; trace_norm; cbn [status res_runId].
  all: (split; [intros Hacc; try discriminate Hacc
               | split; [intros id Hin | intros call reply p Hin Hp]]).
  all: locate_launch; subst; cbn [gw_params patchCall] in *; try discriminate.
  all: try (apply launched_id_nonempty, uuid_nonempty).
  all: try (eexists; split; [reflexivity|]; split;
            [apply launched_id_nonempty, uuid_nonempty
            | eexists; split; [apply register_In | reflexivity]]).
  all: injection Hp as <-; cbn [ap_idempotencyKey]; (split; [reflexivity|]);
    intros ? [=]; subst; reflexivity.
Qed.

Lemma relaunch_run_id (params : CommandParams) (handledPrefix : string)
  (steerRequested : bool) (rs : list SubagentRunRecord) (restTokens : list string)
  (w : World) :
  let '(_, w') := sendOrSteerAction params handledPrefix steerRequested rs restTokens w in
  (forall prev next,
     In (EvRegistry (ReplaceAfterSteer prev next)) (newEvents w w') ->
     next <> EmptyString) /\
  (forall call reply id,
     In (EvGateway call reply) (newEvents w w') ->
     gw_params call = AgentWait id 30000 -> id <> EmptyString).
Proof.
  destruct (sendOrSteerAction _ _ _ _ _ w) as [out w'] eqn:E.
  unfold sendOrSteerAction, interruptForSteer, logCleared, relaunchCall in E. unfold_M.
  split_paths; resolve_replies; trace_norm.
  all: (split; [intros prev next Hin | intros call reply id Hin Hp]).
  all: locate_launch; subst; cbn [gw_params] in *; try discriminate.
  all: try (apply launched_id_nonempty, uuid_nonempty).
  all: injection Hp as <-; apply launched_id_nonempty, uuid_nonempty.
Qed.

End RunIds.

(** C10 (the run id is never empty).  Provided [crypto.randomUUID] never
    returns the empty string: the spawn draws the idempotency key of the
    launch, the second UUID it draws, before calling [agent], and the run id
    is the gateway's [runId] when that is a non-empty string and the key
    otherwise.  So the run id of an accepted result is non-empty and is
    that of a registered record, every record the spawn registers has a
    non-empty run id, and in the send and steer paths the run id waited on
    after a send and the run id that replaces a steered run are non-empty,
    whatever the gateway answers. *)
Theorem run_id_never_empty `{C : Collaborators} :
  (forall n, uuidAt n <> EmptyString) ->
  (forall (params : SpawnSubagentParams) (ctx : SpawnSubagentContext) (w : World),
     let '(res, w') := spawnSubagentDirect params ctx w in
     (status res = Accepted ->
      exists id, res_runId res = Some id /\ id <> EmptyString /\
                 exists r, In r (runs w') /\ runId r = id) /\
     (forall id, In (EvRegistry (RegisterRun id)) (newEvents w w') -> id <> EmptyString) /\
     (forall call reply p,
        In (EvGateway call reply) (newEvents w w') -> gw_params call = AgentRun p ->
        ap_idempotencyKey p = uuidAt (S (uuidsDrawn w)) /\
        forall response, reply = Resolved response ->
          res_runId res
          = Some (default (ap_idempotencyKey p)
                    (asString (jsGet response "runId") ≫= Js.nonEmpty)))) /\
  (forall (params : CommandParams) (handledPrefix : string) (steerRequested : bool)
          (rs : list SubagentRunRecord) (restTokens : list string) (w : World),
     let '(_, w') :=
       sendOrSteerAction params handledPrefix steerRequested rs restTokens w in
     (forall prev next,
        In (EvRegistry (ReplaceAfterSteer prev next)) (newEvents w w') ->
        next <> EmptyString) /\
     (forall call reply id,
        In (EvGateway call reply) (newEvents w w') ->
        gw_params call = AgentWait id 30000 -> id <> EmptyString)).
Proof.
  intros Huuid. split.
  - intros params ctx w. apply spawn_run_id, Huuid.
  - intros params handledPrefix steerRequested rs restTokens w.
    apply relaunch_run_id, Huuid.
Qed.

Lemma run_id_never_empty_witness :
  let C := Reference.collaborators Reference.acknowledging in
  let '(res, w') :=
    spawnSubagentDirect (Reference.request "do the thing" None)
      (Reference.context "agent:main:main")
      (Reference.world Reference.emptyConfig [] 1000) in
  res_runId res = Some "uuid-1" /\ exists r, In r (runs w') /\ runId r = "uuid-1".
Proof.
  intros C.
  assert (forall n, uuidAt n <> EmptyString) as Huuid by (intros n; discriminate).
  pose proof (proj1 (run_id_never_empty (C := C) Huuid)
                (Reference.request "do the thing" None)
                (Reference.context "agent:main:main")
                (Reference.world Reference.emptyConfig [] 1000)) as H.
  destruct (spawnSubagentDirect _ _ _) as [res w'] eqn:E.
  vm_compute in E. injection E as <- <-.
  destruct H as [Hacc _]. destruct Hacc as (id & Hid & _ & r & Hin & Hr); [reflexivity|].
  injection Hid as <-. split; [reflexivity|]. exists r. now split.
Defined.

(** ** Tokens of a command *)

Lemma string_of_rev_cons_nonempty (c : ascii) (cur : list ascii) :
  string_of_list_ascii (rev (c :: cur)) <> EmptyString.
Proof.
  intros H. apply (f_equal list_ascii_of_string) in H.
  rewrite list_ascii_of_string_of_list_ascii in H. cbn in H.
  now destruct (rev cur).
Qed.

Lemma tokensFrom_nonempty (s : string) (cur : list ascii) (t : string) :
  In t (Js.tokensFrom cur s) -> t <> EmptyString.
Proof.
  revert cur. induction s as [|c s IH]; intros cur; cbn [Js.tokensFrom].
  - destruct cur as [|x cur]; [intros []|].
    intros [<- | []]. apply string_of_rev_cons_nonempty.
  - destruct (Js.isWhitespace c).
    + destruct cur as [|x cur]; [apply IH|].
      intros [<- | Hin]; [apply string_of_rev_cons_nonempty | now apply (IH [])].
    + apply IH.
Qed.

Lemma parseAction_tokens (handledPrefix normalized action : string)
  (restTokens : list string) (t : string) :
  parseAction handledPrefix normalized = Some (action, restTokens) ->
  In t restTokens -> t <> EmptyString.
Proof.
  unfold parseAction. intros H Hin.
  set (tokens := Js.splitWhitespace _) in H.
  assert (In t tokens) as Ht.
  { destruct (String.eqb handledPrefix COMMAND).
    - destruct (existsb _ ACTIONS); [|discriminate]. injection H as _ <-.
      destruct tokens; [destruct Hin | now right].
    - destruct (String.eqb handledPrefix COMMAND_KILL); injection H as _ <-; exact Hin. }
  exact (tokensFrom_nonempty _ _ _ Ht).
Qed.

(** ** Steering *)

Lemma newEvents_extend (w w1 : World) (l l' : list Event) r st cf n u :
  trace w1 = (trace w ++ l)%list ->
  newEvents w {| runs := r; stores := st; config := cf; now := n; uuidsDrawn := u;
                 trace := trace w1 ++ l' |} = (newEvents w w1 ++ l')%list.
Proof.
  intros H. unfold newEvents. cbn [trace]. rewrite H, <- app_assoc.
  now rewrite !drop_app_length.
Qed.

Lemma setSteerRestart_twice (id : string) (b : bool) (rs : list SubagentRunRecord) :
  Registry.setSteerRestart id b (Registry.setSteerRestart id (negb b) rs)
  = Registry.setSteerRestart id b rs.
Proof.
  unfold Registry.setSteerRestart, Registry.update. rewrite map_map.
  apply map_ext. intros r. unfold Registry.hasRunId.
  destruct (String.eqb (runId r) id) eqn:E; cbn [runId Registry.withSteerRestart];
    now rewrite E.
Qed.

Section Steering.

Context {C : Collaborators}.

Lemma interruptForSteer_spec (run : SubagentRunRecord) (session : option string)
  (w : World) :
  let w1 := snd (interruptForSteer run session w) in
  runs w1 = Registry.setSteerRestart (runId run) true (runs w) /\
  stores w1 = stores w /\ now w1 = now w /\ uuidsDrawn w1 = uuidsDrawn w /\
  exists rest,
    trace w1 = (trace w ++ EvRegistry (MarkForSteerRestart (runId run)) :: rest)%list /\
    Forall quiet rest.
Proof.
  unfold interruptForSteer, logCleared. unfold_M.
  destruct session as [s|]; world_simpl;
    destruct (clearedQueues _ _) as [[followupCleared laneCleared] keys] eqn:Eq;
    world_simpl;
    destruct ((0 <? followupCleared) || (0 <? laneCleared)); world_simpl;
    repeat (split; [reflexivity|]);
    repeat rewrite <- app_assoc; cbn [app];
    eexists; (split; [reflexivity|]);
    repeat constructor.
Qed.

Lemma steer_action (params : CommandParams) (handledPrefix target : string)
  (rest : list string) (rs : list SubagentRunRecord) (run : SubagentRunRecord) (w : World) :
  target <> EmptyString ->
  Js.trim (String.concat " " rest) <> EmptyString ->
  entry (resolveSubagentTarget (now w) rs (Some target)) = Some run ->
  truthyNum (endedAt run) = false ->
  let session :=
    trimmedSessionId (snd (loadSubagentSessionEntry (stores w) params (childSessionKey run))) in
  let w1 := snd (interruptForSteer run session w) in
  let call :=
    relaunchCall (Js.trim (String.concat " " rest)) run session (uuidAt (uuidsDrawn w)) in
  let '(out, w') := sendOrSteerAction params handledPrefix true rs (target :: rest) w in
  match gateway (trace w1) call with
  | Rejected err =>
      newEvents w w'
      = (newEvents w w1
         ++ [EvGateway call (Rejected err); EvRegistry (ClearSteerRestart (runId run))])%list /\
      out = Returned (replied ("send failed: " +:+ messageTextOf err)) /\
      runs w' = Registry.setSteerRestart (runId run) false (runs w)
  | Resolved response =>
      let next :=
        default (uuidAt (uuidsDrawn w)) (asString (jsGet response "runId") ≫= Js.nonEmpty) in
      newEvents w w'
      = (newEvents w w1
         ++ [EvGateway call (Resolved response);
             EvRegistry (ReplaceAfterSteer (runId run) next)])%list /\
      out = Returned (replied ("steered " +:+ formatRunLabel run None +:+ runSuffix next)) /\
      runs w'
      = Registry.replace (now w) (runId run) next run (default 0 (runTimeoutSeconds run))
          (Registry.setSteerRestart (runId run) true (runs w))
  end.
Proof.
  intros Htarget Hmessage Hresolved Hactive session w1 call.
  destruct (interruptForSteer_spec run session w) as (Hruns & Hstores & Hnow & Huuid & evs & Htrace & Hquiet).
  fold w1 in Hruns, Hstores, Hnow, Huuid, Htrace.
  destruct (sendOrSteerAction _ _ _ _ _ w) as [out w'] eqn:E.
  unfold sendOrSteerAction in E.
  cbn [head tail] in E.
  apply truthy_iff in Htarget, Hmessage.
  cbn [mbind option_bind] in E. unfold Js.nonEmpty in E at 1. rewrite Htarget in E.
  unfold Js.nonEmpty in E at 1. rewrite Hmessage in E.
  unfold mbind at 1, M_bind at 1, Date_now at 1 in E.
  rewrite Hresolved in E. rewrite Hactive in E. cbn [andb] in E.
  unfold mbind at 1, M_bind at 1, getWorld at 1 in E.
  fold session in E.
  unfold mbind at 1, M_bind at 1 in E.
  destruct (interruptForSteer run session w) as [[] w1'] eqn:E1.
  cbn [snd] in w1. subst w1.
  unfold mbind, M_bind, mret, M_ret, randomUUID, callGateway, emit,
    clearSubagentRunSteerRestart, replaceSubagentRunAfterSteer, getWorld, setRuns in E.
  world_simpl. rewrite Huuid in E. fold call in E.
  destruct (gateway (trace w1') call) as [response | err].
  - injection E as <- <-. cbn [runs]. rewrite <- app_assoc. cbn [app].
    rewrite (newEvents_extend w w1' _ _ _ _ _ _ _ Htrace).
    rewrite Hruns, Hnow. repeat split.
  - injection E as <- <-. cbn [runs]. rewrite <- app_assoc. cbn [app].
    rewrite (newEvents_extend w w1' _ _ _ _ _ _ _ Htrace).
    rewrite Hruns. split; [reflexivity|]. split; [reflexivity|].
    apply (setSteerRestart_twice (runId run) false).
Qed.

Lemma setSteerRestart_ids (id : string) (b : bool) (rs : list SubagentRunRecord) :
  map runId (Registry.setSteerRestart id b rs) = map runId rs /\
  forall r, In r (Registry.setSteerRestart id b rs) -> runId r = id ->
            suppressAnnounceForSteerRestart r = b.
Proof.
  unfold Registry.setSteerRestart, Registry.update. split.
  - rewrite map_map. apply map_ext. intros r. now destruct (Registry.hasRunId id r).
  - intros r Hin Hid. apply in_map_iff in Hin as (r0 & <- & _).
    unfold Registry.hasRunId in *. destruct (String.eqb (runId r0) id) eqn:E.
    + reflexivity.
    + apply String.eqb_neq in E. contradiction.
Qed.

Lemma replace_result (t : Z) (prev next : string) (fallback : SubagentRunRecord)
  (timeout : Z) (rs : list SubagentRunRecord) :
  In (Registry.replacement t next fallback timeout)
     (Registry.replace t prev next fallback timeout rs) /\
  (next <> prev ->
   forall r, In r (Registry.replace t prev next fallback timeout rs) -> runId r <> prev).
Proof.
  unfold Registry.replace. split; [apply register_In|].
  intros Hne r Hin. unfold Registry.register in Hin.
  apply in_app_or in Hin as [Hin | [<- | []]].
  - unfold Registry.remove in Hin. apply filter_In in Hin as [Hin _].
    apply filter_In in Hin as [_ Hkeep].
    apply negb_true_iff in Hkeep. now apply String.eqb_neq in Hkeep.
  - exact Hne.
Qed.

(** C1 (steer rollback).  On a steer command whose target resolves to a run
    that has not ended, the first effect of the handler is to mark the run
    for steer-restart; the interruption that follows (abort, queue
    clearing, settle wait) makes no registry call and no [agent] call.  If
    the [agent] relaunch is then rejected, the handler clears the flag as
    its last effect, replies [send failed: ...] and never calls
    [replaceSubagentRunAfterSteer]: the registry holds the same run ids as
    before and no record of the run has the flag set.  If the relaunch
    resolves, the handler's last effect is the replacement of the run by
    the new run id, and only then. *)
Theorem steer_rollback (params : CommandParams) (w : World)
  (handledPrefix target key : string) (rest : list string) (run : SubagentRunRecord) :
  isAuthorizedSender params = true ->
  handledPrefixOf (commandBodyNormalized params) = Some handledPrefix ->
  parseAction handledPrefix (commandBodyNormalized params) = Some ("steer", target :: rest) ->
  Js.trim (String.concat " " rest) <> EmptyString ->
  resolveRequesterSessionKey params = Some key ->
  entry (resolveSubagentTarget (now w) (Registry.listFor key (runs w)) (Some target))
    = Some run ->
  truthyNum (endedAt run) = false ->
  let session :=
    trimmedSessionId (snd (loadSubagentSessionEntry (stores w) params (childSessionKey run))) in
  let w1 := snd (interruptForSteer run session w) in
  let call :=
    relaunchCall (Js.trim (String.concat " " rest)) run session (uuidAt (uuidsDrawn w)) in
  let '(out, w') := handleSubagentsCommand params true w in
  (exists interruption,
     newEvents w w1 = EvRegistry (MarkForSteerRestart (runId run)) :: interruption /\
     Forall quiet interruption) /\
  match gateway (trace w1) call with
  | Rejected err =>
      newEvents w w'
      = (newEvents w w1
         ++ [EvGateway call (Rejected err); EvRegistry (ClearSteerRestart (runId run))])%list /\
      out = Returned (replied ("send failed: " +:+ messageTextOf err)) /\
      (forall prev next, ~ In (EvRegistry (ReplaceAfterSteer prev next)) (newEvents w w')) /\
      runs w' = Registry.setSteerRestart (runId run) false (runs w) /\
      map runId (runs w') = map runId (runs w) /\
      (forall r, In r (runs w') -> runId r = runId run ->
                 suppressAnnounceForSteerRestart r = false)
  | Resolved response =>
      let next :=
        default (uuidAt (uuidsDrawn w)) (asString (jsGet response "runId") ≫= Js.nonEmpty) in
      let timeout := default 0 (runTimeoutSeconds run) in
      newEvents w w'
      = (newEvents w w1
         ++ [EvGateway call (Resolved response);
             EvRegistry (ReplaceAfterSteer (runId run) next)])%list /\
      out = Returned (replied ("steered " +:+ formatRunLabel run None +:+ runSuffix next)) /\
      runs w'
      = Registry.replace (now w) (runId run) next run timeout
          (Registry.setSteerRestart (runId run) true (runs w)) /\
      In (Registry.replacement (now w) next run timeout) (runs w') /\
      (next <> runId run -> forall r, In r (runs w') -> runId r <> runId run)
  end.
Proof.
  intros Hauth Hprefix Hparse Hmessage Hkey Hresolved Hactive session w1 call.
  assert (target <> EmptyString) as Htarget.
  { apply (parseAction_tokens _ _ _ _ target Hparse). now left. }
  pose proof (steer_action params handledPrefix target rest
                (Registry.listFor key (runs w)) run w
                Htarget Hmessage Hresolved Hactive) as Hsteer.
  cbv zeta in Hsteer. fold session w1 call in Hsteer.
  assert (handleSubagentsCommand params true w
          = sendOrSteerAction params handledPrefix true
              (Registry.listFor key (runs w)) (target :: rest) w) as ->.
  { unfold handleSubagentsCommand. cbn [negb].
    rewrite Hprefix, Hauth, Hparse, Hkey. cbn [negb].
    unfold listSubagentRunsForRequester, mbind, M_bind, getWorld, mret, M_ret.
    reflexivity. }
  destruct (sendOrSteerAction _ _ _ _ _ w) as [out w'].
  destruct (interruptForSteer_spec run session w)
    as (_ & _ & _ & _ & evs & Htrace & Hquiet).
  fold w1 in Htrace.
  assert (newEvents w w1 = EvRegistry (MarkForSteerRestart (runId run)) :: evs) as Hevents.
  { unfold newEvents. rewrite Htrace. apply drop_app_length. }
  split; [exists evs; now split|].
  destruct (gateway (trace w1) call) as [response | err].
  - destruct Hsteer as (Hev & Hout & Hruns). cbv zeta.
    split; [exact Hev|]. split; [exact Hout|]. split; [exact Hruns|].
    rewrite Hruns. apply replace_result.
  - destruct Hsteer as (Hev & Hout & Hruns).
    split; [exact Hev|]. split; [exact Hout|]. split; [|split; [exact Hruns|]].
    + intros prev next Hin. rewrite Hev, Hevents in Hin.
      cbn [app] in Hin. destruct Hin as [Hin | Hin]; [discriminate|].
      apply in_app_or in Hin as [Hin | [Hin | [Hin | []]]]; try discriminate.
      rewrite List.Forall_forall in Hquiet. apply Hquiet in Hin. exact Hin.
    + rewrite Hruns. apply setSteerRestart_ids.
Qed.

End Steering.

Lemma steer_rollback_witness :
  let C := Reference.collaborators (Reference.agentFailing "gateway closed") in
  let w := Reference.world Reference.emptyConfig listed 1000 in
  let '(out, w') :=
    handleSubagentsCommand (Reference.command "/steer 1 go left now" Reference.emptyConfig)
      true w in
  out = Returned (replied "send failed: gateway closed") /\
  map suppressAnnounceForSteerRestart (runs w') = [false; false; false].
Proof.
  intros C w.
  pose proof (steer_rollback (C := C)
                (Reference.command "/steer 1 go left now" Reference.emptyConfig) w
                "/steer" "1" "agent:main:main" ["go"; "left"; "now"]
                (Reference.run "r2" "agent:main:subagent:b" "agent:main:main"
                   "task two" 200 None)) as H.
  cbv zeta in H.
  destruct (handleSubagentsCommand _ true w) as [out w'].
  destruct H as [_ H]; try reflexivity; [vm_compute; discriminate|].
  vm_compute in H. destruct H as (_ & Hout & _ & Hruns & _).
  split; [exact Hout|].
  etransitivity; [exact (f_equal (map suppressAnnounceForSteerRestart) Hruns) | reflexivity].
Defined.

(** ** The limit of the log action *)

Lemma logLimit_bounds (restTokens : list string) : 1 <= logLimit restTokens <= 200.
Proof. unfold logLimit. destruct (List.find Js.isDigits restTokens); lia. Qed.

(** With a target that is not a number the limit is read from the tokens
    after it: the first all-digit one, clamped to [1, 200], and 20 when
    there is none. *)
Lemma logLimit_named_target (target : string) (rest : list string) :
  Js.isDigits target = false ->
  logLimit (target :: rest)
  = match List.find Js.isDigits rest with
    | Some limitToken => Z.min 200 (Z.max 1 (Z.of_N (Js.parseInt limitToken)))
    | None => 20
    end.
Proof. intros H. unfold logLimit. cbn [List.find]. now rewrite H. Qed.

(** With an index target the limit is the index, whatever follows it. *)
Lemma logLimit_index_target (target : string) (rest : list string) :
  Js.isDigits target = true ->
  logLimit (target :: rest) = Z.min 200 (Z.max 1 (Z.of_N (Js.parseInt target))).
Proof. intros H. unfold logLimit. cbn [List.find]. now rewrite H. Qed.

(** C9 (log limit), evaluated where it fails.  The limit token is searched
    among all the tokens after the action, the target included: with an
    index target the target itself is taken for the limit.  On
    [/subagents log 1 50] the history is fetched with limit 1, not 50, and
    on [/subagents log 2], where no limit is given, with limit 2, not 20. *)
Theorem log_limit_reads_index_target :
  let C := Reference.collaborators Reference.acknowledging in
  let w := Reference.world Reference.emptyConfig listed 1000 in
  let calls body :=
    newEvents w (snd (handleSubagentsCommand
                        (Reference.command body Reference.emptyConfig) true w)) in
  logLimit ["1"; "50"] = 1 /\
  calls "/subagents log 1 50"
  = [EvGateway {| gw_method := "chat.history";
                  gw_params := ChatHistory "agent:main:subagent:b" 1;
                  gw_timeoutMs := None |} (Resolved (JObj []))] /\
  calls "/subagents log 2"
  = [EvGateway {| gw_method := "chat.history";
                  gw_params := ChatHistory "agent:main:subagent:a" 2;
                  gw_timeoutMs := None |} (Resolved (JObj []))].
Proof. vm_compute. repeat split. Qed.

(** ** Further properties: the handler and its actions *)

Section Gating.

Context {C : Collaborators}.

(** X1 (gating of the handler).  With text commands disabled the handler
    returns null and does nothing.  A body that starts with none of the four
    command prefixes is not handled: null, the world as it was.  An
    unauthorized sender gets no reply: the result is null or the silent
    result, the registry, the stores and the UUID supply are unchanged, and
    the only effects are verbose log lines. *)
Theorem handler_gating (params : CommandParams) (w : World) :
  handleSubagentsCommand params false w = (Returned None, w) /\
  (forall allow,
     handledPrefixOf (commandBodyNormalized params) = None ->
     handleSubagentsCommand params allow w = (Returned None, w)) /\
  (forall allow,
     isAuthorizedSender params = false ->
     let '(out, w') := handleSubagentsCommand params allow w in
     (out = Returned None \/ out = Returned silent) /\
     runs w' = runs w /\ stores w' = stores w /\ uuidsDrawn w' = uuidsDrawn w /\
     Forall onlyLogs (newEvents w w')).
Proof.
  split; [reflexivity|]. split.
  - intros allow H. unfold handleSubagentsCommand. rewrite H. now destruct allow.
  - intros allow Hauth. unfold handleSubagentsCommand. rewrite Hauth. cbn [negb].
    unfold_M.
    destruct allow; cbn [negb].
    + destruct (handledPrefixOf _).
      * trace_norm. repeat split; auto. repeat constructor.
      * rewrite newEvents_refl. repeat split; auto.
    + rewrite newEvents_refl. repeat split; auto.
Qed.

(** X2 (actions that only read).  For an authorized sender and a handled
    prefix: a first token of [/subagents] that is not an action is answered
    with the help text, and a missing requester session key with
    "Missing session key.", both with the world as it was; the [help],
    [list] and [info] actions leave the world unchanged. *)
Theorem readonly_actions_leave_world (params : CommandParams) (w : World)
  (handledPrefix : string) :
  isAuthorizedSender params = true ->
  handledPrefixOf (commandBodyNormalized params) = Some handledPrefix ->
  match parseAction handledPrefix (commandBodyNormalized params) with
  | None =>
      handleSubagentsCommand params true w = (Returned (replied buildSubagentsHelp), w)
  | Some (action, _) =>
      (resolveRequesterSessionKey params = None ->
       handleSubagentsCommand params true w
       = (Returned (replied "⚠️ Missing session key."), w)) /\
      (In action ["help"; "list"; "info"] ->
       snd (handleSubagentsCommand params true w) = w)
  end.
Proof.
  intros Hauth Hprefix. unfold handleSubagentsCommand. cbn [negb].
  rewrite Hprefix, Hauth. cbn [negb].
  destruct (parseAction _ _) as [[action restTokens]|]; [|reflexivity].
  split.
  - intros ->. reflexivity.
  - intros Hin. destruct (resolveRequesterSessionKey params) as [key|]; [|reflexivity].
    unfold_M.
    destruct Hin as [<- | [<- | [<- | []]]]; cbn [String.eqb Ascii.eqb Bool.eqb]; try reflexivity.
    unfold infoAction. unfold_M.
    destruct (option_bind _ _ Js.nonEmpty (head restTokens)); [|reflexivity].
    cbv beta. destruct (entry _); reflexivity.
Qed.

End Gating.

Section EndedRuns.

Context {C : Collaborators}.

(** X3 (a run that has ended).  [kill] and [steer] on a target whose run
    has ended reply "<label> is already finished." and leave the world as
    it was.  [send] on the same target does not refuse: its first effect is
    the [agent] call that relaunches the session. *)
Theorem ended_run_is_refused (params : CommandParams) (handledPrefix key target : string)
  (rest : list string) (rs : list SubagentRunRecord) (run : SubagentRunRecord) (w : World) :
  target <> EmptyString ->
  entry (resolveSubagentTarget (now w) rs (Some target)) = Some run ->
  truthyNum (endedAt run) = true ->
  let refusal := Returned (replied (formatRunLabel run None +:+ " is already finished.")) in
  (target <> "all" -> target <> "*" ->
   killAction params handledPrefix key rs (target :: rest) w = (refusal, w)) /\
  (Js.trim (String.concat " " rest) <> EmptyString ->
   sendOrSteerAction params handledPrefix true rs (target :: rest) w = (refusal, w) /\
   exists reply later,
     newEvents w (snd (sendOrSteerAction params handledPrefix false rs (target :: rest) w))
     = EvGateway
         (relaunchCall (Js.trim (String.concat " " rest)) run
            (trimmedSessionId
               (snd (loadSubagentSessionEntry (stores w) params (childSessionKey run))))
            (uuidAt (uuidsDrawn w))) reply :: later).
Proof.
  intros Htarget Hresolved Hended refusal. apply truthy_iff in Htarget.
  split.
  - intros Hall Hstar. unfold killAction. cbn [head mbind option_bind].
    unfold Js.nonEmpty. rewrite Htarget.
    apply String.eqb_neq in Hall, Hstar. rewrite Hall, Hstar. cbn [orb].
    unfold_M. now rewrite Hresolved, Hended.
  - intros Hmessage. apply truthy_iff in Hmessage. split.
    + unfold sendOrSteerAction. cbn [head tail mbind option_bind].
      unfold Js.nonEmpty. rewrite Htarget, Hmessage.
      unfold_M. now rewrite Hresolved, Hended.
    + destruct (sendOrSteerAction params handledPrefix false rs (target :: rest) w)
        as [out w'] eqn:E.
      unfold sendOrSteerAction in E. cbn [head tail mbind option_bind] in E.
      unfold Js.nonEmpty in E at 1 2. rewrite Htarget, Hmessage in E.
      unfold relaunchCall in *. unfold_M. rewrite Hresolved in E. cbn [andb] in E.
      split_paths; resolve_replies; trace_norm; eauto.
Qed.

(** X4 (send and the registry).  [send] never changes the registry or the
    session stores and makes no registry call. *)
Theorem send_leaves_registry (params : CommandParams) (handledPrefix : string)
  (rs : list SubagentRunRecord) (restTokens : list string) (w : World) :
  let w' := snd (sendOrSteerAction params handledPrefix false rs restTokens w) in
  runs w' = runs w /\ stores w' = stores w /\ Forall notRegistry (newEvents w w').
Proof.
  destruct (sendOrSteerAction params handledPrefix false rs restTokens w) as [out w'] eqn:E.
  cbn [snd]. unfold sendOrSteerAction, relaunchCall in E. unfold_M.
  split_paths; resolve_replies; trace_norm; repeat split; repeat constructor.
Qed.

(** X5 (rejections that no [try] encloses).  In [log] a rejected gateway
    call makes the handler throw that error.  In [send] a rejected [agent]
    call is answered "send failed: <message>", while a rejected
    [agent.wait] or [chat.history] call is thrown.  [steer] never throws. *)
Theorem uncaught_rejections (params : CommandParams) (handledPrefix : string)
  (rs : list SubagentRunRecord) (restTokens : list string) (w : World) :
  (let '(out, w') := logAction params rs restTokens w in
   forall call err, In (EvGateway call (Rejected err)) (newEvents w w') -> out = Threw err) /\
  (let '(out, w') := sendOrSteerAction params handledPrefix false rs restTokens w in
   forall call err, In (EvGateway call (Rejected err)) (newEvents w w') ->
     if String.eqb (gw_method call) "agent"
     then out = Returned (replied ("send failed: " +:+ messageTextOf err))
     else out = Threw err) /\
  (let '(out, w') := sendOrSteerAction params handledPrefix true rs restTokens w in
   forall err, out <> Threw err).
Proof.
  split; [|split].
  - destruct (logAction params rs restTokens w) as [out w'] eqn:E.
    unfold logAction in E. unfold_M.
    split_paths; resolve_replies; trace_norm; intros ? ? Hin;
      locate_launch; try discriminate; congruence.
  - destruct (sendOrSteerAction params handledPrefix false rs restTokens w) as [out w'] eqn:E.
    unfold sendOrSteerAction, relaunchCall in E. unfold_M.
    split_paths; resolve_replies; trace_norm; intros ? ? Hin;
      locate_launch; subst; cbn [gw_method String.eqb Ascii.eqb Bool.eqb];
      try discriminate; congruence.
  - destruct (sendOrSteerAction params handledPrefix true rs restTokens w) as [out w'] eqn:E.
    unfold sendOrSteerAction, interruptForSteer, logCleared, relaunchCall in E. unfold_M.
    split_paths; intros ?; discriminate.
Qed.

End EndedRuns.

Section SendAndLog.

Context {C : Collaborators}.

(** X6 (what send makes of the wait).  [send] waits 30 s on the run id.
    When the wait resolves with status [timeout] the reply is
    "⏳ Subagent still running" and the wait is the last effect; with status
    [error] the reply is "⚠️ Subagent error: " and the error text, or
    "unknown error", and the wait is the last effect; otherwise the last
    effect is a [chat.history] call with limit 50. *)
Theorem send_wait_outcomes (params : CommandParams) (handledPrefix : string)
  (rs : list SubagentRunRecord) (restTokens : list string) (w : World) :
  let '(out, w') := sendOrSteerAction params handledPrefix false rs restTokens w in
  forall call wait,
    In (EvGateway call (Resolved wait)) (newEvents w w') ->
    gw_method call = "agent.wait" ->
    exists id,
      gw_params call = AgentWait id 30000 /\
      if isString (jsGet wait "status") "timeout" then
        out = Returned (replied ("⏳ Subagent still running" +:+ runSuffix id)) /\
        last (newEvents w w') = Some (EvGateway call (Resolved wait))
      else if isString (jsGet wait "status") "error" then
        out = Returned (replied
                ("⚠️ Subagent error: "
                 +:+ default "unknown error" (asString (jsGet wait "error"))
                 +:+ runSuffix id)) /\
        last (newEvents w w') = Some (EvGateway call (Resolved wait))
      else
        exists session reply,
          last (newEvents w w')
          = Some (EvGateway {| gw_method := "chat.history";
                               gw_params := ChatHistory session 50;
                               gw_timeoutMs := None |} reply).
Proof.
  destruct (sendOrSteerAction params handledPrefix false rs restTokens w) as [out w'] eqn:E.
  unfold sendOrSteerAction, relaunchCall in E. unfold_M.
  split_paths; resolve_replies; trace_norm; intros call wait Hin Hm;
    locate_launch; subst; cbn [gw_method] in Hm; try discriminate;
    eexists; (split; [reflexivity|]);
    repeat match goal with
           | H : isString _ _ = _ |- _ => rewrite H
           end; cbn [last]; eauto.
Qed.

(** X7 (log is one bounded read).  The [log] action leaves the registry,
    the stores and the UUID supply unchanged and has at most one effect: a
    [chat.history] call whose limit lies between 1 and 200. *)
Theorem log_is_one_bounded_read (params : CommandParams)
  (rs : list SubagentRunRecord) (restTokens : list string) (w : World) :
  let w' := snd (logAction params rs restTokens w) in
  runs w' = runs w /\ stores w' = stores w /\ uuidsDrawn w' = uuidsDrawn w /\
  (length (newEvents w w') <= 1)%nat /\
  forall e, In e (newEvents w w') ->
    exists session limit reply,
      e = EvGateway {| gw_method := "chat.history";
                       gw_params := ChatHistory session limit;
                       gw_timeoutMs := None |} reply /\
      1 <= limit <= 200.
Proof.
  destruct (logAction params rs restTokens w) as [out w'] eqn:E. cbn [snd].
  pose proof (logLimit_bounds restTokens) as Hb.
  unfold logAction in E. unfold_M.
  split_paths; resolve_replies; trace_norm; cbn [length];
    repeat (split; [reflexivity || lia|]);
    intros e Hin; locate_launch; subst; eauto 10.
Qed.

End SendAndLog.

Lemma bind_nonEmpty_None (o : option string) (s : string) :
  o ≫= Js.nonEmpty = None -> o = Some s -> s = EmptyString.
Proof. intros H ->. cbn in H. unfold Js.nonEmpty in H. now destruct s. Qed.

Section Kill.

Context {C : Collaborators}.

(** X20 (killing a run).  Killing a run that has not ended returns the
    silent result; its final step stops the subagents of the child session.
    Before that step: the embedded run is aborted exactly when the session
    entry has a non-empty session id; the queues of the child key and of the
    session id are cleared; an existing session entry is stored again with
    [abortedLastRun] set and [updatedAt] now, and the stores are unchanged
    when there is none; the last effect marks the run terminated with reason
    "killed"; no gateway call is made. *)
Theorem kill_marks_then_cascades (params : CommandParams)
  (handledPrefix requesterKey target : string) (rest : list string)
  (rs : list SubagentRunRecord) (run : SubagentRunRecord) (w : World) :
  target <> EmptyString -> target <> "all" -> target <> "*" ->
  entry (resolveSubagentTarget (now w) rs (Some target)) = Some run ->
  truthyNum (endedAt run) = false ->
  let childKey := childSessionKey run in
  let '(storePath, _, sessionEntry) := loadSubagentSessionEntry (stores w) params childKey in
  exists marked,
    killAction params handledPrefix requesterKey rs (target :: rest) w
    = (Returned silent, snd (stopSubagentsForRequester (cfg params) childKey marked)) /\
    last (newEvents w marked)
    = Some (EvRegistry (MarkTerminated (runId run) childKey "killed")) /\
    Forall notGateway (newEvents w marked) /\
    (forall s, In (EvAbortEmbeddedPiRun s) (newEvents w marked) <->
               sessionEntry ≫= sessionId = Some s /\ s <> EmptyString) /\
    In (EvClearSessionQueues [Some childKey; sessionEntry ≫= sessionId])
       (newEvents w marked) /\
    match sessionEntry with
    | Some before =>
        exists after,
          (stores marked !! storePath) ≫= (fun store => store !! childKey) = Some after /\
          abortedLastRun after = true /\ updatedAt after = now w /\
          sessionId after = sessionId before /\
          In (EvUpdateSessionStore storePath childKey) (newEvents w marked)
    | None => stores marked = stores w
    end.
Proof.
  intros Hne Hall Hstar Hresolved Hactive childKey.
  destruct (loadSubagentSessionEntry (stores w) params childKey)
    as [[storePath store] sessionEntry] eqn:Hload.
  destruct (killAction params handledPrefix requesterKey rs (target :: rest) w)
    as [out w'] eqn:E.
  unfold killAction in E. cbn [head mbind option_bind] in E.
  apply truthy_iff in Hne. unfold Js.nonEmpty in E. rewrite Hne in E.
  apply String.eqb_neq in Hall, Hstar. rewrite Hall, Hstar in E. cbn [orb] in E.
  unfold logCleared, updateSessionStore in E. unfold_M.
  rewrite Hresolved, Hactive in E. fold childKey in E. rewrite Hload in E.
  split_paths; trace_norm.
  all: eexists; (split; [match goal with
                         | H : stopSubagentsForRequester _ _ _ = _ |- _ => rewrite H
                         end; reflexivity|]).
  all: trace_norm.
  all: cbn [last]; (split; [reflexivity|]); (split; [repeat constructor|]).
  all: split; [|split; [cbn [In]; tauto|]].
  all: cbn [option_bind] in *.
  all: try (intros s1; split;
            [ intros Hin; cbn [In] in Hin;
              repeat (destruct Hin as [Hin | Hin]; try discriminate Hin);
              try contradiction;
              try (injection Hin as <-; now apply bind_nonEmpty_Some in Heqo)
            | intros [Hs Hn];
              first [ discriminate Hs
                    | apply bind_nonEmpty_Some in Heqo as [Heqo _];
                      rewrite Hs in Heqo; injection Heqo as ->; now left
                    | now elim Hn; apply (bind_nonEmpty_None _ _ Heqo) ] ]).
  all: try reflexivity.
  all: eexists; split; [rewrite lookup_insert_eq; cbn [option_bind];
                         apply lookup_insert_eq|].
  all: cbn [abortedLastRun updatedAt sessionId In]; tauto.
Qed.

End Kill.

(** ** Further properties: the spawn engine *)

Section SpawnOutcome.

Context {C : Collaborators}.

(** X8 (a run is registered exactly when the spawn is accepted).  A spawn
    never changes the session stores.  An accepted result carries a run id
    and a child session key and no error; the registration of that run id
    is the last effect and the only registry effect, and the registry then
    holds a record with that id and key, the task, the requester's internal
    key and no end time.  Any other result leaves the registry unchanged,
    makes no registry call, and carries an error message and neither
    [modelApplied] nor a warning. *)
Theorem spawn_registers_iff_accepted (params : SpawnSubagentParams)
  (ctx : SpawnSubagentContext) (w : World) :
  let '(res, w') := spawnSubagentDirect params ctx w in
  stores w' = stores w /\
  match status res with
  | Accepted =>
      exists id key,
        res_runId res = Some id /\ res_childSessionKey res = Some key /\
        res_error res = None /\
        last (newEvents w w') = Some (EvRegistry (RegisterRun id)) /\
        Forall notRegistry (removelast (newEvents w w')) /\
        exists record,
          In record (runs w') /\ runId record = id /\ childSessionKey record = key /\
          task record = sp_task params /\ endedAt record = None /\
          requesterSessionKey record = requesterInternalKey (config w) ctx
  | _ =>
      runs w' = runs w /\ Forall notRegistry (newEvents w w') /\
      res_modelApplied res = None /\ res_warning res = None /\
      exists msg, res_error res = Some msg
  end.
Proof.
  destruct (spawnSubagentDirect params ctx w) as [res w'] eqn:E.
  unfold spawnSubagentDirect in E. unfold_M.
  split_paths; resolve_replies; trace_norm; cbn [status forbidden failed];
    (split; [reflexivity|]);
    try (repeat (split; [reflexivity || (repeat constructor)|]); eauto; fail);
    (eexists _, _; do 3 (split; [reflexivity|]); cbn [last removelast];
     split; [reflexivity|]; split; [repeat constructor|];
     eexists; split; [apply register_In|]; repeat split).
Qed.

End SpawnOutcome.

Section SpawnCalls.

Context {C : Collaborators}.

(** X9 (a rejected call ends the spawn).  A rejected gateway call other
    than the model patch is the last effect of the spawn: the result is
    [error] with the thrown message and the child session key, with the
    idempotency key as run id when the rejected call is [agent] and no run
    id otherwise, and the registry is unchanged. *)
Theorem spawn_stops_at_rejected_call (params : SpawnSubagentParams)
  (ctx : SpawnSubagentContext) (w : World) :
  let '(res, w') := spawnSubagentDirect params ctx w in
  forall call err,
    In (EvGateway call (Rejected err)) (newEvents w w') ->
    (forall key m, gw_params call <> PatchModel key m) ->
    last (newEvents w w') = Some (EvGateway call (Rejected err)) /\
    res = failed (messageTextOf err)
            (Some (childSessionKeyOf (targetAgentId (config w) params ctx)
                     (uuidAt (uuidsDrawn w))))
            (match gw_params call with
             | AgentRun a => Some (ap_idempotencyKey a)
             | _ => None
             end) /\
    runs w' = runs w.
Proof.
  destruct (spawnSubagentDirect params ctx w) as [res w'] eqn:E.
  unfold spawnSubagentDirect in E. unfold_M.
  split_paths; resolve_replies; trace_norm; intros call failure Hin Hnot;
    locate_event; subst; cbn [gw_params patchCall] in *;
    try (exfalso; eapply Hnot; reflexivity);
    cbn [last]; auto.
Qed.

(** X10 (the gateway calls of a spawn).  A spawn draws at most two UUIDs.
    Its effects, if any, begin with the [sessions.patch] of the spawn depth,
    one more than the caller's.  Every gateway call has a 10 s timeout and
    addresses the child session key built from the target agent and the
    first UUID.  The model patch carries the resolved model; the thinking
    patch never carries "off"; the [agent] call carries the task, no
    delivery, the subagent lane, a timeout that is not negative, the
    requester's internal key as [spawnedBy] and the second UUID as
    idempotency key. *)
Theorem spawn_call_shapes (params : SpawnSubagentParams)
  (ctx : SpawnSubagentContext) (w : World) :
  let '(_, w') := spawnSubagentDirect params ctx w in
  let key := childSessionKeyOf (targetAgentId (config w) params ctx)
               (uuidAt (uuidsDrawn w)) in
  (uuidsDrawn w <= uuidsDrawn w' <= uuidsDrawn w + 2)%nat /\
  (newEvents w w' = [] \/
   exists reply rest,
     newEvents w w'
     = EvGateway (patchCall (PatchSpawnDepth key (callerDepth w ctx + 1))) reply :: rest) /\
  forall call reply,
    In (EvGateway call reply) (newEvents w w') ->
    gw_timeoutMs call = Some 10000 /\
    sessionOfCall (gw_params call) = Some key /\
    match gw_params call with
    | PatchSpawnDepth _ depth =>
        gw_method call = "sessions.patch" /\ depth = callerDepth w ctx + 1
    | PatchModel _ m =>
        gw_method call = "sessions.patch" /\ m <> EmptyString /\
        resolvedModel (config w) (sp_model params) (targetAgentId (config w) params ctx)
        = Some m
    | PatchThinkingLevel _ level =>
        gw_method call = "sessions.patch" /\ level <> Some "off"
    | AgentRun a =>
        gw_method call = "agent" /\
        ap_message a = sp_task params /\ ap_deliver a = false /\
        ap_lane a = AGENT_LANE_SUBAGENT /\ 0 <= ap_timeout a /\
        ap_spawnedBy a = Some (requesterInternalKey (config w) ctx) /\
        ap_idempotencyKey a = uuidAt (S (uuidsDrawn w)) /\
        ap_thinking a <> Some EmptyString
    | _ => False
    end.
Proof.
  destruct (spawnSubagentDirect params ctx w) as [res w'] eqn:E.
  unfold spawnSubagentDirect in E. unfold_M.
  split_paths; resolve_replies; trace_norm; (split; [lia|]);
    (split; [solve [auto | right; eauto]|]);
    intros call reply Hin; locate_event; subst;
    cbn [gw_timeoutMs gw_params gw_method patchCall sessionOfCall ap_sessionKey
         ap_message ap_deliver ap_lane ap_timeout ap_spawnedBy ap_idempotencyKey
         ap_thinking];
    repeat (split; [reflexivity|]).
  all: repeat match goal with
              | H : option_bind _ _ Js.nonEmpty _ = Some _ |- _ =>
                  apply bind_nonEmpty_Some in H as [? ?]
              end;
         repeat split; try lia; try congruence.
  all: try (intros [= ->]; rewrite String.eqb_refl in *; discriminate).
Qed.

End SpawnCalls.

(** ** Further properties: target resolution *)

Section Targets.

Context {C : Collaborators}.

Lemma unique_of_filter (p : SubagentRunRecord -> bool) (rs : list SubagentRunRecord)
  (r : SubagentRunRecord) :
  List.filter p rs = [r] -> In r rs /\ p r = true.
Proof. intros H. apply filter_In. rewrite H. now left. Qed.

Lemma allDigits_no_colon (s : string) :
  Js.allDigits s = true -> Js.includes s ":" = false.
Proof.
  induction s as [|c s IH]; [reflexivity|].
  cbn [Js.allDigits Js.includes]. intros H. apply andb_true_iff in H as [Hc Hs].
  rewrite (IH Hs), orb_false_r. cbn [String.prefix].
  destruct (ascii_dec c ":"%char) as [->|Hne]; [discriminate Hc|].
  destruct (Ascii.eqb_spec ":"%char c) as [E|_]; [congruence|].
  destruct (Ascii.ascii_dec ":"%char c); [congruence | reflexivity].
Qed.

(** X11 (outcomes of the target resolution).  A resolution with an error
    has no entry.  A missing or blank token gives "Missing subagent id.".
    For any other token, neither entry nor error happens only for "last"
    with no runs; "last" never gives an error, and every error is one of
    six reasons followed by the trimmed token. *)
Theorem target_resolution_outcomes (nowMs : Z) (rs : list SubagentRunRecord)
  (token : option string) :
  let r := resolveSubagentTarget nowMs rs token in
  (error r <> None -> entry r = None) /\
  match (Js.trim <$> token) ≫= Js.nonEmpty with
  | None => r = notFound "Missing subagent id."
  | Some trimmed =>
      (entry r = None -> error r = None ->
       trimmed = "last" /\ sortSubagentRuns rs = []) /\
      (forall msg, error r = Some msg ->
         trimmed <> "last" /\
         exists reason,
           msg = reason +:+ trimmed /\
           In reason ["Invalid subagent index: "; "Unknown subagent session: ";
                      "Ambiguous subagent label: "; "Ambiguous subagent label prefix: ";
                      "Ambiguous run id prefix: "; "Unknown subagent id: "])
  end.
Proof.
  cbv zeta. unfold resolveSubagentTarget.
  destruct ((Js.trim <$> token) ≫= Js.nonEmpty) as [trimmed|];
    [|split; [reflexivity | reflexivity]].
  destruct (String.eqb_spec trimmed "last") as [->|Hlast].
  { split; [intros H; now elim H|]. split.
    - intros H _. split; [reflexivity|]. cbn [found entry] in H.
      destruct (sortSubagentRuns rs); [reflexivity | discriminate H].
    - intros msg H. discriminate H. }
  cbv zeta.
  destruct (Js.isDigits trimmed).
  { destruct ((Js.parseInt trimmed =? 0)%N
              || (N.of_nat (length (numericOrder nowMs rs)) <? Js.parseInt trimmed)%N)
      eqn:Hidx.
    - cbn [notFound found entry error]. split; [reflexivity|]. split; [discriminate|].
      intros msg [= <-]. split; [assumption|]. eexists. split; [reflexivity|]. cbn; tauto.
    - apply orb_false_iff in Hidx as [H0 Hlen].
      apply N.eqb_neq in H0. apply N.ltb_ge in Hlen.
      destruct (lookup_lt_is_Some_2 (numericOrder nowMs rs)
                  (N.to_nat (Js.parseInt trimmed) - 1)%nat) as [e He]; [lia|].
      rewrite He. cbn [notFound found entry error].
      split; [intros H; now elim H|]. split; discriminate. }
  destruct (Js.includes trimmed ":").
  { destruct (List.find _ rs); cbn [notFound found entry error].
    - split; [intros H; now elim H|]. split; discriminate.
    - split; [reflexivity|]. split; [discriminate|].
      intros msg [= <-]. split; [assumption|]. eexists. split; [reflexivity|]. cbn; tauto. }
  repeat match goal with
         | |- context [match ?l with [] => _ | _ => _ end] =>
             destruct l as [|? [|? ?]]
         end; cbn [notFound found entry error];
    (split; [first [reflexivity | intros H; now elim H]|]);
    (split; [discriminate|]);
    try discriminate;
    intros msg [= <-]; (split; [assumption|]); eexists; (split; [reflexivity|]); cbn; tauto.
Qed.

(** X12 (the target is one of the runs).  When [sortSubagentRuns] returns
    only runs it was given, the run a token resolves to is one of the runs
    of the requester. *)
Theorem target_is_one_of_the_runs (nowMs : Z) (rs : list SubagentRunRecord)
  (token : option string) (run : SubagentRunRecord) :
  (forall x, In x (sortSubagentRuns rs) -> In x rs) ->
  entry (resolveSubagentTarget nowMs rs token) = Some run ->
  In run rs.
Proof.
  intros Hsort. unfold resolveSubagentTarget.
  destruct ((Js.trim <$> token) ≫= Js.nonEmpty) as [trimmed|]; [|discriminate].
  destruct (String.eqb trimmed "last").
  { cbn [found entry]. intros H. apply Hsort.
    destruct (sortSubagentRuns rs); [discriminate H|]. injection H as ->. now left. }
  cbv zeta. destruct (Js.isDigits trimmed).
  { destruct (_ || _); [discriminate|]. cbn [found entry]. intros H.
    apply list_elem_of_lookup_2, list_elem_of_In in H. unfold numericOrder in H.
    apply in_app_or in H as [H | H]; apply filter_In in H as [H _]; now apply Hsort. }
  destruct (Js.includes trimmed ":").
  { destruct (List.find _ rs) eqn:Hf; [|discriminate]. cbn [found entry].
    intros [= <-]. now apply find_some in Hf as [Hf _]. }
  repeat match goal with
         | |- context [match ?l with [] => _ | _ => _ end] =>
             let E := fresh "E" in destruct l as [|? [|? ?]] eqn:E
         end; cbn [notFound found entry]; try discriminate;
    intros [= <-];
    match goal with
    | E : List.filter _ rs = [_] |- _ => now apply unique_of_filter in E as [E _]
    end.
Qed.

End Targets.

Section TargetKinds.

Context {C : Collaborators}.

Lemma colon_not_digits (s : string) :
  Js.includes s ":" = true -> Js.isDigits s = false.
Proof.
  intros H. destruct (Js.isDigits s) eqn:E; [|reflexivity].
  unfold Js.isDigits in E. destruct s; [discriminate|].
  apply allDigits_no_colon in E. congruence.
Qed.

(** X13 (session-key targets).  A token that contains a colon is matched
    against the full child session keys only: the run it resolves to has
    exactly that key; when no run has it the result is
    "Unknown subagent session: <token>", whatever the labels and run ids;
    when some run has it the token resolves without error. *)
Theorem session_key_target_is_exact (nowMs : Z) (rs : list SubagentRunRecord)
  (token : string) :
  Js.includes (Js.trim token) ":" = true ->
  let r := resolveSubagentTarget nowMs rs (Some token) in
  (forall run, entry r = Some run ->
     In run rs /\ childSessionKey run = Js.trim token) /\
  ((forall run, In run rs -> childSessionKey run <> Js.trim token) ->
   r = notFound ("Unknown subagent session: " +:+ Js.trim token)) /\
  (forall run, In run rs -> childSessionKey run = Js.trim token ->
     exists first, entry r = Some first /\ error r = None).
Proof.
  intros Hcolon. cbv zeta. unfold resolveSubagentTarget.
  cbn [fmap option_fmap option_map mbind option_bind].
  assert (Js.nonEmpty (Js.trim token) = Some (Js.trim token)) as ->.
  { unfold Js.nonEmpty. destruct (Js.trim token); [discriminate Hcolon | reflexivity]. }
  assert (String.eqb (Js.trim token) "last" = false) as ->.
  { destruct (String.eqb_spec (Js.trim token) "last") as [E|]; [|reflexivity].
    rewrite E in Hcolon. discriminate Hcolon. }
  cbv zeta. rewrite (colon_not_digits _ Hcolon), Hcolon.
  destruct (List.find _ rs) as [m|] eqn:Hf; cbn [found notFound entry error].
  - apply find_some in Hf as Hm. destruct Hm as [Hin Hkey].
    apply String.eqb_eq in Hkey. split; [|split].
    + intros run [= <-]. now split.
    + intros Hnone. now elim (Hnone m Hin).
    + intros run _ _. now exists m.
  - split; [discriminate|]. split; [reflexivity|].
    intros run Hin Hkey. apply (find_none _ _ Hf) in Hin.
    apply String.eqb_neq in Hin. contradiction.
Qed.

(** X14 (indexes stay within the listing).  A numeric token never resolves
    to a run that ended before the 30 minute window: the run has no end
    time, or ended at or after [now] minus 30 minutes. *)
Theorem index_target_is_active_or_recent (nowMs : Z) (rs : list SubagentRunRecord)
  (token : string) (run : SubagentRunRecord) :
  Js.isDigits (Js.trim token) = true ->
  entry (resolveSubagentTarget nowMs rs (Some token)) = Some run ->
  match endedAt run with
  | Some ended => ended = 0 \/ nowMs - 30 * 60000 <= ended
  | None => True
  end.
Proof.
  intros Hd. rewrite (resolve_digits _ _ _ Hd). cbv zeta.
  destruct (_ || _); [discriminate|]. cbn [found entry]. intros H.
  apply list_elem_of_lookup_2, list_elem_of_In in H. unfold numericOrder in H.
  apply in_app_or in H as [H | H]; apply filter_In in H as [_ H].
  - unfold isActive, truthyNum in H. destruct (endedAt run) as [e|]; [|exact I].
    left. destruct (Z.eqb_spec e 0); [assumption | discriminate H].
  - unfold isRecent in H. apply andb_true_iff in H as [_ H].
    destruct (endedAt run) as [e|]; [|exact I]. right.
    cbn [default] in H. apply Z.leb_le in H. exact H.
Qed.

End TargetKinds.

(** ** Further properties: model references and trimming *)

Lemma trimStart_clean (s : string) : startsClean (Js.trimStart s).
Proof.
  induction s as [|c s IH]; cbn [Js.trimStart]; [exact I|].
  destruct (Js.isWhitespace c) eqn:E; [exact IH | exact E].
Qed.

Lemma clean_trimStart (s : string) : startsClean s -> Js.trimStart s = s.
Proof. destruct s as [|c s]; cbn; [reflexivity|]. now intros ->. Qed.

Lemma trimEnd_clean (s : string) : startsClean s -> startsClean (Js.trimEnd s).
Proof.
  destruct s as [|c s]; cbn [Js.trimEnd startsClean]; [exact id|]. intros H.
  destruct (Js.trimEnd s); [rewrite H|]; exact H.
Qed.

Lemma trimEnd_idempotent (s : string) : Js.trimEnd (Js.trimEnd s) = Js.trimEnd s.
Proof.
  induction s as [|c s IH]; [reflexivity|]. cbn [Js.trimEnd].
  destruct (Js.trimEnd s) as [|d t] eqn:E.
  - destruct (Js.isWhitespace c) eqn:Hc; [reflexivity|]. cbn [Js.trimEnd]. now rewrite Hc.
  - change (Js.trimEnd (String c (String d t)))
      with (match Js.trimEnd (String d t) with
            | EmptyString =>
                if Js.isWhitespace c then EmptyString else String c EmptyString
            | rest' => String c rest'
            end).
    now rewrite IH.
Qed.

Lemma trim_idempotent (s : string) : Js.trim (Js.trim s) = Js.trim s.
Proof.
  unfold Js.trim.
  rewrite (clean_trimStart (Js.trimEnd (Js.trimStart s)))
    by apply trimEnd_clean, trimStart_clean.
  apply trimEnd_idempotent.
Qed.

Lemma untilSlash_spec (s : string) :
  Js.includes (fst (Js.untilSlash s)) "/" = false /\
  match snd (Js.untilSlash s) with
  | Some rest => s = fst (Js.untilSlash s) +:+ "/" +:+ rest
  | None => s = fst (Js.untilSlash s)
  end.
Proof.
  induction s as [|c s [IHa IHs]]; [now split|].
  cbn [Js.untilSlash]. destruct (Ascii.eqb_spec c "/"%char) as [->|Hc].
  - now split.
  - destruct (Js.untilSlash s) as [a r]. cbn [fst snd] in *. split.
    + cbn [Js.includes String.prefix]. rewrite IHa.
      destruct (ascii_dec "/"%char c); [congruence | reflexivity].
    + destruct r as [rest|].
      * change (String c a +:+ "/" +:+ rest) with (String c (a +:+ "/" +:+ rest)).
        now f_equal.
      * now f_equal.
Qed.

Lemma untilSlash_app (p rest : string) :
  Js.includes p "/" = false ->
  Js.untilSlash (p +:+ "/" +:+ rest) = (p, Some rest).
Proof.
  induction p as [|c p IH]; intros H.
  - reflexivity.
  - change (String c p +:+ "/" +:+ rest) with (String c (p +:+ "/" +:+ rest)).
    cbn [Js.includes String.prefix] in H. apply orb_false_iff in H as [Hc Hp].
    cbn [Js.untilSlash].
    destruct (Ascii.eqb_spec c "/"%char) as [->|_];
      [destruct (ascii_dec "/"%char "/"%char);
         [destruct p; discriminate Hc | congruence]|].
    now rewrite (IH Hp).
Qed.

Lemma untilSlash_none (m : string) :
  Js.includes m "/" = false -> Js.untilSlash m = (m, None).
Proof.
  induction m as [|c m IH]; intros H; [reflexivity|].
  cbn [Js.includes String.prefix] in H. apply orb_false_iff in H as [Hc Hm].
  cbn [Js.untilSlash].
  destruct (Ascii.eqb_spec c "/"%char) as [->|_];
    [destruct (ascii_dec "/"%char "/"%char);
       [destruct m; discriminate Hc | congruence]|].
  now rewrite (IH Hm).
Qed.

Section ModelStrings.

Context {C : Collaborators}.

(** X15 (model selections are trimmed).  [normalizeModelSelection] returns
    only non-empty strings on which [trim] changes nothing: the trimmed
    string it was given, or the trimmed [primary] of the object.  So is the
    model resolved for the child session. *)
Theorem model_selection_is_trimmed (cfg : Config) (modelOverride : option string)
  (target : string) :
  (forall v s, normalizeModelSelection v = Some s ->
     s <> EmptyString /\ Js.trim s = s /\
     exists raw, s = Js.trim raw /\ (v = JStr raw \/ jsGet v "primary" = JStr raw)) /\
  (forall m, resolvedModel cfg modelOverride target = Some m ->
     m <> EmptyString /\ Js.trim m = m).
Proof.
  assert (forall v s, normalizeModelSelection v = Some s ->
     s <> EmptyString /\ Js.trim s = s /\
     exists raw, s = Js.trim raw /\ (v = JStr raw \/ jsGet v "primary" = JStr raw)) as Hn.
  { intros v s H. destruct v; try discriminate H; cbn [normalizeModelSelection] in H.
    - apply nonEmpty_Some in H as [<- H]. split; [exact H|].
      split; [apply trim_idempotent | eauto].
    - destruct (jsGet (JObj fields) "primary") as [| | | |raw| |]; try discriminate H.
      destruct (Js.truthy (Js.trim raw)) eqn:E; [|discriminate H].
      injection H as <-. split; [now apply truthy_iff|].
      split; [apply trim_idempotent | eauto]. }
  split; [exact Hn|].
  intros m H. unfold resolvedModel, orNullish in H.
  repeat match type of H with
         | match ?x with _ => _ end = _ => destruct x eqn:?
         end; simplify_eq;
    match goal with
    | E : normalizeModelSelection _ = Some m |- _ => apply Hn in E as (? & ? & _)
    end; now split.
Qed.

(** X16 (the parts of a model reference).  [splitModelRef] returns no
    model only for a missing or blank reference, and never a provider
    without a model.  A model without provider is the whole trimmed
    reference.  A provider and a model are free of slashes, the model is
    not empty, and the trimmed reference is [provider/model], possibly
    followed by a further [/...] that is dropped. *)
Theorem splitModelRef_parts (ref : option string) :
  match splitModelRef ref with
  | (None, None) => ref = None \/ exists s, ref = Some s /\ Js.trim s = EmptyString
  | (None, Some m) => exists s, ref = Some s /\ m = Js.trim s /\ m <> EmptyString
  | (Some p, Some m) =>
      exists s, ref = Some s /\ m <> EmptyString /\
        Js.includes p "/" = false /\ Js.includes m "/" = false /\
        (Js.trim s = p +:+ "/" +:+ m \/
         exists dropped, Js.trim s = p +:+ "/" +:+ m +:+ "/" +:+ dropped)
  | (Some _, None) => False
  end.
Proof.
  unfold splitModelRef. destruct ref as [s|]; [|now left].
  destruct (Js.truthy s) eqn:Hs; cbn [negb].
  2:{ right. exists s. split; [reflexivity|]. now destruct s. }
  destruct (Js.truthy (Js.trim s)) eqn:Ht; cbn [negb].
  2:{ right. exists s. split; [reflexivity|]. now destruct (Js.trim s). }
  apply truthy_iff in Ht.
  unfold Js.split2Slash.
  pose proof (untilSlash_spec (Js.trim s)) as [Hp Hrest].
  destruct (Js.untilSlash (Js.trim s)) as [p r]. cbn [fst snd] in *.
  destruct r as [rest|]; cbn [fmap option_fmap option_map]; [|eauto].
  pose proof (untilSlash_spec rest) as [Hm Hdropped].
  destruct (Js.untilSlash rest) as [m d]. cbn [fst snd] in *.
  destruct (Js.truthy m) eqn:Hmt; [|eauto].
  apply truthy_iff in Hmt. exists s. do 4 (split; [assumption || reflexivity|]).
  destruct d as [dropped|]; [right; exists dropped | left]; congruence.
Qed.

(** X17 (round trip of a model reference).  For a provider and a non-empty
    model without slashes, splitting [provider/model], with or without a
    further [/segment], gives the provider and the model back. *)
Theorem splitModelRef_round_trip (provider model tail : string) :
  Js.includes provider "/" = false -> Js.includes model "/" = false ->
  model <> EmptyString ->
  tail = EmptyString \/ (exists dropped, tail = "/" +:+ dropped) ->
  Js.trim (provider +:+ "/" +:+ model +:+ tail) = provider +:+ "/" +:+ model +:+ tail ->
  splitModelRef (Some (provider +:+ "/" +:+ model +:+ tail)) = (Some provider, Some model).
Proof.
  intros Hp Hm Hne Htail Htrim. unfold splitModelRef.
  assert (Js.truthy (provider +:+ "/" +:+ model +:+ tail) = true) as ->.
  { destruct provider; reflexivity. }
  cbn [negb]. rewrite Htrim.
  assert (Js.truthy (provider +:+ "/" +:+ model +:+ tail) = true) as ->.
  { destruct provider; reflexivity. }
  cbn [negb]. unfold Js.split2Slash. rewrite (untilSlash_app _ _ Hp).
  cbn [fmap option_fmap option_map].
  assert (fst (Js.untilSlash (model +:+ tail)) = model) as ->.
  { destruct Htail as [-> | [dropped ->]].
    - assert (model +:+ EmptyString = model) as -> by (clear; induction model as [|c m IH];
        [reflexivity | change (String c m +:+ EmptyString) with (String c (m +:+ EmptyString)); now rewrite IH]).
      now rewrite (untilSlash_none _ Hm).
    - now rewrite (untilSlash_app _ _ Hm). }
  apply truthy_iff in Hne. now rewrite Hne.
Qed.

End ModelStrings.

(** ** Further properties: the spawn action *)

Lemma parseSpawnFlags_step (t next : string) (rest acc : list string)
  (model thinking : option string) :
  notFlag t ->
  parseSpawnFlags (t :: next :: rest) acc model thinking
  = parseSpawnFlags (next :: rest) (acc ++ [t]) model thinking.
Proof.
  intros [Hm Ht]. cbn [parseSpawnFlags].
  apply String.eqb_neq in Hm, Ht. now rewrite Hm, Ht.
Qed.

Section SpawnCommand.

Context {C : Collaborators}.

(** X18 (flags of the spawn action).  Tokens none of which is [--model] or
    [--thinking] are all task text, in order, and so is a single token after
    them, flag or not.  After such tokens [--model v] sets the model and
    [--thinking v] the thinking level, and neither token joins the task. *)
Theorem spawn_flags_parsing (pre acc : list string) (model thinking : option string) :
  Forall notFlag pre ->
  parseSpawnFlags pre acc model thinking = ((acc ++ pre)%list, model, thinking) /\
  (forall flag, parseSpawnFlags (pre ++ [flag]) acc model thinking
                = ((acc ++ pre ++ [flag])%list, model, thinking)) /\
  (forall v post,
     parseSpawnFlags (pre ++ "--model" :: v :: post) acc model thinking
     = parseSpawnFlags post (acc ++ pre) (Some v) thinking) /\
  (forall v post,
     parseSpawnFlags (pre ++ "--thinking" :: v :: post) acc model thinking
     = parseSpawnFlags post (acc ++ pre) model (Some v)).
Proof.
  intros Hpre. revert acc.
  induction Hpre as [|t pre Ht Hpre IH]; intros acc.
  - rewrite app_nil_r. cbn [app parseSpawnFlags String.eqb Ascii.eqb Bool.eqb].
    repeat split; reflexivity.
  - destruct (IH (acc ++ [t])%list) as (IH1 & IH2 & IH3 & IH4).
    assert (forall l : list string, ((acc ++ [t]) ++ l = acc ++ t :: l)%list) as Hassoc
      by (intros l; now rewrite <- app_assoc).
    split; [|split; [|split]].
    + destruct pre as [|next pre]; [reflexivity|].
      rewrite parseSpawnFlags_step by assumption. now rewrite IH1, Hassoc.
    + intros flag. specialize (IH2 flag).
      destruct pre as [|next pre]; cbn [app] in *;
        rewrite parseSpawnFlags_step by assumption; now rewrite IH2, Hassoc.
    + intros v post. specialize (IH3 v post).
      destruct pre as [|next pre]; cbn [app] in *;
        rewrite parseSpawnFlags_step by assumption; now rewrite IH3, Hassoc.
    + intros v post. specialize (IH4 v post).
      destruct pre as [|next pre]; cbn [app] in *;
        rewrite parseSpawnFlags_step by assumption; now rewrite IH4, Hassoc.
Qed.

(** X19 (replies of the spawn action).  The spawn action never changes the
    session stores and gives one of three replies: the usage line, with the
    world as it was; "Spawn failed: <message>", with the registry as it
    was; or "Spawned subagent <agentId> (session <key>, run <id>)." with the
    first token as agent id and the first 8 characters of the run id, and
    then the registry holds a record of that run id and session key, with
    cleanup [keep] and a task that is trimmed and not empty. *)
Theorem spawn_command_reply (params : CommandParams) (requesterKey : string)
  (restTokens : list string) (w : World) :
  let '(out, w') := spawnAction params requesterKey restTokens w in
  stores w' = stores w /\
  ((out = Returned (replied
      "Usage: /subagents spawn <agentId> <task> [--model <model>] [--thinking <level>]")
    /\ w' = w) \/
   (exists msg, out = Returned (replied ("Spawn failed: " +:+ msg)) /\ runs w' = runs w) \/
   (exists agentId session id warning record,
      out = Returned (replied
              ("Spawned subagent " +:+ agentId +:+ " (session " +:+ session +:+ ", run "
               +:+ Js.sliceTo 8 id +:+ ")." +:+ warning)) /\
      head restTokens = Some agentId /\
      In record (runs w') /\ runId record = id /\ childSessionKey record = session /\
      cleanup record = CleanupKeep /\ task record <> EmptyString /\
      Js.trim (task record) = task record)).
Proof.
  destruct (spawnAction params requesterKey restTokens w) as [out w'] eqn:E.
  unfold spawnAction in E.
  destruct (parseSpawnFlags (tail restTokens) [] None None) as [[taskParts model] thinking].
  destruct (head restTokens) as [agentId|] eqn:Hhead; cbn [mbind option_bind] in E.
  2:{ unfold_M. simplify_eq. auto. }
  destruct (Js.nonEmpty agentId) as [agentId'|] eqn:Hagent.
  2:{ unfold_M. simplify_eq. auto. }
  apply nonEmpty_Some in Hagent as [<- _].
  destruct (Js.nonEmpty (Js.trim (String.concat " " taskParts))) as [task|] eqn:Htask.
  2:{ unfold_M. simplify_eq. auto. }
  apply nonEmpty_Some in Htask as [Htask Hne].
  unfold spawnSubagentDirect in E. unfold_M.
  split_paths; cbn [status forbidden failed res_error res_childSessionKey res_runId
                    res_warning default fmap option_fmap option_map mbind option_bind] in *;
    simplify_eq; world_simpl; (split; [reflexivity|]);
    try (right; left; eexists; split; reflexivity).
  all: right; right; eexists _, _, _, _, _; split; [reflexivity|]; split; [reflexivity|];
    (split; [apply register_In|]); cbn [runId childSessionKey cleanup task default];
    repeat (split; [reflexivity || assumption|]).
  all: cbn [sp_task]; apply trim_idempotent.
Qed.

End SpawnCommand.

(** ** Further properties: display *)

Lemma sliceFrom_nonempty (n : nat) (s : string) :
  (n < String.length s)%nat -> Js.sliceFrom n s <> EmptyString.
Proof.
  revert s. induction n as [|n IH]; intros [|c s] H; cbn in *; try lia; try discriminate.
  apply IH. lia.
Qed.

Lemma includes_slash_cons (c : ascii) (s : string) :
  Js.includes (String c s) "/" = Ascii.eqb c "/"%char || Js.includes s "/".
Proof.
  cbn [Js.includes String.prefix]. f_equal.
  destruct (ascii_dec "/"%char c) as [<-|Hne].
  - now destruct s.
  - symmetry. apply Ascii.eqb_neq. congruence.
Qed.

(** [lastIndexOf] finds a slash after which there is none. *)
Lemma lastIndexOfSlash_spec (s : string) (i : nat) :
  match Js.lastIndexOfSlash i s with
  | Some j => (i <= j < i + String.length s)%nat /\
              Js.includes (Js.sliceFrom (S (j - i)) s) "/" = false
  | None => Js.includes s "/" = false
  end.
Proof.
  revert i. induction s as [|c s IH]; intros i; [reflexivity|].
  cbn [Js.lastIndexOfSlash]. specialize (IH (S i)).
  destruct (Js.lastIndexOfSlash (S i) s) as [j|].
  - destruct IH as [Hj Hs]. cbn [String.length]. split; [lia|].
    replace (S (j - i)) with (S (S (j - S i))) by lia. exact Hs.
  - rewrite includes_slash_cons, IH.
    destruct (Ascii.eqb c "/"); [|reflexivity].
    cbn [String.length]. split; [lia|]. now rewrite Nat.sub_diag.
Qed.

Section Display.

Context {C : Collaborators}.

Lemma qualified_truthy (provider model : string) :
  Js.truthy (qualified provider model) = Js.truthy model.
Proof.
  unfold qualified. destruct (Js.includes model "/"); [reflexivity|].
  destruct model; [reflexivity|]. destruct provider; reflexivity.
Qed.

(** X21 (the model shown).  The model shown for a run is never empty.  It
    is "model n/a", or has no slash, or ends with its last slash, in which
    case the configured text is shown whole. *)
Theorem model_display_shape (e : option SessionEntry) (fallbackModel : option string) :
  let shown := resolveModelDisplay e fallbackModel in
  shown <> EmptyString /\
  (shown = "model n/a" \/ Js.includes shown "/" = false \/
   Js.lastIndexOfSlash 0 shown = Some (String.length shown - 1)%nat).
Proof.
  cbv zeta. unfold resolveModelDisplay.
  match goal with
  | |- context [if negb (Js.truthy ?c) then _ else _] => generalize c
  end.
  intros combined. destruct (Js.truthy combined) eqn:Ht; cbn [negb].
  2:{ split; [discriminate | now left]. }
  apply truthy_iff in Ht.
  pose proof (lastIndexOfSlash_spec combined 0) as Hs.
  destruct (Js.lastIndexOfSlash 0 combined) as [slash|] eqn:Hl.
  - destruct Hs as [Hj Hs]. rewrite Nat.sub_0_r in Hs.
    destruct (slash <? String.length combined - 1)%nat eqn:Hlt.
    + apply Nat.ltb_lt in Hlt. rewrite Nat.add_1_r. split.
      * apply sliceFrom_nonempty. lia.
      * right. now left.
    + apply Nat.ltb_ge in Hlt. split; [exact Ht|]. right. right.
      rewrite Hl. f_equal. lia.
  - split; [exact Ht|]. right. now left.
Qed.

(** X22 (which model is shown).  When the session entry has a model or a
    model override, the fallback model does not matter; when it has a model,
    the overrides do not matter either. *)
Theorem model_display_precedence (se : SessionEntry) (fallbackModel other : option string) :
  trimmedText (se_model se) <> EmptyString \/
  trimmedText (se_modelOverride se) <> EmptyString ->
  resolveModelDisplay (Some se) fallbackModel = resolveModelDisplay (Some se) other /\
  (trimmedText (se_model se) <> EmptyString ->
   forall override provider,
     resolveModelDisplay (Some se) fallbackModel
     = resolveModelDisplay
         (Some {| sessionId := sessionId se; sessionFile := sessionFile se;
                  abortedLastRun := abortedLastRun se; updatedAt := updatedAt se;
                  se_model := se_model se; se_modelProvider := se_modelProvider se;
                  se_modelOverride := override; se_providerOverride := provider |})
         fallbackModel).
Proof.
  intros H.
  assert (forall provider override fb,
            Js.truthy (trimmedText (se_model se)) = true ->
            resolveModelDisplay
              (Some {| sessionId := sessionId se; sessionFile := sessionFile se;
                       abortedLastRun := abortedLastRun se; updatedAt := updatedAt se;
                       se_model := se_model se; se_modelProvider := se_modelProvider se;
                       se_modelOverride := override; se_providerOverride := provider |}) fb
            = resolveModelDisplay (Some se) None) as Hmodel.
  { intros provider override fb Hm. unfold resolveModelDisplay.
    cbn [se_model se_modelProvider se_modelOverride se_providerOverride].
    rewrite qualified_truthy, Hm. cbv beta iota.
    now rewrite qualified_truthy, Hm. }
  assert (forall fb, Js.truthy (trimmedText (se_model se)) = true ->
            resolveModelDisplay (Some se) fb = resolveModelDisplay (Some se) None) as Hse.
  { intros fb Hm. rewrite <- (Hmodel (se_providerOverride se) (se_modelOverride se) fb Hm).
    now destruct se. }
  split.
  - destruct (Js.truthy (trimmedText (se_model se))) eqn:Hm.
    { now rewrite (Hse fallbackModel), (Hse other). }
    destruct (Js.truthy (trimmedText (se_modelOverride se))) eqn:Ho.
    2:{ exfalso. destruct H as [H | H]; apply truthy_iff in H; congruence. }
    unfold resolveModelDisplay. rewrite qualified_truthy, Hm. cbv beta iota.
    now rewrite qualified_truthy, Ho.
  - intros Hne override provider. apply truthy_iff in Hne.
    now rewrite (Hse _ Hne), (Hmodel _ _ _ Hne).
Qed.


End Display.

(** ** Further properties: command prefixes and the spawn tool *)

Section Prefixes.

Context {C : Collaborators}.



End Prefixes.

Section SpawnToolProperties.

Context {C : Collaborators}.

Lemma spawn_timeout_and_cleanup (params : SpawnSubagentParams)
  (ctx : SpawnSubagentContext) (w : World) :
  let timeout := match sp_runTimeoutSeconds params with Some t => Z.max 0 t | None => 0 end in
  let shownLabel :=
    match sp_label params with Some l => Js.nonEmpty (Js.trim l) | None => None end in
  let '(res, w') := spawnSubagentDirect params ctx w in
  (forall call reply a,
     In (EvGateway call reply) (newEvents w w') -> gw_params call = AgentRun a ->
     ap_timeout a = timeout /\ ap_message a = sp_task params /\ ap_label a = shownLabel) /\
  (status res = Accepted ->
   exists record,
     In record (runs w') /\ Some (runId record) = res_runId res /\
     runTimeoutSeconds record = Some timeout /\ label record = shownLabel /\
     cleanup record = default CleanupKeep (sp_cleanup params)).
Proof.
  destruct (spawnSubagentDirect params ctx w) as [res w'] eqn:E.
  unfold spawnSubagentDirect in E. unfold_M.
  assert (Js.nonEmpty EmptyString = None) as Hnone by reflexivity.
  split_paths; resolve_replies; trace_norm;
    (split; [intros call reply a Hin Hcall; locate_event; subst;
             cbn [gw_params patchCall] in Hcall; try discriminate Hcall;
             injection Hcall as <-; repeat split; reflexivity|]);
    cbn [status forbidden failed]; try discriminate; intros _;
    eexists; (split; [apply register_In|]); repeat split; reflexivity.
Qed.

(** X25 (the timeout of the spawn tool).  The tool takes
    [runTimeoutSeconds] when it is a number and [timeoutSeconds] otherwise,
    and never a negative value.  That value, 0 when neither is a number, is
    the timeout of the [agent] call of the spawn and the
    [runTimeoutSeconds] of the record an accepted spawn registers; the
    call carries the task and the trimmed label, and the record is cleaned
    up by [delete] only when the arguments say so. *)
Theorem tool_timeout_reaches_the_run (task : string) (args : JsValue)
  (ctx : SpawnSubagentContext) (w : World) :
  let timeout :=
    match timeoutSecondsCandidate args with Some t => Z.max 0 t | None => 0 end in
  (0 <= timeout /\
   (forall t, jsGet args "runTimeoutSeconds" = JNum t -> timeout = Z.max 0 t) /\
   (forall t, (forall t', jsGet args "runTimeoutSeconds" <> JNum t') ->
      jsGet args "timeoutSeconds" = JNum t -> timeout = Z.max 0 t)) /\
  let '(res, w') := spawnSubagentDirect (sessionsSpawnParams task args) ctx w in
  (forall call reply a,
     In (EvGateway call reply) (newEvents w w') -> gw_params call = AgentRun a ->
     ap_timeout a = timeout /\ ap_message a = task /\
     ap_label a = sp_label (sessionsSpawnParams task args)) /\
  (status res = Accepted ->
   exists record,
     In record (runs w') /\ Some (runId record) = res_runId res /\
     runTimeoutSeconds record = Some timeout /\
     cleanup record = if isString (jsGet args "cleanup") "delete"
                      then CleanupDelete else CleanupKeep).
Proof.
  cbv zeta. split.
  { unfold timeoutSecondsCandidate. split; [|split].
    - repeat case_match; lia.
    - intros t ->. reflexivity.
    - intros t Hnot Ht. rewrite Ht.
      destruct (jsGet args "runTimeoutSeconds"); try reflexivity.
      now elim (Hnot z). }
  pose proof (spawn_timeout_and_cleanup (sessionsSpawnParams task args) ctx w) as H.
  cbv zeta in H.
  destruct (spawnSubagentDirect (sessionsSpawnParams task args) ctx w) as [res w'].
  destruct H as [Hcalls Hrecord].
  assert (match sp_runTimeoutSeconds (sessionsSpawnParams task args) with
          | Some t => Z.max 0 t | None => 0 end
          = match timeoutSecondsCandidate args with
            | Some t => Z.max 0 t | None => 0 end) as Htimeout.
  { cbn [sessionsSpawnParams sp_runTimeoutSeconds].
    destruct (timeoutSecondsCandidate args); cbn; lia. }
  assert (match sp_label (sessionsSpawnParams task args) with
          | Some l => Js.nonEmpty (Js.trim l) | None => None end
          = sp_label (sessionsSpawnParams task args)) as Hlabel.
  { cbn [sessionsSpawnParams sp_label].
    destruct (jsGet args "label"); try reflexivity.
    destruct (Js.nonEmpty (Js.trim s)) as [l|] eqn:El; [|reflexivity].
    apply nonEmpty_Some in El as [<- Hne]. rewrite trim_idempotent.
    unfold Js.nonEmpty. apply truthy_iff in Hne. now rewrite Hne. }
  rewrite Htimeout, Hlabel in *. split.
  - intros call reply a Hin Hcall. exact (Hcalls call reply a Hin Hcall).
  - intros Hacc. destruct (Hrecord Hacc) as (record & Hin & Hid & Ht & _ & Hc).
    exists record. repeat split; assumption.
Qed.

End SpawnToolProperties.

(** ** The further properties on the example data *)

Lemma readonly_actions_leave_world_witness :
  let C := Reference.collaborators Reference.acknowledging in
  let w := Reference.world Reference.emptyConfig listed 1000 in
  snd (handleSubagentsCommand (Reference.command "/subagents info 1" Reference.emptyConfig)
         true w) = w.
Proof.
  intros C w.
  apply (proj2 (readonly_actions_leave_world (C := C)
                  (Reference.command "/subagents info 1" Reference.emptyConfig) w
                  "/subagents" eq_refl eq_refl)).
  right. right. left. reflexivity.
Defined.

Lemma ended_run_is_refused_witness :
  let C := Reference.collaborators Reference.acknowledging in
  let w := Reference.world Reference.emptyConfig listed 1000 in
  killAction (Reference.command "/kill 3" Reference.emptyConfig) "/kill" "agent:main:main"
    listed ["3"] w
  = (Returned (replied "task three is already finished."), w).
Proof.
  intros C w.
  apply (proj1 (ended_run_is_refused (C := C)
                  (Reference.command "/kill 3" Reference.emptyConfig) "/kill"
                  "agent:main:main" "3" [] listed
                  (Reference.run "r3" "agent:main:subagent:c" "agent:main:main"
                     "task three" 300 (Some 900))
                  w ltac:(discriminate) eq_refl eq_refl));
    discriminate.
Defined.

Lemma target_is_one_of_the_runs_witness :
  let C := Reference.collaborators Reference.acknowledging in
  In (Reference.run "r2" "agent:main:subagent:b" "agent:main:main" "task two" 200 None)
     listed.
Proof.
  intros C.
  apply (target_is_one_of_the_runs (C := C) 1000 listed (Some "1")).
  - intros x Hx. vm_compute in Hx. vm_compute. tauto.
  - reflexivity.
Defined.

Lemma session_key_target_is_exact_witness :
  let C := Reference.collaborators Reference.acknowledging in
  exists first,
    entry (resolveSubagentTarget 1000 listed (Some " agent:main:subagent:b ")) = Some first /\
    error (resolveSubagentTarget 1000 listed (Some " agent:main:subagent:b ")) = None.
Proof.
  intros C.
  apply (proj2 (proj2 (session_key_target_is_exact (C := C) 1000 listed
                         " agent:main:subagent:b " eq_refl))
           (Reference.run "r2" "agent:main:subagent:b" "agent:main:main" "task two" 200 None)).
  - right. left. reflexivity.
  - reflexivity.
Defined.

Lemma index_target_is_active_or_recent_witness :
  900 = 0 \/ 1000 - 30 * 60000 <= 900.
Proof.
  exact (index_target_is_active_or_recent
           (C := Reference.collaborators Reference.acknowledging) 1000 listed "3"
           (Reference.run "r3" "agent:main:subagent:c" "agent:main:main"
              "task three" 300 (Some 900))
           eq_refl eq_refl).
Defined.

Lemma splitModelRef_round_trip_witness :
  splitModelRef (Some "openrouter/anthropic/claude") = (Some "openrouter", Some "anthropic").
Proof.
  apply (splitModelRef_round_trip "openrouter" "anthropic" "/claude"); try reflexivity.
  - discriminate.
  - right. now exists "claude".
Defined.

Lemma spawn_flags_parsing_witness :
  parseSpawnFlags ["do"; "it"; "--model"; "openai/gpt-4o"; "now"] [] None None
  = parseSpawnFlags ["now"] ["do"; "it"] (Some "openai/gpt-4o") None.
Proof.
  apply (proj1 (proj2 (proj2 (spawn_flags_parsing ["do"; "it"] [] None None
                                ltac:(repeat constructor; discriminate))))
           "openai/gpt-4o" ["now"]).
Defined.

Lemma model_display_precedence_witness :
  let se :=
    {| sessionId := None; sessionFile := None; abortedLastRun := false; updatedAt := 0;
       se_model := JStr "gpt-4o"; se_modelProvider := JStr "openai";
       se_modelOverride := JUndefined; se_providerOverride := JUndefined |} in
  resolveModelDisplay (Some se) (Some "anthropic/claude") = resolveModelDisplay (Some se) None.
Proof.
  intros se.
  apply (proj1 (model_display_precedence se (Some "anthropic/claude") None
                  ltac:(left; discriminate))).
Defined.

Lemma kill_marks_then_cascades_witness :
  let C := Reference.collaborators Reference.acknowledging in
  let w := Reference.world Reference.emptyConfig listed 1000 in
  exists marked,
    killAction (Reference.command "/kill 1" Reference.emptyConfig) "/kill" "agent:main:main"
      listed ["1"] w
    = (Returned silent,
       snd (stopSubagentsForRequester Reference.emptyConfig "agent:main:subagent:b" marked)) /\
    last (newEvents w marked)
    = Some (EvRegistry (MarkTerminated "r2" "agent:main:subagent:b" "killed")).
Proof.
  intros C w.
  pose proof (kill_marks_then_cascades (C := C)
                (Reference.command "/kill 1" Reference.emptyConfig) "/kill"
                "agent:main:main" "1" [] listed
                (Reference.run "r2" "agent:main:subagent:b" "agent:main:main"
                   "task two" 200 None)
                w ltac:(discriminate) ltac:(discriminate) ltac:(discriminate)
                eq_refl eq_refl) as H.
  cbv zeta in H.
  destruct (loadSubagentSessionEntry _ _ _) as [[storePath store] sessionEntry].
  destruct H as (marked & Hkill & Hlast & _).
  exists marked. split; [exact Hkill | exact Hlast].
Defined.

Lemma uncaught_rejections_witness :
  let C := Reference.collaborators (Reference.agentFailing "gateway closed") in
  let w := Reference.world Reference.emptyConfig listed 1000 in
  fst (sendOrSteerAction (Reference.command "/subagents send 1 hello" Reference.emptyConfig)
         "/subagents" false listed ["1"; "hello"] w)
  = Returned (replied "send failed: gateway closed").
Proof.
  intros C w.
  pose proof (proj1 (proj2 (uncaught_rejections (C := C)
                (Reference.command "/subagents send 1 hello" Reference.emptyConfig)
                "/subagents" listed ["1"; "hello"] w))) as H.
  vm_compute in H. specialize (H _ _ (or_introl eq_refl)).
  exact H.
Defined.

Lemma spawn_stops_at_rejected_call_witness :
  let C := Reference.collaborators (Reference.agentFailing "gateway closed") in
  let w := Reference.world Reference.emptyConfig listed 1000 in
  fst (spawnSubagentDirect (Reference.request "count the files" None)
         (Reference.context "agent:main:main") w)
  = failed "gateway closed" (Some "agent:main:subagent:uuid-0") (Some "uuid-1").
Proof.
  intros C w.
  pose proof (spawn_stops_at_rejected_call (C := C)
                (Reference.request "count the files" None)
                (Reference.context "agent:main:main") w) as H.
  vm_compute in H.
  specialize (H _ _ (or_intror (or_intror (or_introl eq_refl)))
                ltac:(discriminate)).
  exact (proj1 (proj2 H)).
Defined.
